(** * Messenger-Scrapper: a shallow embedding of [main.py] and its properties

    Definitions come first:
    - [Py]: the fragment of Python's built-in string operations the script
      relies on ([in], [lower], [int], [splitlines], [os.path.join], [str]);
    - [MD5]: [hashlib.md5(..).hexdigest()];
    - [Effects]: the outside world (browser session, HTTP client,
      filesystem, clock), exceptions, and the monad that threads them;
    - the script: [get_message_container], [download_image],
      [get_image_hash], [download_loaded_images], [scroll_until_date],
      and the entry point, [setup_driver] and [main];
    - the vocabulary in which the properties are stated, and a small page
      to run the script on.
    The properties of the scroll controller and of the image harvester
    follow, then their use on the small page, and then further properties
    of each function: what it raises, which files it leaves alone, what its
    result counts.

    Modelling choices. Strings are byte strings and the addresses, attribute
    values and ledger entries are taken to be ASCII. The numbers the browser
    answers are integers (the only test made on the scroll offset is
    [== 0]). [max_scrolls] is the length of [range(max_scrolls)]. Printing
    is left out. The browser, the network and the disk may answer each call
    differently: they are functions of the moment of the call. *)

From Stdlib Require Import ZArith Ascii Bool Lia DecimalString.
From Stdlib Require String DecimalPos DecimalZ.
From stdpp Require Import base gmap strings list.

Local Open Scope Z_scope.

(** ** Python string operations *)

Module Py.

(** Python [str] values are modelled as byte strings ([string]); the
    addresses, attribute values and ledger entries handled by the script are
    ASCII. *)

Definition code (c : ascii) : Z := Z.of_N (N_of_ascii c).

(** [needle in hay] *)
Fixpoint contains (needle hay : string) : bool :=
  String.prefix needle hay ||
  match hay with
  | EmptyString => false
  | String _ hay' => contains needle hay'
  end.

(** [s.lower()] on ASCII letters *)
Definition lower_ascii (c : ascii) : ascii :=
  if (65 <=? code c) && (code c <=? 90)
  then ascii_of_N (N_of_ascii c + 32)
  else c.

Fixpoint lower (s : string) : string :=
  match s with
  | EmptyString => EmptyString
  | String c s' => String (lower_ascii c) (lower s')
  end.

(** Truth value of an attribute value: [None] and [''] are false. *)
Definition truthy (v : option string) : bool :=
  match v with
  | None => false
  | Some EmptyString => false
  | Some _ => true
  end.

(** [str(n)] *)
Definition str (n : Z) : string := NilZero.string_of_int (Z.to_int n).

(** *** [int(s)]

    Surrounding whitespace is dropped, an optional sign follows, then decimal
    digits which may be separated by single underscores. [None] stands for
    [ValueError]. *)

Definition is_space (c : ascii) : bool :=
  ((9 <=? code c) && (code c <=? 13)) || (code c =? 32).

Definition is_digit (c : ascii) : bool :=
  (48 <=? code c) && (code c <=? 57).

Fixpoint lstrip (s : string) : string :=
  match s with
  | String c s' => if is_space c then lstrip s' else s
  | EmptyString => EmptyString
  end.

Definition strip (s : string) : string :=
  String.rev (lstrip (String.rev (lstrip s))).

Fixpoint int_digits (acc : Z) (after_digit : bool) (s : string) : option Z :=
  match s with
  | EmptyString => if after_digit then Some acc else None
  | String c s' =>
      if is_digit c then int_digits (10 * acc + (code c - 48)) true s'
      else if (code c =? 95) && after_digit then int_digits acc false s'
      else None
  end.

Definition int (s : string) : option Z :=
  match strip s with
  | String "-" s' => Z.opp <$> int_digits 0 false s'
  | String "+" s' => int_digits 0 false s'
  | s' => int_digits 0 false s'
  end.

(** *** [text.splitlines()]

    A line ends at LF, CR, CR LF, VT, FF, FS, GS, RS, and at the UTF-8
    encodings of U+0085, U+2028 and U+2029. The separators are dropped and a
    final unterminated line is kept unless it is empty. *)

Definition is_linebreak (c : ascii) : bool :=
  ((10 <=? code c) && (code c <=? 13)) || ((28 <=? code c) && (code c <=? 30)).

Definition snoc (line : string) (c : ascii) : string :=
  line +:+ String c EmptyString.

Fixpoint splitlines_from (line : string) (s : string) : list string :=
  match s with
  | EmptyString =>
      match line with EmptyString => [] | _ => [line] end
  | String c s' =>
      if code c =? 13 then
        match s' with
        | String c' s'' =>
            if code c' =? 10 then line :: splitlines_from EmptyString s''
            else line :: splitlines_from EmptyString s'
        | EmptyString => line :: splitlines_from EmptyString s'
        end
      else if is_linebreak c then line :: splitlines_from EmptyString s'
      else if code c =? 194 then
        match s' with
        | String c' s'' =>
            if code c' =? 133 then line :: splitlines_from EmptyString s''
            else splitlines_from (snoc line c) s'
        | EmptyString => splitlines_from (snoc line c) s'
        end
      else if code c =? 226 then
        match s' with
        | String c1 (String c2 s''' as s'') =>
            if (code c1 =? 128) && ((code c2 =? 168) || (code c2 =? 169))
            then line :: splitlines_from EmptyString s'''
            else splitlines_from (snoc line c) s'
        | _ => splitlines_from (snoc line c) s'
        end
      else splitlines_from (snoc line c) s'
  end.

Definition splitlines (s : string) : list string :=
  splitlines_from EmptyString s.

(** *** [os.path.join(a, b)] on POSIX *)

Definition endswith_slash (s : string) : bool :=
  match String.rev s with
  | String "/" _ => true
  | _ => false
  end.

Definition path_join (a b : string) : string :=
  match b with
  | String "/" _ => b
  | _ =>
      match a with
      | EmptyString => b
      | _ => if endswith_slash a then a +:+ b else a +:+ "/" +:+ b
      end
  end.

End Py.

(** ** [hashlib.md5] (RFC 1321) *)

Module MD5.

Definition mask32 (x : Z) : Z := Z.land x 4294967295.

Definition rotl32 (x : Z) (s : Z) : Z :=
  mask32 (Z.lor (Z.shiftl x s) (Z.shiftr (mask32 x) (32 - s))).

Definition T : list Z :=
  [ 0xd76aa478; 0xe8c7b756; 0x242070db; 0xc1bdceee; 0xf57c0faf; 0x4787c62a;
    0xa8304613; 0xfd469501; 0x698098d8; 0x8b44f7af; 0xffff5bb1; 0x895cd7be;
    0x6b901122; 0xfd987193; 0xa679438e; 0x49b40821; 0xf61e2562; 0xc040b340;
    0x265e5a51; 0xe9b6c7aa; 0xd62f105d; 0x02441453; 0xd8a1e681; 0xe7d3fbc8;
    0x21e1cde6; 0xc33707d6; 0xf4d50d87; 0x455a14ed; 0xa9e3e905; 0xfcefa3f8;
    0x676f02d9; 0x8d2a4c8a; 0xfffa3942; 0x8771f681; 0x6d9d6122; 0xfde5380c;
    0xa4beea44; 0x4bdecfa9; 0xf6bb4b60; 0xbebfbc70; 0x289b7ec6; 0xeaa127fa;
    0xd4ef3085; 0x04881d05; 0xd9d4d039; 0xe6db99e5; 0x1fa27cf8; 0xc4ac5665;
    0xf4292244; 0x432aff97; 0xab9423a7; 0xfc93a039; 0x655b59c3; 0x8f0ccc92;
    0xffeff47d; 0x85845dd1; 0x6fa87e4f; 0xfe2ce6e0; 0xa3014314; 0x4e0811a1;
    0xf7537e82; 0xbd3af235; 0x2ad7d2bb; 0xeb86d391 ].

Definition shifts : list Z :=
  [ 7; 12; 17; 22; 7; 12; 17; 22; 7; 12; 17; 22; 7; 12; 17; 22;
    5; 9; 14; 20; 5; 9; 14; 20; 5; 9; 14; 20; 5; 9; 14; 20;
    4; 11; 16; 23; 4; 11; 16; 23; 4; 11; 16; 23; 4; 11; 16; 23;
    6; 10; 15; 21; 6; 10; 15; 21; 6; 10; 15; 21; 6; 10; 15; 21 ].

Record digest_state := { A : Z; B : Z; C : Z; D : Z }.

Definition init : digest_state :=
  {| A := 0x67452301; B := 0xefcdab89; C := 0x98badcfe; D := 0x10325476 |}.

(** One of the 64 operations of a block; [X] holds its sixteen words. *)
Definition step (X : list Z) (st : digest_state) (i : nat) : digest_state :=
  let '(f, g) :=
    match (i / 16)%nat with
    | 0%nat => (Z.lor (Z.land (B st) (C st)) (Z.land (Z.lxor (B st) 4294967295) (D st)), i)
    | 1%nat => (Z.lor (Z.land (D st) (B st)) (Z.land (Z.lxor (D st) 4294967295) (C st)),
                ((5 * i + 1) mod 16)%nat)
    | 2%nat => (Z.lxor (Z.lxor (B st) (C st)) (D st), ((3 * i + 5) mod 16)%nat)
    | _ => (Z.lxor (C st) (Z.lor (B st) (Z.lxor (D st) 4294967295)), ((7 * i) mod 16)%nat)
    end in
  let sum := mask32 (A st + f + nth i T 0 + nth g X 0) in
  {| A := D st; B := mask32 (B st + rotl32 sum (nth i shifts 0)); C := B st; D := C st |}.

(** Little-endian word of four bytes. *)
Definition word_of_bytes (bs : list Z) : Z :=
  nth 0 bs 0 + Z.shiftl (nth 1 bs 0) 8 + Z.shiftl (nth 2 bs 0) 16 + Z.shiftl (nth 3 bs 0) 24.

Fixpoint words (n : nat) (bs : list Z) : list Z :=
  match n with
  | O => []
  | S n' => word_of_bytes (take 4 bs) :: words n' (drop 4 bs)
  end.

Definition process_block (st : digest_state) (block : list Z) : digest_state :=
  let st' := fold_left (step (words 16 block)) (seq 0 64) st in
  {| A := mask32 (A st + A st'); B := mask32 (B st + B st');
     C := mask32 (C st + C st'); D := mask32 (D st + D st') |}.

Fixpoint process (n : nat) (st : digest_state) (bs : list Z) : digest_state :=
  match n with
  | O => st
  | S n' => process n' (process_block st (take 64 bs)) (drop 64 bs)
  end.

Definition le_bytes (n : nat) (x : Z) : list Z :=
  map (fun k => Z.land (Z.shiftr x (8 * Z.of_nat k)) 255) (seq 0 n).

Definition pad (msg : list Z) : list Z :=
  let len := Z.of_nat (length msg) in
  let zeros := Z.to_nat ((55 - len) mod 64) in
  msg ++ [128] ++ repeat 0 zeros ++ le_bytes 8 (Z.land (8 * len) 18446744073709551615).

Definition digest (msg : list Z) : list Z :=
  let bs := pad msg in
  let st := process (length bs / 64) init bs in
  le_bytes 4 (A st) ++ le_bytes 4 (B st) ++ le_bytes 4 (C st) ++ le_bytes 4 (D st).

Definition hex_digit (n : Z) : ascii :=
  match Z.land n 15 with
  | 0 => "0" | 1 => "1" | 2 => "2" | 3 => "3" | 4 => "4" | 5 => "5" | 6 => "6"
  | 7 => "7" | 8 => "8" | 9 => "9" | 10 => "a" | 11 => "b" | 12 => "c"
  | 13 => "d" | 14 => "e" | _ => "f"
  end%char.

Fixpoint hex (bs : list Z) : string :=
  match bs with
  | [] => EmptyString
  | b :: bs' => String (hex_digit (Z.shiftr b 4)) (String (hex_digit b) (hex bs'))
  end.

(** [s.encode()]: the bytes of the string *)
Definition encode (s : string) : list Z :=
  map Py.code (String.list_ascii_of_string s).

(** [hashlib.md5(s.encode()).hexdigest()] *)
Definition hexdigest (s : string) : string := hex (digest (encode s)).

End MD5.

(** ** Effects: the outside world, exceptions, and the monad threading them *)

Module Effects.

(** Exceptions derived from Python's [Exception]. The script tells
    [StaleElementReferenceException] apart from the others. *)
Inductive exn : Type :=
| StaleElementReferenceException
| Exception (what : string).

(** [inl e]: the computation raised [e]; [inr a]: it returned [a]. *)
Definition result (A : Type) : Type := (exn + A)%type.

(** Selenium hands out element references. *)
Definition WebElement : Type := nat.

(** The three property reads passed to [driver.execute_script]:
    ["return arguments[0].scrollHeight"], [".clientHeight"], [".scrollTop"]. *)
Inductive property : Type := scrollHeight | clientHeight | scrollTop.

(** What [requests.get] returns. *)
Record Response : Type := { status_code : Z; content : string }.

(** The collaborators. Every call to the outside is answered according to
    the moment it is made (the number of calls made before it), so that the
    page, the network and the disk may behave differently from one call to
    the next. *)
Record Env : Type := {
  (* browser session *)
  find_elements_at : nat -> string -> result (list WebElement);
  property_at : nat -> property -> WebElement -> result Z;
  scroll_to_at : nat -> WebElement -> option exn;
  get_attribute_at : nat -> WebElement -> string -> result (option string);
  (* HTTP client *)
  requests_get_at : nat -> string -> result Response;
  (* filesystem faults ([OSError]) and clock ([int(time.time() * 1000)]) *)
  os_error_at : nat -> option exn;
  time_ms_at : nat -> Z
}.

(** The part of the world the script changes: the time elapsed, counted in
    outside calls, and the contents of the files. *)
Record World : Type := { tick : nat; files : gmap string string }.

Definition next (w : World) : World :=
  {| tick := S (tick w); files := files w |}.

Definition set_file (path data : string) (w : World) : World :=
  {| tick := tick w; files := <[path := data]> (files w) |}.

(** State ([S]) and exception monad. *)
Definition M (S A : Type) : Type := S -> result A * S.

Definition ret {S A : Type} (a : A) : M S A := fun s => (inr a, s).

Definition raise {S A : Type} (e : exn) : M S A := fun s => (inl e, s).

Definition bind {S A B : Type} (m : M S A) (k : A -> M S B) : M S B :=
  fun s =>
    match m s with
    | (inr a, s') => k a s'
    | (inl e, s') => (inl e, s')
    end.

(** [try: m  except Exception as e: handler e]; the state reached when the
    exception was raised is kept. *)
Definition try_except {S A : Type} (m : M S A) (handler : exn -> M S A) : M S A :=
  fun s =>
    match m s with
    | (inl e, s') => handler e s'
    | (inr a, s') => (inr a, s')
    end.

(** Run a computation on the world next to local variables [L]. *)
Definition lift {L A : Type} (m : M World A) : M (L * World) A :=
  fun s =>
    let '(r, w') := m (snd s) in (r, (fst s, w')).

(** Local variables beside the world. *)
Definition locals {L : Type} : M (L * World) L := fun s => (inr (fst s), s).

Definition assign {L : Type} (f : L -> L) : M (L * World) unit :=
  fun s => (inr tt, (f (fst s), snd s)).

(** Run a block that has local variables, starting from [l]. *)
Definition with_locals {L A : Type} (l : L) (m : M (L * World) A) : M World A :=
  fun w =>
    let '(r, s') := m (l, w) in (r, snd s').

End Effects.

Import Effects.

Declare Scope py_scope.
Delimit Scope py_scope with py.
Notation "x <- m ;; k" := (bind m (fun x => k))
  (at level 100, m at next level, right associativity) : py_scope.
Notation "m ;;; k" := (bind m (fun _ => k))
  (at level 100, right associativity) : py_scope.
Local Open Scope py_scope.

(** ** The collaborators' operations *)

Section Collaborators.

Variable E : Env.

(** An outside call: answered by the environment, and time moves on. *)
Definition outside {A : Type} (answer : nat -> result A) : M World A :=
  fun w => (answer (tick w), next w).

Definition fault (t : nat) : result unit :=
  match os_error_at E t with
  | Some e => inl e
  | None => inr tt
  end.

(** [driver.find_elements(By.XPATH, xpath)] *)
Definition find_elements (xpath : string) : M World (list WebElement) :=
  outside (fun t => find_elements_at E t xpath).

(** [driver.execute_script("return arguments[0].<p>", element)]; with [None]
    for the element the script fails in the browser. *)
Definition execute_script (p : property) (element : option WebElement) : M World Z :=
  match element with
  | Some e => outside (fun t => property_at E t p e)
  | None => outside (fun _ => inl (Exception "JavascriptException"))
  end.

(** [driver.execute_script("arguments[0].scrollTo(0, 0)", element)] *)
Definition scroll_to_top (element : WebElement) : M World unit :=
  outside (fun t =>
    match scroll_to_at E t element with
    | Some e => inl e
    | None => inr tt
    end).

(** [element.get_attribute(name)] *)
Definition get_attribute (element : WebElement) (name : string) : M World (option string) :=
  outside (fun t => get_attribute_at E t element name).

(** [requests.get(url, timeout=10)] *)
Definition requests_get (url : string) : M World Response :=
  outside (fun t => requests_get_at E t url).

(** [time.sleep(seconds)] *)
Definition sleep : M World unit := outside (fun _ => inr tt).

(** [int(time.time() * 1000)] *)
Definition time_ms : M World Z := outside (fun t => inr (time_ms_at E t)).

(** [os.makedirs(path, exist_ok=True)] *)
Definition makedirs (path : string) : M World unit := outside fault.

(** [os.path.exists(path)] *)
Definition path_exists (path : string) : M World bool :=
  fun w => (inr (bool_decide (is_Some (files w !! path))), next w).

(** [with open(path, 'r') as f: f.read()] *)
Definition read_text (path : string) : M World string :=
  fun w =>
    match os_error_at E (tick w), files w !! path with
    | Some e, _ => (inl e, next w)
    | None, None => (inl (Exception "FileNotFoundError"), next w)
    | None, Some text => (inr text, next w)
    end.

(** [open(path, 'wb')] creates or truncates the file. *)
Definition open_truncate (path : string) : M World unit :=
  fun w =>
    match os_error_at E (tick w) with
    | Some e => (inl e, next w)
    | None => (inr tt, next (set_file path EmptyString w))
    end.

(** [open(path, 'a')] creates the file when it is missing. *)
Definition open_append (path : string) : M World unit :=
  fun w =>
    match os_error_at E (tick w) with
    | Some e => (inl e, next w)
    | None =>
        match files w !! path with
        | Some _ => (inr tt, next w)
        | None => (inr tt, next (set_file path EmptyString w))
        end
    end.

(** [f.write(data)] at the end of the open file [path]. *)
Definition write (path data : string) : M World unit :=
  fun w =>
    match os_error_at E (tick w) with
    | Some e => (inl e, next w)
    | None => (inr tt, next (set_file path (default EmptyString (files w !! path) +:+ data) w))
    end.

End Collaborators.

(** ** The script *)

Section Scraper.

Variable E : Env.

Definition CONTAINER_XPATH : string :=
  "//div[@role='none' and contains(@class, 'x78zum5') and contains(@class, 'xdt5ytf') and contains(@class, 'x1iyjqo2') and contains(@class, 'x6ikm8r') and contains(@class, 'x1odjw0f')]".

Definition IMG_XPATH : string := "//img[contains(@src, 'http')]".

(** The [for container in containers] loop of [get_message_container]: the
    first container whose probe does not raise and shows an overflow. *)
Fixpoint first_scrollable (containers : list WebElement) : M World (option WebElement) :=
  match containers with
  | [] => ret None
  | container :: rest =>
      found <- try_except
                 (scroll_height <- execute_script E scrollHeight (Some container) ;;
                  client_height <- execute_script E clientHeight (Some container) ;;
                  ret (scroll_height >? client_height))
                 (fun _ => ret false) ;;
      if found then ret (Some container) else first_scrollable rest
  end.

Definition get_message_container : M World (option WebElement) :=
  containers <- find_elements E CONTAINER_XPATH ;;
  found <- first_scrollable containers ;;
  match found with
  | Some container => ret (Some container)
  | None => ret (head containers)
  end.

Definition download_image (url save_folder filename : string) : M World bool :=
  try_except
    (response <- requests_get E url ;;
     if status_code response =? 200 then
       let filepath := Py.path_join save_folder filename in
       open_truncate E filepath ;;;
       write E filepath (content response) ;;;
       ret true
     else ret false)
    (fun _ => ret false).

Definition get_image_hash (url : string) : string := MD5.hexdigest url.

(** Local variables of [download_loaded_images]. *)
Record harvest : Type := { downloaded_hashes : gset string; download_count : nat }.

(** [int(v)] on an attribute value; [ValueError] when it does not parse. *)
Definition int_of {S : Type} (v : string) : M S Z :=
  match Py.int v with
  | Some n => ret n
  | None => raise (Exception "ValueError")
  end.

(** Lines 119-126: [true] when the candidate is skipped as a small image.
    [width and height and (int(width) < 50 or int(height) < 50)] is evaluated
    left to right, and whatever the block raises is discarded. *)
Definition small_image (img : WebElement) : M World bool :=
  try_except
    (width <- get_attribute E img "width" ;;
     height <- get_attribute E img "height" ;;
     if Py.truthy width && Py.truthy height then
       w <- int_of (default EmptyString width) ;;
       if w <? 50 then ret true
       else (h <- int_of (default EmptyString height) ;; ret (h <? 50))
     else ret false)
    (fun _ => ret false).

(** Line 116: [not src or 'blob:' in src or 'data:' in src]. *)
Definition not_valid_url (src : option string) : bool :=
  match src with
  | Some src =>
      negb (Py.truthy (Some src)) || Py.contains "blob:" src || Py.contains "data:" src
  | None => true
  end.

(** Lines 136-140. *)
Definition extension (src : string) : string :=
  if Py.contains ".png" (Py.lower src) then "png"
  else if Py.contains ".gif" (Py.lower src) then "gif"
  else "jpg".

(** Line 142: [f"img_{timestamp}_{idx}.{ext}"]. *)
Definition image_filename (timestamp : Z) (idx : nat) (ext : string) : string :=
  "img_" +:+ Py.str timestamp +:+ "_" +:+ Py.str (Z.of_nat idx) +:+ "." +:+ ext.

Definition LF : string := String (ascii_of_N 10) EmptyString.

(** Lines 146-151: [downloaded_hashes.add(img_hash)], [download_count += 1],
    and the hash is appended to the ledger file. *)
Definition record (hash_file img_hash : string) : M (harvest * World) unit :=
  assign (fun v => {| downloaded_hashes := {[img_hash]} ∪ downloaded_hashes v;
                      download_count := download_count v |}) ;;;
  assign (fun v => {| downloaded_hashes := downloaded_hashes v;
                      download_count := S (download_count v) |}) ;;;
  lift (open_append E hash_file) ;;;
  lift (write E hash_file (img_hash +:+ LF)).

(** The body of [for idx, img in enumerate(images)] (lines 112-157). *)
Definition harvest_image (save_folder hash_file : string) (idx : nat) (img : WebElement)
  : M (harvest * World) unit :=
  try_except
    (src <- lift (get_attribute E img "src") ;;
     if not_valid_url src then ret tt
     else
       let src := default EmptyString src in
       small <- lift (small_image img) ;;
       if small then ret tt
       else
         let img_hash := get_image_hash src in
         vars <- locals ;;
         if bool_decide (img_hash ∈ downloaded_hashes vars) then ret tt
         else
           timestamp <- lift (time_ms E) ;;
           let filename := image_filename timestamp idx (extension src) in
           downloaded <- lift (download_image src save_folder filename) ;;
           (if downloaded then record hash_file img_hash else ret tt) ;;;
           lift sleep)
    (fun _ => ret tt).

Fixpoint harvest_images (save_folder hash_file : string) (idx : nat) (images : list WebElement)
  : M (harvest * World) unit :=
  match images with
  | [] => ret tt
  | img :: rest =>
      harvest_image save_folder hash_file idx img ;;;
      harvest_images save_folder hash_file (S idx) rest
  end.

(** Lines 128-153 on their own: what the loop body does with a candidate
    whose address [src] passed the filters. *)
Definition hash_and_download (save_folder hash_file : string) (idx : nat) (src : string)
  : M (harvest * World) unit :=
  let img_hash := get_image_hash src in
  vars <- locals ;;
  if bool_decide (img_hash ∈ downloaded_hashes vars) then ret tt
  else
    timestamp <- lift (time_ms E) ;;
    let filename := image_filename timestamp idx (extension src) in
    downloaded <- lift (download_image src save_folder filename) ;;
    (if downloaded then record hash_file img_hash else ret tt) ;;;
    lift sleep.

Definition HASH_FILE (save_folder : string) : string :=
  Py.path_join save_folder "downloaded_hashes.txt".

Definition download_loaded_images (save_folder : string) : M World nat :=
  makedirs E save_folder ;;;
  images <- find_elements E IMG_XPATH ;;
  let hash_file := HASH_FILE save_folder in
  known <- path_exists hash_file ;;
  downloaded_hashes <-
    (if known then
       text <- read_text E hash_file ;;
       ret (list_to_set (Py.splitlines text))
     else ret ∅) ;;
  with_locals {| downloaded_hashes := downloaded_hashes; download_count := 0 |}
    (harvest_images save_folder hash_file 0 images ;;;
     vars <- locals ;;
     ret (download_count vars)).

(** How an iteration of the scroll loop ends. *)
Inductive flow : Type :=
| Next                      (* fall through, or [continue] *)
| Break                     (* [break] *)
| Return (value : bool).    (* [return value] *)

(** Lines 193-216: both measurements of one iteration; [None] when the
    container is lost before the first one. *)
Record sample : Type := {
  current_scroll_top : Z;
  current_scroll_height : Z;
  new_scroll_top : Z;
  new_scroll_height : Z
}.

Definition measure : M World (option sample) :=
  message_container <- get_message_container ;;
  match message_container with
  | None => ret None
  | Some container =>
      current_scroll_top <- execute_script E scrollTop (Some container) ;;
      current_scroll_height <- execute_script E scrollHeight (Some container) ;;
      scroll_to_top E container ;;;
      sleep ;;;
      message_container <- get_message_container ;;
      new_scroll_top <- execute_script E scrollTop message_container ;;
      new_scroll_height <- execute_script E scrollHeight message_container ;;
      ret (Some {| current_scroll_top := current_scroll_top;
                   current_scroll_height := current_scroll_height;
                   new_scroll_top := new_scroll_top;
                   new_scroll_height := new_scroll_height |})
  end.

(** Lines 221-238; the local variable is [no_change_count]. *)
Definition react (download_images : bool) (save_folder : string) (s : sample)
  : M (nat * World) flow :=
  if new_scroll_height s >? current_scroll_height s then
    assign (fun _ => 0%nat) ;;;
    (if download_images
     then lift (download_loaded_images save_folder) ;;; ret tt
     else ret tt) ;;;
    ret Next
  else if (new_scroll_top s =? 0) && (new_scroll_height s =? current_scroll_height s) then
    assign (fun no_change_count => S no_change_count) ;;;
    no_change_count <- locals ;;
    if (3 <=? no_change_count)%nat then ret (Return true) else ret Next
  else
    assign (fun _ => 0%nat) ;;;
    ret Next.

(** The body of [for i in range(max_scrolls)] with its [try] (lines 191-245):
    both handlers [continue]. *)
Definition scroll_once (download_images : bool) (save_folder : string)
  : M (nat * World) flow :=
  try_except
    (measured <- lift measure ;;
     match measured with
     | None => ret Break
     | Some s => react download_images save_folder s
     end)
    (fun e =>
       match e with
       | StaleElementReferenceException => ret Next
       | Exception _ => ret Next
       end).

Fixpoint scroll_loop (download_images : bool) (save_folder : string) (max_scrolls : nat)
  : M (nat * World) bool :=
  match max_scrolls with
  | O => ret false
  | S remaining =>
      outcome <- scroll_once download_images save_folder ;;
      match outcome with
      | Next => scroll_loop download_images save_folder remaining
      | Break => ret false
      | Return value => ret value
      end
  end.

(** [target_date] is accepted and never used by the source; [max_scrolls] is
    the length of [range(max_scrolls)]. *)
Definition scroll_until_date (target_date : option string) (max_scrolls : nat)
    (download_images : bool) (save_folder : string) : M World bool :=
  sleep ;;;
  message_container <- get_message_container ;;
  match message_container with
  | None => ret false
  | Some container =>
      scroll_height <- execute_script E scrollHeight (Some container) ;;
      client_height <- execute_script E clientHeight (Some container) ;;
      scroll_top <- execute_script E scrollTop (Some container) ;;
      with_locals 0%nat (scroll_loop download_images save_folder max_scrolls)
  end.

End Scraper.

(** ** The entry point *)

Definition CHROMEDRIVER_PATH : string := "./chromedriver".
Definition BROWSER_PATH : string := "/usr/bin/brave-browser".
Definition PROFILE_PATH : string := "/home/igadu/.config/BraveSelenium".
Definition PROFILE_DIR : string := "Profile1".

(** Selenium's [Options]: the browser binary and its command line. *)
Record Options : Type := { binary_location : string; arguments : list string }.

Definition add_argument (argument : string) (options : Options) : Options :=
  {| binary_location := binary_location options;
     arguments := arguments options ++ [argument] |}.

(** The calls made on the driver itself, beside those made on its page. *)
Inductive call : Type :=
| Launch (executable_path : string) (options : Options)   (* [webdriver.Chrome(..)] *)
| Get (url : string)                                      (* [driver.get(url)] *)
| Quit.                                                   (* [driver.quit()] *)

(** A browser to launch: the page its driver shows, and how launching,
    navigating and quitting answer at each moment. *)
Record Browser : Type := {
  page : Env;
  chrome_at : nat -> string -> Options -> option exn;
  get_at : nat -> string -> option exn;
  quit_at : nat -> option exn
}.

(** [try: m  finally: cleanup]: the cleanup runs however [m] ends, and an
    exception it raises replaces the outcome of [m]. *)
Definition try_finally {S A : Type} (m : M S A) (cleanup : M S unit) : M S A :=
  fun s =>
    let '(r, s') := m s in
    match cleanup s' with
    | (inr _, s'') => (r, s'')
    | (inl e, s'') => (inl e, s'')
    end.

Section EntryPoint.

Variable B : Browser.

(** A call on the driver: it is logged, and answered by the browser. *)
Definition driver_call (c : call) (answer : nat -> option exn) : M (list call * World) unit :=
  assign (fun log => log ++ [c]) ;;;
  lift (outside (fun t => match answer t with Some e => inl e | None => inr tt end)).

(** Lines 37-46. The driver returned is the one whose page is [page B]. *)
Definition setup_driver : M (list call * World) unit :=
  let options := {| binary_location := EmptyString; arguments := [] |} in
  let options := {| binary_location := "/usr/bin/brave-browser";
                    arguments := arguments options |} in
  let options := add_argument ("--user-data-dir=" +:+ PROFILE_PATH) options in
  let options := add_argument ("--profile-directory=" +:+ PROFILE_DIR) options in
  let options := add_argument "--start-maximized" options in
  driver_call (Launch CHROMEDRIVER_PATH options)
    (fun t => chrome_at B t CHROMEDRIVER_PATH options).

Definition CONVERSATION : string := "https://www.messenger.com/t/100047858612752/".

(** Lines 250-281. *)
Definition main : M (list call * World) unit :=
  setup_driver ;;;
  try_finally
    (try_except
       (driver_call (Get CONVERSATION) (fun t => get_at B t CONVERSATION) ;;;
        lift sleep ;;;
        let target_date := "Sep 24 at 7:16 PM" in
        found <- lift (scroll_until_date (page B) (Some target_date) 100 true
                         "messenger_images") ;;
        (if found
         then lift (download_loaded_images (page B) "messenger_images") ;;; ret tt
         else ret tt) ;;;
        lift sleep)
       (fun _ => lift sleep))
    (driver_call Quit (quit_at B)).

End EntryPoint.

(** * Vocabulary of the properties *)

(** ** The ledger *)

(** Lowercase hexadecimal text, as [hexdigest] produces it. *)
Definition hex_char (c : ascii) : bool :=
  ((48 <=? Py.code c) && (Py.code c <=? 57)) || ((97 <=? Py.code c) && (Py.code c <=? 102)).

Fixpoint hex_string (s : string) : bool :=
  match s with
  | EmptyString => true
  | String c s' => hex_char c && hex_string s'
  end.

Definition all_hex (hashes : list string) : Prop :=
  Forall (fun h => hex_string h = true) hashes.

(** The ledger file as the harvester writes it: one digest per line. *)
Fixpoint ledger_text (hashes : list string) : string :=
  match hashes with
  | [] => EmptyString
  | h :: rest => h +:+ LF +:+ ledger_text rest
  end.

(** The ledger file holds exactly the digests [hashes], one per line; a
    missing file holds none. *)
Definition ledger_holds (hashes : list string) (file : option string) : Prop :=
  file = Some (ledger_text hashes) \/ (file = None /\ hashes = []).

(** The set of hashes a pass starts from (lines 100-107). *)
Definition known_hashes (file : option string) : gset string :=
  match file with
  | Some text => list_to_set (Py.splitlines text)
  | None => ∅
  end.

(** The local variables once [img_hash] has been recorded. *)
Definition recorded (img_hash : string) (vars : harvest) : harvest :=
  {| downloaded_hashes := {[img_hash]} ∪ downloaded_hashes vars;
     download_count := S (download_count vars) |}.

(** ** Region selection *)

(** A container overflows, on a page whose geometry is [dom], when both
    reads answer and the scrollable height exceeds the visible height. *)
Definition overflows (dom : property -> WebElement -> result Z) (container : WebElement)
  : bool :=
  match dom scrollHeight container, dom clientHeight container with
  | inr scroll_height, inr client_height => scroll_height >? client_height
  | _, _ => false
  end.

(** ** The scroll loop, observed *)

(** What one iteration of the loop gets to see. *)
Inductive observation : Type :=
| Measured (s : sample)      (* both measurements were taken *)
| ContainerLost              (* the container could not be found again *)
| Raised (e : exn).          (* a driver call raised before the comparison *)

(** A stall: the height did not change and the offset is at the top. *)
Definition stalled (s : sample) : bool :=
  (new_scroll_height s =? current_scroll_height s) && (new_scroll_top s =? 0).

(** The stall counter of the specification: a stall adds one, any other
    sample resets it; an iteration without a sample leaves it alone. *)
Definition count_after (count : nat) (o : observation) : nat :=
  match o with
  | Measured s => if stalled s then S count else 0%nat
  | ContainerLost => count
  | Raised _ => count
  end.

Definition stall_count (observed : list observation) : nat :=
  fold_left count_after observed 0%nat.

(** How the iteration that starts with [count] and observes [o] ends. *)
Definition flow_after (count : nat) (o : observation) : flow :=
  match o with
  | Measured s => if stalled s && (3 <=? S count)%nat then Return true else Next
  | ContainerLost => Break
  | Raised _ => Next
  end.

Section Observed.

Variable E : Env.
Variable download_images : bool.
Variable save_folder : string.

(** What the iteration starting in world [w] observes. *)
Definition observe (w : World) : observation :=
  match fst (measure E w) with
  | inr (Some s) => Measured s
  | inr None => ContainerLost
  | inl e => Raised e
  end.

(** The world in which the iteration that starts in [w] ends: the one its
    measurements leave or, when harvesting is enabled and the height grew,
    the one the harvest pass made there leaves. *)
Definition iteration_end (w : World) : World :=
  match measure E w with
  | (inr (Some s), w1) =>
      if download_images && (new_scroll_height s >? current_scroll_height s)
      then snd (download_loaded_images E save_folder w1)
      else w1
  | (_, w1) => w1
  end.

(** What [n] successive iterations observe from the world [w] on, each
    starting where the one before it ended, were none of them to end the
    loop. *)
Fixpoint iterations (n : nat) (w : World) : list observation :=
  match n with
  | O => []
  | S n' => observe w :: iterations n' (iteration_end w)
  end.

End Observed.

(** ** The filters *)

(** What lines 119-126 decide, given what the two attribute reads answer. *)
Definition declared_small (width height : result (option string)) : bool :=
  match width, height with
  | inr width, inr height =>
      Py.truthy width && Py.truthy height &&
      match Py.int (default EmptyString width) with
      | Some w =>
          (w <? 50) ||
          match Py.int (default EmptyString height) with
          | Some h => h <? 50
          | None => false
          end
      | None => false
      end
  | _, _ => false
  end.


(** The address under which an image passes the source and dimension
    filters, if it does, on a page whose attributes answer [attr]. *)
Definition eligible (attr : WebElement -> string -> result (option string))
    (img : WebElement) : option string :=
  match attr img "src" with
  | inr src =>
      if not_valid_url src then None
      else if declared_small (attr img "width") (attr img "height") then None
      else Some (default EmptyString src)
  | inl _ => None
  end.

(** ** Downloads and passes *)

Section Passes.

Variable E : Env.
Variable save_folder : string.

(** The download of [src] requested at moment [t] succeeded: the server
    answered 200 and the file was opened and written. *)
Definition download_succeeded (t : nat) (src : string) (response : Response) : Prop :=
  requests_get_at E t src = inr response /\ status_code response = 200 /\
  os_error_at E (S t) = None /\ os_error_at E (S (S t)) = None.

(** What processing one candidate may do to the ledger: nothing, or, after
    a successful download whose file is on disk, add the hash to the set,
    count it, and append it to the ledger file (an append that fails leaves
    the file as it was, or created and empty). *)
Definition ledger_step (idx : nat) (img : WebElement)
    (vars : harvest) (w : World) (vars' : harvest) (w' : World) : Prop :=
  let ledger := files w !! HASH_FILE save_folder in
  let ledger' := files w' !! HASH_FILE save_folder in
  (vars' = vars /\ ledger' = ledger) \/
  exists src t response,
    get_attribute_at E (tick w) img "src" = inr (Some src) /\
    (tick w < t)%nat /\ (t + 2 < tick w')%nat /\
    download_succeeded t src response /\
    files w' !! (Py.path_join save_folder
                   (image_filename (time_ms_at E (pred t)) idx (extension src)))
    = Some (content response) /\
    (get_image_hash src ∉ downloaded_hashes vars) /\
    vars' = recorded (get_image_hash src) vars /\
    (ledger' = ledger \/
     ledger' = Some (default EmptyString ledger) \/
     ledger' = Some (default EmptyString ledger +:+ get_image_hash src +:+ LF)).

(** Between [w] and [w'] the ledger file grew by the digests of [srcs], one
    per line, and each of these addresses was downloaded successfully in
    the meantime. *)
Definition ledger_grew (w w' : World) (srcs : list string) : Prop :=
  default EmptyString (files w' !! HASH_FILE save_folder)
  = default EmptyString (files w !! HASH_FILE save_folder)
    +:+ ledger_text (map get_image_hash srcs)
  /\ Forall (fun src => exists t response,
                 (tick w <= t < tick w')%nat /\ download_succeeded t src response) srcs.

(** From moment [t0] on the attributes of the rendered images answer
    [attr]: the page is unchanged. *)
Definition still_from (attr : WebElement -> string -> result (option string)) (t0 : nat)
  : Prop :=
  forall t img name, (t0 <= t)%nat -> get_attribute_at E t img name = attr img name.

(** The world in which the loop of a pass starts: [makedirs],
    [find_elements], [os.path.exists] and, when the ledger exists, its
    reading have taken place. *)
Definition loop_start (w : World) : World :=
  {| tick := (match files w !! HASH_FILE save_folder with
              | Some _ => 4
              | None => 3
              end + tick w)%nat;
     files := files w |}.

End Passes.

(** ** Files kept, containers seen, images saved *)

(** States that hold the files. *)
Class HasFiles (S : Type) : Type := files_of : S -> gmap string string.

#[global] Instance world_files : HasFiles World := files.

#[global] Instance locals_files {L : Type} : HasFiles (L * World) := fun s => files (snd s).

(** A computation that leaves every file as it was, however it ends. *)
Definition keeps_files {S A : Type} `{HasFiles S} (m : M S A) : Prop :=
  forall s, files_of (snd (m s)) = files_of s.

(** The container was seen to overflow between the moments [t0] and [t1]:
    two successive reads answered a scrollable height above the visible
    height. *)
Definition seen_overflowing (E : Env) (t0 t1 : nat) (container : WebElement) : Prop :=
  exists t scroll_height client_height,
    (t0 <= t)%nat /\ (S t < t1)%nat /\
    property_at E t scrollHeight container = inr scroll_height /\
    property_at E (S t) clientHeight container = inr client_height /\
    client_height < scroll_height.

(** The character [c] does not occur in [s]. *)
Fixpoint free_of (c : ascii) (s : string) : bool :=
  match s with
  | EmptyString => true
  | String x s' => negb (Ascii.eqb x c) && free_of c s'
  end.

Section Saved.

Variable E : Env.
Variable save_folder : string.




(** A path that is neither the ledger nor the file of a candidate of
    index [idx] or above. *)
Definition foreign (idx : nat) (path : string) : Prop :=
  path <> HASH_FILE save_folder /\
  forall timestamp i src, (idx <= i)%nat ->
    path <> Py.path_join save_folder (image_filename timestamp i (extension src)).

End Saved.

(** ** The session *)

(** The options [setup_driver] launches the browser with. *)
Definition LAUNCH_OPTIONS : Options :=
  {| binary_location := "/usr/bin/brave-browser";
     arguments := ["--user-data-dir=/home/igadu/.config/BraveSelenium";
                   "--profile-directory=Profile1"; "--start-maximized"] |}.

Section Session.

Variable B : Browser.

(** The scroll [main] asks for, started in [w]. *)
Definition main_scroll (w : World) : result bool * World :=
  scroll_until_date (page B) (Some "Sep 24 at 7:16 PM") 100 true "messenger_images" w.

(** The world in which the [try] block of [main], entered in [w], hands
    over to [finally]: after the pause that ends the block or, when
    something raised, the pause of the handler. *)
Definition main_pause (w : World) : World :=
  match get_at B (tick w) CONVERSATION with
  | Some _ => next (next w)
  | None =>
      match main_scroll (next (next w)) with
      | (inr true, w1) => next (snd (download_loaded_images (page B) "messenger_images" w1))
      | (_, w1) => next w1
      end
  end.

End Session.

(** ** A page, a network and a disk to run the script on *)

Module Demo.

Definition save_folder : string := "messenger_images".

(** Two nodes match the container fingerprint: node 1 does not overflow,
    node 2 does and sits at the top. *)
Definition geometry (p : property) (container : WebElement) : result Z :=
  inr match p, container with
      | scrollHeight, 2%nat => 1000
      | scrollHeight, _ => 500
      | clientHeight, _ => 500
      | scrollTop, _ => 0
      end.

Definition A : string := "https://scontent.example/v/a.jpg".
Definition B : string := "https://scontent.example/v/b.PNG?oh=1".
Definition C : string := "https://scontent.example/v/c.gif".

(** Three images without declared dimensions. *)
Definition three_images (img : WebElement) (name : string) : result (option string) :=
  inr (if String.eqb name "src"
       then match img with
            | 11%nat => Some A
            | 12%nat => Some B
            | _ => Some C
            end
       else None).

(** An image with declared dimensions. *)
Definition sized (width height : string) (img : WebElement) (name : string)
  : result (option string) :=
  inr (if String.eqb name "src" then Some A
       else if String.eqb name "width" then Some width
       else if String.eqb name "height" then Some height
       else None).

Definition ok (url : string) : result Response :=
  inr {| status_code := 200; content := "bytes of " +:+ url |}.

Definition env (heights : nat -> property -> WebElement -> result Z)
    (attrs : WebElement -> string -> result (option string))
    (get : nat -> string -> result Response) : Env :=
  {| find_elements_at := fun _ xpath =>
       inr (if String.eqb xpath CONTAINER_XPATH then [1%nat; 2%nat]
            else [11%nat; 12%nat; 13%nat]);
     property_at := heights;
     scroll_to_at := fun _ _ => None;
     get_attribute_at := fun _ => attrs;
     requests_get_at := get;
     os_error_at := fun _ => None;
     time_ms_at := fun t => 1700000000000 + Z.of_nat t |}.

(** The page holds still and every request succeeds. *)
Definition still : Env := env (fun _ => geometry) three_images (fun _ => ok).

(** The first requests time out, the later ones succeed. *)
Definition flaky : Env :=
  env (fun _ => geometry) three_images
      (fun t url => if (t <? 20)%nat then inl (Exception "ReadTimeout") else ok url).

(** Older messages load once: the height grows from 1000 to 1500. *)
Definition growing : Env :=
  env (fun t p container =>
         match p, container with
         | scrollHeight, 2%nat => inr (if (t <? 20)%nat then 1000 else 1500)
         | _, _ => geometry p container
         end)
      three_images (fun _ => ok).

(** A page that shows the scroll loop the samples [samples], one per
    iteration. Locating the container takes seven calls and an iteration
    twelve: the fourth and fifth calls of an iteration read the offset and
    the height before scrolling, its last two read them afterwards. *)
Definition turn (t : nat) : nat := ((t - 7) / 12)%nat.

Definition slot (t : nat) : nat := ((t - 7) mod 12)%nat.

Definition blank : sample :=
  {| current_scroll_top := 0; current_scroll_height := 0;
     new_scroll_top := 0; new_scroll_height := 0 |}.

Definition scripted (samples : list sample) : Env :=
  env (fun t p _ =>
         let s := nth (turn t) samples blank in
         inr match p, slot t with
             | clientHeight, _ => 0
             | scrollTop, 3%nat => current_scroll_top s
             | scrollTop, _ => new_scroll_top s
             | scrollHeight, 4%nat => current_scroll_height s
             | scrollHeight, 11%nat => new_scroll_height s
             | scrollHeight, _ => 1
             end)
      three_images (fun _ => ok).

Definition start : World := {| tick := 0; files := ∅ |}.

(** A disk on which [A] is already recorded. *)
Definition with_ledger : World :=
  {| tick := 0; files := {[ HASH_FILE save_folder := get_image_hash A +:+ LF ]} |}.

(** The page that holds still, with a ledger file that cannot be opened
    for appending: the calls made at the moments 14 and 22, which in a pass
    started on [with_ledger] open the ledger to append to it, fail. *)
Definition read_only_ledger : Env :=
  {| find_elements_at := find_elements_at still;
     property_at := property_at still;
     scroll_to_at := scroll_to_at still;
     get_attribute_at := get_attribute_at still;
     requests_get_at := requests_get_at still;
     os_error_at := fun t => if (t =? 14)%nat || (t =? 22)%nat
                             then Some (Exception "PermissionError")
                             else None;
     time_ms_at := time_ms_at still |}.

(** A page on which nothing matches: no container, no image. *)
Definition empty_page : Env :=
  {| find_elements_at := fun _ _ => inr [];
     property_at := fun _ => geometry;
     scroll_to_at := fun _ _ => None;
     get_attribute_at := fun _ => three_images;
     requests_get_at := fun _ => ok;
     os_error_at := fun _ => None;
     time_ms_at := fun t => 1700000000000 + Z.of_nat t |}.

(** The container is found by the queries made before moment 14 and by
    none made later. *)
Definition vanishing : Env :=
  {| find_elements_at := fun t _ => inr (if (t <? 14)%nat then [1%nat; 2%nat] else []);
     property_at := fun _ => geometry;
     scroll_to_at := fun _ _ => None;
     get_attribute_at := fun _ => three_images;
     requests_get_at := fun _ => ok;
     os_error_at := fun _ => None;
     time_ms_at := fun t => 1700000000000 + Z.of_nat t |}.

(** An image element gone stale: its [width] cannot be read any more. *)
Definition stale_width (img : WebElement) (name : string) : result (option string) :=
  if String.eqb name "width" then inl StaleElementReferenceException
  else three_images img name.

(** A browser that launches, navigates and quits without fault, showing
    the page that holds still. *)
Definition browser : Browser :=
  {| page := still;
     chrome_at := fun _ _ _ => None;
     get_at := fun _ _ => None;
     quit_at := fun _ => None |}.

End Demo.

(** * Properties *)

(** A decidable closed proposition, settled by evaluation. *)
Ltac decide_by_vm := refine (bool_decide_unpack _ _); vm_compute; exact I.

(** ** Checks of the string operations and of the digest *)

Example contains_png : Py.contains ".png" "https://x.org/a.PNG?x=1" = false.
Proof. reflexivity. Qed.

Example contains_png_lower :
  Py.contains ".png" (Py.lower "https://x.org/a.PNG?x=1") = true.
Proof. reflexivity. Qed.

Example int_samples :
  map Py.int [" 12 "; "+12"; "-0"; "1_0"; "1__0"; "_1"; "1_"; EmptyString;
              "007"; "1.5"; " -1 "; "- 1"; "+-1"; "1_2_3"]
  = [Some 12; Some 12; Some 0; Some 10; None; None; None; None;
     Some 7; None; Some (-1); None; None; Some 123].
Proof. reflexivity. Qed.

Example str_samples : map Py.str [0; -5; 1700000000123] = ["0"; "-5"; "1700000000123"].
Proof. reflexivity. Qed.

Example path_join_samples :
  [Py.path_join "messenger_images" "a.txt"; Py.path_join EmptyString "a.txt";
   Py.path_join "x/" "a.txt"; Py.path_join "x" "/a"]
  = ["messenger_images/a.txt"; "a.txt"; "x/a.txt"; "/a"].
Proof. reflexivity. Qed.

Example splitlines_samples :
  let lf := String (ascii_of_N 10) EmptyString in
  let cr := String (ascii_of_N 13) EmptyString in
  [Py.splitlines ("abc" +:+ lf +:+ lf); Py.splitlines lf; Py.splitlines EmptyString;
   Py.splitlines ("a" +:+ cr +:+ lf +:+ "b" +:+ cr +:+ "c");
   Py.splitlines ("abc" +:+ "def" +:+ lf)]
  = [["abc"; EmptyString]; [EmptyString]; []; ["a"; "b"; "c"]; ["abcdef"]].
Proof. reflexivity. Qed.

Example md5_empty : MD5.hexdigest EmptyString = "d41d8cd98f00b204e9800998ecf8427e".
Proof. vm_compute. reflexivity. Qed.

Example md5_abc : MD5.hexdigest "abc" = "900150983cd24fb0d6963f7d28e17f72".
Proof. vm_compute. reflexivity. Qed.

Example md5_url :
  MD5.hexdigest "https://example.com/a.png" = "8c11d92f07c76baf29e49afd2301deb2".
Proof. vm_compute. reflexivity. Qed.

Example md5_two_blocks :
  MD5.hexdigest "aaaaaaaaaaaaaaaaaaaaaaaaaaaaaaaaaaaaaaaaaaaaaaaaaaaaaaaaaaaaaaaa"
  = "014842d480b571495a4a0363793f7367".
Proof. vm_compute. reflexivity. Qed.

Example md5_pad_boundary :
  MD5.hexdigest "aaaaaaaaaaaaaaaaaaaaaaaaaaaaaaaaaaaaaaaaaaaaaaaaaaaaaaaa"
  = "3b0c8ac703f828b04c6c197006d17218".
Proof. vm_compute. reflexivity. Qed.

(** ** Facts about the string operations *)

#[local] Arguments String.append !s1 s2 : simpl nomatch.

Lemma append_assoc (a b c : string) : (a +:+ b) +:+ c = a +:+ (b +:+ c).
Proof. induction a as [|x a IH]; simpl; [reflexivity | f_equal; exact IH]. Qed.

Lemma append_empty_r (a : string) : a +:+ EmptyString = a.
Proof. induction a as [|x a IH]; simpl; [reflexivity | f_equal; exact IH]. Qed.

Lemma append_inj_l (p a b : string) : p +:+ a = p +:+ b -> a = b.
Proof.
  induction p as [|x p IH]; simpl; intros H; [exact H |].
  injection H as H. now apply IH.
Qed.

Lemma prefix_spec (n h : string) :
  String.prefix n h = true <-> exists b, h = n +:+ b.
Proof.
  revert h. induction n as [|x n IH]; intros h.
  - destruct h; simpl; split; eauto.
  - destruct h as [|y h]; simpl.
    + split; [discriminate | intros [b Hb]; discriminate].
    + destruct (ascii_dec x y) as [->|Hne].
      * rewrite IH. split; intros [b Hb]; exists b.
        -- now rewrite Hb.
        -- now injection Hb.
      * split; [discriminate | intros [b Hb]]. injection Hb as Hy _. congruence.
Qed.

(** [Py.contains] is the substring test. *)
Lemma contains_spec (n h : string) :
  Py.contains n h = true <-> exists a b, h = a +:+ n +:+ b.
Proof.
  induction h as [|y h IH]; cbn [Py.contains].
  - rewrite orb_false_r, prefix_spec. split.
    + intros [b Hb]. exists EmptyString, b. exact Hb.
    + intros [[|x a] [b Hb]]; [exists b; exact Hb | discriminate].
  - rewrite orb_true_iff, prefix_spec, IH. split.
    + intros [[b Hb] | [a [b Hb]]].
      * exists EmptyString, b. exact Hb.
      * exists (String y a), b. simpl. now rewrite Hb.
    + intros [[|x a] [b Hb]].
      * left. exists b. exact Hb.
      * right. injection Hb as _ Hb. eauto.
Qed.


Lemma hex_digit_hex (n : Z) : hex_char (MD5.hex_digit n) = true.
Proof.
  unfold MD5.hex_digit.
  destruct (Z.land n 15) as [|p|p]; try reflexivity.
  do 5 (try destruct p as [p|p|]; try reflexivity).
Qed.

Lemma hex_hex (bs : list Z) : hex_string (MD5.hex bs) = true.
Proof.
  induction bs as [|b bs IH]; simpl; [reflexivity |].
  now rewrite !hex_digit_hex, IH.
Qed.

Lemma get_image_hash_hex (url : string) : hex_string (get_image_hash url) = true.
Proof. apply hex_hex. Qed.

Lemma hex_char_plain (c : ascii) :
  hex_char c = true ->
  (Py.code c =? 13) = false /\ Py.is_linebreak c = false /\
  (Py.code c =? 194) = false /\ (Py.code c =? 226) = false.
Proof.
  destruct c as [[] [] [] [] [] [] [] []]; vm_compute; intros H;
    first [discriminate H | repeat split].
Qed.

Lemma splitlines_from_hex (h rest line : string) :
  hex_string h = true ->
  Py.splitlines_from line (h +:+ LF +:+ rest)
  = (line +:+ h) :: Py.splitlines_from EmptyString rest.
Proof.
  revert line. induction h as [|c h IH]; intros line Hh.
  - now rewrite append_empty_r.
  - simpl in Hh. apply andb_true_iff in Hh as [Hc Hh].
    destruct (hex_char_plain c Hc) as (H13 & Hlb & H194 & H226).
    change (String c h +:+ LF +:+ rest) with (String c (h +:+ LF +:+ rest)).
    cbn [Py.splitlines_from]. rewrite H13, Hlb, H194, H226.
    rewrite IH by exact Hh. unfold Py.snoc. now rewrite append_assoc.
Qed.

Lemma ledger_text_app (hs hs' : list string) :
  ledger_text (hs ++ hs') = ledger_text hs +:+ ledger_text hs'.
Proof.
  induction hs as [|h hs IH]; simpl; [reflexivity |].
  now rewrite IH, !append_assoc.
Qed.

Lemma splitlines_ledger_text (hs : list string) :
  Forall (fun h => hex_string h = true) hs ->
  Py.splitlines (ledger_text hs) = hs.
Proof.
  unfold Py.splitlines. induction 1 as [|h hs Hh _ IH]; cbn [ledger_text]; [reflexivity |].
  rewrite splitlines_from_hex by exact Hh. now rewrite IH.
Qed.

(** Image files never take the place of the ledger file. *)
Lemma path_join_not_absolute (a b : string) :
  (forall b', b <> String "/" b') ->
  Py.path_join a b
  = match a with
    | EmptyString => b
    | _ => if Py.endswith_slash a then a +:+ b else a +:+ "/" +:+ b
    end.
Proof.
  intros Hb. unfold Py.path_join. destruct b as [|y b]; [reflexivity |].
  destruct y as [[] [] [] [] [] [] [] []]; try reflexivity.
  now destruct (Hb b).
Qed.

Lemma path_join_relative (a : string) :
  exists p, forall b, (forall b', b <> String "/" b') -> Py.path_join a b = p +:+ b.
Proof.
  destruct a as [|x a].
  - exists EmptyString. intros b Hb. now rewrite path_join_not_absolute.
  - destruct (Py.endswith_slash (String x a)) eqn:Hs.
    + exists (String x a). intros b Hb. rewrite path_join_not_absolute by exact Hb.
      now rewrite Hs.
    + exists (String x a +:+ "/"). intros b Hb.
      rewrite path_join_not_absolute by exact Hb. now rewrite Hs, append_assoc.
Qed.

Lemma image_path_not_ledger (save_folder : string) (timestamp : Z) (idx : nat) (ext : string) :
  Py.path_join save_folder (image_filename timestamp idx ext) <> HASH_FILE save_folder.
Proof.
  unfold HASH_FILE. destruct (path_join_relative save_folder) as [p Hp].
  rewrite !Hp by (intros b'; discriminate).
  intros H. apply append_inj_l in H. discriminate H.
Qed.

(** ** The monad: running a computation step by step *)

Lemma bind_run {S A B : Type} (m : M S A) (k : A -> M S B) (s : S) :
  bind m k s
  = match m s with
    | (inr a, s') => k a s'
    | (inl e, s') => (inl e, s')
    end.
Proof. reflexivity. Qed.

Lemma outside_run {A : Type} (answer : nat -> result A) (w : World) :
  outside answer w = (answer (tick w), next w).
Proof. reflexivity. Qed.

Lemma lift_run {L A : Type} (m : M World A) (l : L) (w : World) :
  lift m (l, w) = (fst (m w), (l, snd (m w))).
Proof. unfold lift. simpl. now destruct (m w). Qed.

Lemma find_first {A : Type} (f : A -> bool) (before : list A) (x : A) (after : list A) :
  f x = true -> (forall y, y ∈ before -> f y = false) ->
  List.find f (before ++ x :: after) = Some x.
Proof.
  intros Hx. induction before as [|b before IH]; intros Hbefore; simpl.
  - now rewrite Hx.
  - rewrite (Hbefore b) by constructor. apply IH. intros y Hy. apply Hbefore.
    now constructor.
Qed.

Lemma find_none {A : Type} (f : A -> bool) (l : list A) :
  (forall y, y ∈ l -> f y = false) -> List.find f l = None.
Proof.
  induction l as [|b l IH]; intros Hl; simpl; [reflexivity |].
  rewrite (Hl b) by constructor. apply IH. intros y Hy. apply Hl. now constructor.
Qed.

(** ** Region selection ([get_message_container]) *)

Section RegionSelection.

Variable E : Env.

(** The geometry of a page that holds still: what each property read
    answers, or the exception it raises. *)
Variable dom : property -> WebElement -> result Z.

Lemma first_scrollable_still (containers : list WebElement) (w : World) :
  (forall t p c, (tick w <= t)%nat -> property_at E t p c = dom p c) ->
  exists w', first_scrollable E containers w = (inr (List.find (overflows dom) containers), w')
             /\ (tick w <= tick w')%nat /\ files w' = files w.
Proof.
  revert w. induction containers as [|c rest IH]; intros w Hdom.
  - exists w. repeat split; lia.
  - cbn [first_scrollable List.find]. unfold overflows at 1.
    rewrite bind_run. unfold try_except. rewrite bind_run.
    unfold execute_script at 1. unfold outside at 1.
    rewrite Hdom by lia.
    destruct (dom scrollHeight c) as [e|scroll_height].
    + cbn [ret]. destruct (IH (next w)) as (w' & Hw' & Ht & Hf).
      { intros t p c' Ht. apply Hdom. simpl in Ht. lia. }
      exists w'. rewrite Hw'. simpl in Ht. repeat split; [lia | exact Hf].
    + rewrite bind_run. unfold execute_script, outside. cbn [tick next].
      rewrite Hdom by lia.
      destruct (dom clientHeight c) as [e|client_height]; cbn [ret].
      * destruct (IH (next (next w))) as (w' & Hw' & Ht & Hf).
        { intros t p c' Ht. apply Hdom. simpl in Ht. lia. }
        exists w'. rewrite Hw'. simpl in Ht. repeat split; [lia | exact Hf].
      * destruct (scroll_height >? client_height).
        -- exists (next (next w)). simpl. repeat split; lia.
        -- destruct (IH (next (next w))) as (w' & Hw' & Ht & Hf).
           { intros t p c' Ht. apply Hdom. simpl in Ht. lia. }
           exists w'. rewrite Hw'. simpl in Ht. repeat split; [lia | exact Hf].
Qed.

Lemma get_message_container_still (containers : list WebElement) (w : World) :
  find_elements_at E (tick w) CONTAINER_XPATH = inr containers ->
  (forall t p c, (tick w < t)%nat -> property_at E t p c = dom p c) ->
  exists w',
    get_message_container E w
    = (inr match List.find (overflows dom) containers with
           | Some container => Some container
           | None => head containers
           end, w')
    /\ (tick w < tick w')%nat /\ files w' = files w.
Proof.
  intros Hfind Hdom. unfold get_message_container.
  rewrite bind_run. unfold find_elements, outside. rewrite Hfind.
  destruct (first_scrollable_still containers (next w)) as (w' & Hw' & Ht & Hf).
  { intros t p c Ht. apply Hdom. simpl in Ht. lia. }
  exists w'. rewrite bind_run, Hw'. simpl in Ht.
  destruct (List.find (overflows dom) containers); cbn [ret]; repeat split; first [lia | exact Hf].
Qed.

(** C8. Among the nodes matching the container fingerprint, on a page that
    holds still during the call, [get_message_container] returns the first
    node whose scrollable height exceeds its visible height; when no node
    overflows it returns the first match; when there is no match it returns
    [None]. *)
Theorem get_message_container_policy (containers : list WebElement) (w : World) :
  find_elements_at E (tick w) CONTAINER_XPATH = inr containers ->
  (forall t p c, (tick w < t)%nat -> property_at E t p c = dom p c) ->
  exists chosen,
    fst (get_message_container E w) = inr chosen /\
    (forall before container after,
        containers = before ++ container :: after ->
        overflows dom container = true ->
        (forall c, c ∈ before -> overflows dom c = false) ->
        chosen = Some container) /\
    ((forall c, c ∈ containers -> overflows dom c = false) -> chosen = head containers) /\
    (containers = [] -> chosen = None).
Proof.
  intros Hfind Hdom.
  destruct (get_message_container_still containers w Hfind Hdom) as (w' & Hrun & _).
  eexists. split; [rewrite Hrun; reflexivity |]. repeat split.
  - intros before container after -> Hover Hbefore.
    now rewrite (find_first (overflows dom) before container after).
  - intros Hnone. now rewrite (find_none (overflows dom) containers).
  - intros ->. reflexivity.
Qed.

End RegionSelection.

(** ** Scroll controller ([scroll_until_date]) *)

Section ScrollController.

Variable E : Env.
Variable download_images : bool.
Variable save_folder : string.

Lemma react_spec (s : sample) (count : nat) (w : World) :
  exists w',
    try_except (react E download_images save_folder s) (fun _ => ret Next) (count, w)
    = (inr (flow_after count (Measured s)), (count_after count (Measured s), w')).
Proof.
  unfold react, try_except, flow_after, count_after, stalled.
  destruct (new_scroll_height s >? current_scroll_height s) eqn:Hgrow.
  - assert ((new_scroll_height s =? current_scroll_height s) = false) as ->
      by (apply Z.eqb_neq; apply Z.gtb_lt in Hgrow; lia).
    cbn [andb]. rewrite bind_run. cbn [assign fst snd].
    destruct download_images.
    + rewrite !bind_run, lift_run. cbn [fst snd].
      destruct (download_loaded_images E save_folder w) as [[e|n] w1]; cbn [fst snd ret].
      * now exists w1.
      * now exists w1.
    + exists w. reflexivity.
  - rewrite (andb_comm (new_scroll_top s =? 0)).
    destruct ((new_scroll_height s =? current_scroll_height s) && (new_scroll_top s =? 0)).
    + rewrite bind_run. cbn [assign fst snd]. rewrite bind_run. cbn [locals fst].
      destruct (3 <=? S count)%nat; now exists w.
    + exists w. reflexivity.
Qed.

Lemma scroll_once_spec (count : nat) (w : World) :
  exists w',
    scroll_once E download_images save_folder (count, w)
    = (inr (flow_after count (observe E w)), (count_after count (observe E w), w')).
Proof.
  unfold scroll_once, observe.
  unfold try_except at 1. rewrite bind_run, lift_run. cbn [fst snd].
  destruct (measure E w) as [[e|[s|]] w1]; cbn [fst snd].
  - exists w1. now destruct e.
  - destruct (react_spec s count w1) as [w' Hw']. exists w'.
    unfold try_except in Hw'.
    destruct (react E download_images save_folder s (count, w1)) as [[e|f] st'].
    + destruct e; exact Hw'.
    + exact Hw'.
  - now exists w1.
Qed.

(** C1. Whatever the counter and the world at the start of an iteration,
    when the iteration measures (pre-height, post-height, offset) the stall
    counter is incremented exactly when the post-height equals the pre-height
    and the offset is 0, and any other sample resets it to zero. *)
Theorem stall_counter_update (count : nat) (w : World) (s : sample) (w1 : World) :
  measure E w = (inr (Some s), w1) ->
  let count' := fst (snd (scroll_once E download_images save_folder (count, w))) in
  (count' = S count <->
   new_scroll_height s = current_scroll_height s /\ new_scroll_top s = 0) /\
  (~ (new_scroll_height s = current_scroll_height s /\ new_scroll_top s = 0) ->
   count' = 0%nat).
Proof.
  intros Hm. destruct (scroll_once_spec count w) as [w' ->]. cbn [fst snd].
  unfold observe. rewrite Hm. cbn [fst count_after]. unfold stalled.
  destruct (Z.eqb_spec (new_scroll_height s) (current_scroll_height s)) as [Hh|Hh];
    destruct (Z.eqb_spec (new_scroll_top s) 0) as [Ht|Ht]; cbn [andb];
    (split; [split |]); try tauto; try discriminate; try lia.
Qed.

Lemma take_S_cons {A : Type} (x : A) (l : list A) (k : nat) :
  take (S k) (x :: l) = x :: take k l.
Proof. reflexivity. Qed.

Lemma flow_after_cases (count : nat) (o : observation) :
  (count < 3)%nat ->
  (flow_after count o = Return true /\ count_after count o = 3%nat) \/
  (flow_after count o = Next /\ (count_after count o < 3)%nat) \/
  (flow_after count o = Break /\ count_after count o = count).
Proof.
  intros Hcount. destruct o as [s| |e]; cbn [flow_after count_after].
  - destruct (stalled s); cbn [andb].
    + destruct (Nat.leb_spec 3 (S count)); [left | right; left]; split;
        first [reflexivity | lia].
    + right; left. split; [reflexivity | lia].
  - right; right. split; reflexivity.
  - right; left. split; [reflexivity | lia].
Qed.

(** An iteration, in full: how it ends, the counter and the world it
    leaves. *)
Lemma scroll_once_run (count : nat) (w : World) :
  scroll_once E download_images save_folder (count, w)
  = (inr (flow_after count (observe E w)),
     (count_after count (observe E w), iteration_end E download_images save_folder w)).
Proof.
  unfold scroll_once, observe, iteration_end, try_except.
  rewrite bind_run, lift_run.
  destruct (measure E w) as [[e|[s|]] w1]; cbn [fst snd]; [now destruct e | | reflexivity].
  unfold react, flow_after, count_after, stalled.
  destruct (new_scroll_height s >? current_scroll_height s) eqn:Hgrow.
  - assert ((new_scroll_height s =? current_scroll_height s) = false) as ->
      by (apply Z.eqb_neq; apply Z.gtb_lt in Hgrow; lia).
    rewrite andb_true_r. cbn [andb]. rewrite bind_run. cbn [assign fst snd].
    destruct download_images.
    + rewrite !bind_run, lift_run. cbn [fst snd].
      destruct (download_loaded_images E save_folder w1) as [[e|n] w2]; cbn [fst snd ret];
        [now destruct e | reflexivity].
    + reflexivity.
  - rewrite andb_false_r, (andb_comm (new_scroll_top s =? 0)).
    destruct ((new_scroll_height s =? current_scroll_height s) && (new_scroll_top s =? 0)).
    + rewrite bind_run. cbn [assign fst snd]. rewrite bind_run. cbn [locals fst andb].
      now destruct (3 <=? S count)%nat.
    + reflexivity.
Qed.

(** The loop returns, and it answers [True] exactly when, at one of its
    iterations, the counter run over what the iterations observe reaches 3,
    no earlier iteration having lost the container. *)
Lemma scroll_loop_iterations (n : nat) (count : nat) (w : World) :
  (count < 3)%nat ->
  exists found st',
    scroll_loop E download_images save_folder n (count, w) = (inr found, st') /\
    (found = true <->
     exists k, (k < n)%nat /\
       fold_left count_after
         (take (S k) (iterations E download_images save_folder n w)) count = 3%nat /\
       ContainerLost ∉ take k (iterations E download_images save_folder n w)).
Proof.
  revert count w. induction n as [|n IH]; intros count w Hcount.
  - exists false, (count, w). split; [reflexivity |].
    split; [discriminate | intros (k & Hk & _); lia].
  - cbn [scroll_loop iterations]. rewrite bind_run, scroll_once_run.
    destruct (observe E w) as [s| |e] eqn:Hobs; cbn [flow_after count_after].
    + destruct (stalled s && (3 <=? S count)%nat) eqn:Hthird.
      * (* the third stall: [return True] *)
        apply andb_true_iff in Hthird as [Hstall Hthree]. apply Nat.leb_le in Hthree.
        eexists true, _. split; [reflexivity |]. split; [intros _ | reflexivity].
        exists 0%nat. split; [lia |]. rewrite take_S_cons, !take_0.
        cbn [fold_left count_after]. rewrite Hstall. split; [lia | apply not_elem_of_nil].
      * (* a sample that does not end the loop *)
        assert ((if stalled s then S count else 0) < 3)%nat as Hless.
        { destruct (stalled s); [| lia]. cbn [andb] in Hthird.
          apply Nat.leb_gt in Hthird. lia. }
        destruct (IH _ (iteration_end E download_images save_folder w) Hless)
          as (found & st' & Hrun & Hfound).
        exists found, st'. split; [exact Hrun |]. rewrite Hfound. split.
        -- intros (k & Hk & Hfold & Hlost). exists (S k). split; [lia |].
           rewrite !take_S_cons. split; [exact Hfold |].
           rewrite not_elem_of_cons. split; [discriminate | exact Hlost].
        -- intros ([|k] & Hk & Hfold & Hlost).
           ++ rewrite take_S_cons, take_0 in Hfold. cbn [fold_left count_after] in Hfold. lia.
           ++ exists k. split; [lia |]. rewrite !take_S_cons in Hfold, Hlost.
              split; [exact Hfold |]. now apply not_elem_of_cons in Hlost.
    + (* the container was lost: [break] *)
      eexists false, _. split; [reflexivity |]. split; [discriminate |].
      intros ([|k] & Hk & Hfold & Hlost).
      * rewrite take_S_cons, take_0 in Hfold. cbn [fold_left count_after] in Hfold. lia.
      * rewrite take_S_cons in Hlost. destruct Hlost. constructor.
    + (* a driver call raised: [continue], the counter is left alone *)
      destruct (IH count (iteration_end E download_images save_folder w) Hcount)
        as (found & st' & Hrun & Hfound).
      exists found, st'. split; [exact Hrun |]. rewrite Hfound. split.
      * intros (k & Hk & Hfold & Hlost). exists (S k). split; [lia |].
        rewrite !take_S_cons. split; [exact Hfold |].
        rewrite not_elem_of_cons. split; [discriminate | exact Hlost].
      * intros ([|k] & Hk & Hfold & Hlost).
        -- rewrite take_S_cons, take_0 in Hfold. cbn [fold_left count_after] in Hfold. lia.
        -- exists k. split; [lia |]. rewrite !take_S_cons in Hfold, Hlost.
           split; [exact Hfold |]. now apply not_elem_of_cons in Hlost.
Qed.

(** The call on any page, once the container has been found and its
    geometry read. *)
Lemma scroll_until_date_iterations (target_date : option string) (max_scrolls : nat)
    (w : World) (container : WebElement) (w1 : World) (scroll_top : Z) (w0 : World) :
  (sleep ;;; get_message_container E) w = (inr (Some container), w1) ->
  (scroll_height <- execute_script E scrollHeight (Some container) ;;
   client_height <- execute_script E clientHeight (Some container) ;;
   execute_script E scrollTop (Some container)) w1 = (inr scroll_top, w0) ->
  let observed := iterations E download_images save_folder max_scrolls w0 in
  exists found w',
    scroll_until_date E target_date max_scrolls download_images save_folder w
    = (inr found, w') /\
    (found = true <->
     exists k, (k < max_scrolls)%nat /\ stall_count (take (S k) observed) = 3%nat /\
               ContainerLost ∉ take k observed) /\
    ((forall k, (k < max_scrolls)%nat -> (stall_count (take (S k) observed) < 3)%nat) ->
     found = false) /\
    (Forall (fun o => exists s, o = Measured s) observed ->
     (found = true <->
      exists k, (k < max_scrolls)%nat /\ stall_count (take (S k) observed) = 3%nat)).
Proof.
  intros Hfind Hread observed.
  destruct (scroll_loop_iterations max_scrolls 0 w0) as (found & st' & Hrun & Hfound); [lia |].
  exists found, (snd st').
  assert (scroll_until_date E target_date max_scrolls download_images save_folder w
          = (inr found, snd st')) as Hcall.
  { unfold scroll_until_date. rewrite bind_run in Hfind. rewrite bind_run.
    destruct (sleep w) as [[e|[]] ws]; [discriminate Hfind |].
    rewrite bind_run, Hfind. rewrite bind_run in Hread. rewrite bind_run.
    destruct (execute_script E scrollHeight (Some container) w1) as [[e|sh] w2];
      [discriminate Hread |].
    rewrite bind_run in Hread. rewrite bind_run.
    destruct (execute_script E clientHeight (Some container) w2) as [[e|ch] w3];
      [discriminate Hread |].
    rewrite bind_run.
    rewrite Hread. unfold with_locals. now rewrite Hrun. }
  split; [exact Hcall |]. split; [exact Hfound |]. split.
  - intros Hbudget. destruct found; [| reflexivity].
    destruct Hfound as [Hfound _]. destruct (Hfound eq_refl) as (k & Hk & Hthree & _).
    specialize (Hbudget k Hk). unfold stall_count, observed in Hbudget. lia.
  - intros Hsamples. rewrite Hfound. split.
    + intros (k & Hk & Hthree & _). now exists k.
    + intros (k & Hk & Hthree). exists k. split; [exact Hk |]. split; [exact Hthree |].
      intros Hlost. apply elem_of_take in Hlost as (i & Hlost & _).
      apply list_elem_of_lookup_2 in Hlost.
      rewrite Forall_forall in Hsamples. destruct (Hsamples _ Hlost) as [s Hs].
      discriminate Hs.
Qed.

End ScrollController.

(** ** Image harvester: the filters *)

Section Filters.

Variable E : Env.

(** The dimension rule never raises, reads [width] and then [height], and
    leaves the files alone. *)
Lemma small_image_run (img : WebElement) (w : World) :
  let width := get_attribute_at E (tick w) img "width" in
  let height := get_attribute_at E (S (tick w)) img "height" in
  small_image E img w
  = (inr (declared_small width height),
     match width with inl _ => next w | inr _ => next (next w) end).
Proof.
  cbv zeta. unfold small_image, try_except, declared_small.
  rewrite bind_run. unfold get_attribute at 1. unfold outside at 1.
  destruct (get_attribute_at E (tick w) img "width") as [e|width]; [reflexivity |].
  rewrite bind_run. unfold get_attribute, outside. cbn [tick next].
  destruct (get_attribute_at E (S (tick w)) img "height") as [e|height]; [reflexivity |].
  destruct (Py.truthy width && Py.truthy height); [| reflexivity].
  rewrite bind_run. unfold int_of.
  destruct (Py.int (default EmptyString width)) as [a|]; [| reflexivity].
  cbn [ret]. destruct (a <? 50); [reflexivity |].
  rewrite bind_run.
  destruct (Py.int (default EmptyString height)) as [b|]; reflexivity.
Qed.

Lemma truthy_parsed (v : string) : is_Some (Py.int v) -> Py.truthy (Some v) = true.
Proof. destruct v; [intros [n Hn]; discriminate Hn | reflexivity]. Qed.

(** C5. The dimension rule reads [width] and [height] and never raises.
    For declared dimensions that are integers it rejects a candidate exactly
    when width and height are both present and at least one of them is below
    50; a candidate lacking a declared dimension is not rejected. In general
    it rejects exactly when both values are present and not empty, the width
    is an integer, and either the width is below 50 or the height is an
    integer below 50. *)
Theorem dimension_filter (img : WebElement) (w : World) (width height : option string) :
  get_attribute_at E (tick w) img "width" = inr width ->
  get_attribute_at E (S (tick w)) img "height" = inr height ->
  exists rejected,
    fst (small_image E img w) = inr rejected /\
    ((forall v, width = Some v -> is_Some (Py.int v)) ->
     (forall v, height = Some v -> is_Some (Py.int v)) ->
     (rejected = true <->
      exists vw vh a b,
        width = Some vw /\ height = Some vh /\
        Py.int vw = Some a /\ Py.int vh = Some b /\ (a < 50 \/ b < 50))) /\
    (width = None \/ height = None -> rejected = false) /\
    (rejected = true <->
     exists vw vh a,
       width = Some vw /\ height = Some vh /\ vh <> EmptyString /\ Py.int vw = Some a /\
       (a < 50 \/ exists b, Py.int vh = Some b /\ b < 50)).
Proof.
  intros Hw Hh. rewrite small_image_run, Hw, Hh. cbn [fst].
  eexists. split; [reflexivity |]. unfold declared_small.
  destruct width as [vw|], height as [vh|];
    [| cbn [Py.truthy andb default from_option id] ..].
  - cbn [default from_option id]. split; [| split].
    + intros Hpw Hph.
      destruct (Hpw vw eq_refl) as [a Ha]. destruct (Hph vh eq_refl) as [b Hb].
      rewrite (truthy_parsed vw), (truthy_parsed vh) by eauto.
      cbn [andb]. rewrite Ha, Hb. rewrite orb_true_iff, !Z.ltb_lt. split.
      * intros H. exists vw, vh, a, b. tauto.
      * intros (vw' & vh' & a' & b' & [= <-] & [= <-] & Ha' & Hb' & H).
        rewrite Ha in Ha'. rewrite Hb in Hb'. injection Ha' as <-. injection Hb' as <-.
        exact H.
    + intros [H|H]; discriminate H.
    + destruct (Py.int vw) as [a|] eqn:Ha.
      * rewrite (truthy_parsed vw) by eauto. cbn [andb].
        destruct vh as [|c vh].
        -- cbn [Py.truthy]. split; [discriminate |].
           intros (? & vh' & ? & _ & [= <-] & Hne & _). now destruct Hne.
        -- cbn [Py.truthy andb]. rewrite orb_true_iff, Z.ltb_lt. split.
           ++ intros [Hlt | Hlt].
              ** exists vw, (String c vh), a.
                 split; [reflexivity |]. split; [reflexivity |]. split; [discriminate |].
                 split; [exact Ha | now left].
              ** destruct (Py.int (String c vh)) as [b|] eqn:Hb; [| discriminate Hlt].
                 apply Z.ltb_lt in Hlt.
                 exists vw, (String c vh), a.
                 split; [reflexivity |]. split; [reflexivity |]. split; [discriminate |].
                 split; [exact Ha | right; eauto].
           ++ intros (vw' & vh' & a' & [= <-] & [= <-] & _ & Ha' & H).
              rewrite Ha in Ha'. injection Ha' as <-.
              destruct H as [H | (b & Hb & H)]; [now left | right].
              rewrite Hb. now apply Z.ltb_lt.
      * rewrite andb_false_r. split; [discriminate |].
        intros (vw' & ? & ? & [= <-] & _ & _ & Ha' & _). congruence.
  - rewrite andb_false_r. split; [| split].
    + intros _ _. split; [discriminate | intros (? & ? & ? & ? & _ & H & _); discriminate H].
    + reflexivity.
    + split; [discriminate | intros (? & ? & ? & _ & H & _); discriminate H].
  - split; [| split].
    + intros _ _. split; [discriminate | intros (? & ? & ? & ? & H & _); discriminate H].
    + reflexivity.
    + split; [discriminate | intros (? & ? & ? & H & _); discriminate H].
  - split; [| split].
    + intros _ _. split; [discriminate | intros (? & ? & ? & ? & H & _); discriminate H].
    + reflexivity.
    + split; [discriminate | intros (? & ? & ? & H & _); discriminate H].
Qed.

(** C10, as amended. A candidate whose address passed the source filter,
    and of which a declared dimension is present but is not an integer:
    when the width is the one that does not parse, or when the height does
    not parse and is empty or the width does not parse to a value below 50,
    the dimension rule does not fail and does not reject the candidate, and
    the loop body goes on with the hashing and download steps. The width is
    tested first: when it parses to a value below 50 and the height is
    present and not empty, the candidate is rejected whether the height
    parses or not, and nothing more is done for it. *)
Theorem unparseable_dimension (save_folder hash_file : string) (idx : nat) (img : WebElement)
    (vars : harvest) (w : World) (src : string) (width height : option string) :
  get_attribute_at E (tick w) img "src" = inr (Some src) ->
  not_valid_url (Some src) = false ->
  get_attribute_at E (S (tick w)) img "width" = inr width ->
  get_attribute_at E (S (S (tick w))) img "height" = inr height ->
  ((exists v, width = Some v /\ Py.int v = None) \/
   (exists v, height = Some v /\ Py.int v = None /\
              (v = EmptyString \/
               forall vw a, width = Some vw -> Py.int vw = Some a -> 50 <= a)) ->
   small_image E img (next w) = (inr false, next (next (next w))) /\
   harvest_image E save_folder hash_file idx img (vars, w)
   = try_except (hash_and_download E save_folder hash_file idx src) (fun _ => ret tt)
       (vars, next (next (next w))) /\
   fst (harvest_image E save_folder hash_file idx img (vars, w)) = inr tt) /\
  (forall vw vh a,
      width = Some vw -> height = Some vh -> vh <> EmptyString ->
      Py.int vw = Some a -> a < 50 ->
      small_image E img (next w) = (inr true, next (next (next w))) /\
      harvest_image E save_folder hash_file idx img (vars, w)
      = (inr tt, (vars, next (next (next w))))).
Proof.
  intros Hsrc Hvalid Hw Hh.
  assert (forall small,
             declared_small (inr width) (inr height) = small ->
             small_image E img (next w) = (inr small, next (next (next w))) /\
             harvest_image E save_folder hash_file idx img (vars, w)
             = if small then (inr tt, (vars, next (next (next w))))
               else try_except (hash_and_download E save_folder hash_file idx src)
                      (fun _ => ret tt) (vars, next (next (next w)))) as Hrun.
  { intros small Hsmall.
    assert (small_image E img (next w) = (inr small, next (next (next w)))) as Hrule
      by (rewrite small_image_run; cbn [tick next]; now rewrite Hw, Hh, Hsmall).
    split; [exact Hrule |].
    unfold harvest_image, try_except at 1, get_attribute.
    rewrite bind_run, lift_run, !outside_run, Hsrc. cbn [fst snd]. rewrite Hvalid.
    cbn [default from_option id]. rewrite bind_run, lift_run, Hrule. cbn [fst snd].
    destruct small; reflexivity. }
  split.
  - intros Hbad.
    assert (declared_small (inr width) (inr height) = false) as Hsmall; cycle 1.
    { destruct (Hrun false Hsmall) as [Hrule Hbody]. split; [exact Hrule |].
      split; [exact Hbody |]. rewrite Hbody. unfold try_except.
      now destruct (hash_and_download E save_folder hash_file idx src
                      (vars, next (next (next w)))) as [[e|[]] st]. }
    unfold declared_small.
    destruct Hbad as [(v & -> & Hv) | (v & -> & Hv & Hwide)]; cbn [default from_option id].
    + rewrite Hv. apply andb_false_r.
    + destruct Hwide as [-> | Hwide];
        [cbn [Py.truthy]; now rewrite andb_false_r |].
      destruct width as [vw|]; [| reflexivity]. cbn [default from_option id].
      destruct (Py.int vw) as [a|] eqn:Ha; [| apply andb_false_r].
      rewrite Hv. specialize (Hwide vw a eq_refl Ha).
      assert ((a <? 50) = false) as -> by (apply Z.ltb_ge; lia).
      apply andb_false_r.
  - intros vw vh a -> -> Hne Ha Hlt. apply (Hrun true). unfold declared_small.
    cbn [default from_option id]. rewrite Ha, (truthy_parsed vw) by eauto.
    assert ((a <? 50) = true) as -> by (apply Z.ltb_lt; lia).
    destruct vh; [now destruct Hne | reflexivity].
Qed.



(** C9. The extension is ["png"] when the lowercased address contains
    [".png"], else ["gif"] when it contains [".gif"], else ["jpg"]; it is the
    extension of the file name the image is saved under. *)
Theorem extension_choice (src : string) :
  let png := exists a b, Py.lower src = a +:+ ".png" +:+ b in
  let gif := exists a b, Py.lower src = a +:+ ".gif" +:+ b in
  (png -> extension src = "png") /\
  (~ png -> gif -> extension src = "gif") /\
  (~ png -> ~ gif -> extension src = "jpg") /\
  (forall timestamp idx,
      image_filename timestamp idx (extension src)
      = "img_" +:+ Py.str timestamp +:+ "_" +:+ Py.str (Z.of_nat idx) +:+ "." +:+ extension src).
Proof.
  cbv zeta. unfold extension. rewrite <- !contains_spec.
  destruct (Py.contains ".png" (Py.lower src));
    destruct (Py.contains ".gif" (Py.lower src));
    repeat split; intros; try reflexivity; congruence.
Qed.

End Filters.

(** ** Image harvester: downloading and recording *)

Section Download.

Variable E : Env.

(** [download_image] never raises; it reports success only when the request
    answered 200 and the file was opened and written. *)
Lemma download_image_run (url save_folder filename : string) (w : World) :
  let filepath := Py.path_join save_folder filename in
  download_image E url save_folder filename w
  = match requests_get_at E (tick w) url with
    | inl _ => (inr false, next w)
    | inr response =>
        if status_code response =? 200 then
          match os_error_at E (S (tick w)) with
          | Some _ => (inr false, next (next w))
          | None =>
              match os_error_at E (S (S (tick w))) with
              | Some _ =>
                  (inr false, {| tick := 3 + tick w;
                                 files := <[filepath := EmptyString]> (files w) |})
              | None =>
                  (inr true, {| tick := 3 + tick w;
                                files := <[filepath := content response]> (files w) |})
              end
          end
        else (inr false, next w)
    end.
Proof.
  cbv zeta. unfold download_image, try_except. rewrite bind_run.
  unfold requests_get at 1. unfold outside at 1.
  destruct (requests_get_at E (tick w) url) as [e|response]; [reflexivity |].
  destruct (status_code response =? 200); [| reflexivity].
  rewrite bind_run. unfold open_truncate at 1. cbn [tick next].
  destruct (os_error_at E (S (tick w))) as [e|]; [reflexivity |].
  rewrite bind_run. unfold write. cbn [tick next set_file files].
  destruct (os_error_at E (S (S (tick w)))) as [e|]; [reflexivity |].
  cbn [ret]. rewrite lookup_insert_eq. unfold next, set_file. simpl.
  now rewrite insert_insert_eq.
Qed.

Lemma record_run (hash_file img_hash : string) (vars : harvest) (w : World) :
  record E hash_file img_hash (vars, w)
  = match os_error_at E (tick w) with
    | Some e => (inl e, (recorded img_hash vars, next w))
    | None =>
        match os_error_at E (S (tick w)) with
        | Some e =>
            (inl e, (recorded img_hash vars,
                     {| tick := 2 + tick w;
                        files := match files w !! hash_file with
                                 | Some _ => files w
                                 | None => <[hash_file := EmptyString]> (files w)
                                 end |}))
        | None =>
            (inr tt, (recorded img_hash vars,
                      {| tick := 2 + tick w;
                         files := <[hash_file := default EmptyString (files w !! hash_file)
                                                 +:+ img_hash +:+ LF]> (files w) |}))
        end
    end.
Proof.
  unfold record, recorded. rewrite bind_run. cbn [assign fst snd].
  rewrite bind_run. cbn [assign fst snd downloaded_hashes download_count].
  rewrite bind_run, lift_run. unfold open_append. cbn [fst snd].
  destruct (os_error_at E (tick w)) as [e|]; [reflexivity |].
  destruct (files w !! hash_file) as [text|] eqn:Hfile; cbn [fst snd];
    rewrite lift_run; unfold write; cbn [tick next set_file files fst snd];
    destruct (os_error_at E (S (tick w))) as [e|]; try reflexivity.
  - now rewrite Hfile.
  - rewrite lookup_insert_eq. unfold next. simpl. now rewrite insert_insert_eq.
Qed.

End Download.

Section Candidate.

Variable E : Env.
Variable save_folder : string.

(** The body of the loop, step by step. It never raises. *)
Lemma harvest_image_run (hash_file : string) (idx : nat) (img : WebElement)
    (vars : harvest) (w : World) :
  harvest_image E save_folder hash_file idx img (vars, w)
  = match get_attribute_at E (tick w) img "src" with
    | inl _ => (inr tt, (vars, next w))
    | inr src =>
        if not_valid_url src then (inr tt, (vars, next w))
        else
          let src := default EmptyString src in
          let width := get_attribute_at E (S (tick w)) img "width" in
          let height := get_attribute_at E (S (S (tick w))) img "height" in
          let w2 := match width with
                    | inl _ => next (next w)
                    | inr _ => next (next (next w))
                    end in
          if declared_small width height then (inr tt, (vars, w2))
          else if bool_decide (get_image_hash src ∈ downloaded_hashes vars)
          then (inr tt, (vars, w2))
          else
            let filename := image_filename (time_ms_at E (tick w2)) idx (extension src) in
            match download_image E src save_folder filename (next w2) with
            | (inr true, w4) =>
                match record E hash_file (get_image_hash src) (vars, w4) with
                | (inr _, (vars', w5)) => (inr tt, (vars', next w5))
                | (inl _, st) => (inr tt, st)
                end
            | (inr false, w4) => (inr tt, (vars, next w4))
            | (inl _, w4) => (inr tt, (vars, w4))
            end
    end.
Proof.
  unfold harvest_image, try_except, get_attribute, time_ms, sleep.
  rewrite bind_run, lift_run, outside_run. cbn [fst snd].
  destruct (get_attribute_at E (tick w) img "src") as [e|src]; [reflexivity |].
  destruct (not_valid_url src); [reflexivity |].
  cbv zeta. rewrite bind_run, lift_run, small_image_run. cbn [fst snd tick next].
  destruct (declared_small _ _); [reflexivity |].
  rewrite bind_run. cbn [locals fst snd].
  destruct (bool_decide _); [reflexivity |].
  set (w2 := match get_attribute_at E (S (tick w)) img "width" with
             | inl _ => next (next w)
             | inr _ => next (next (next w))
             end).
  rewrite bind_run, lift_run, outside_run. cbn [fst snd].
  rewrite bind_run, lift_run.
  destruct (download_image E (default EmptyString src) save_folder
              (image_filename (time_ms_at E (tick w2)) idx (extension (default EmptyString src)))
              (next w2)) as [[e|[|]] w4]; cbn [fst snd].
  - reflexivity.
  - rewrite bind_run.
    destruct (record E hash_file (get_image_hash (default EmptyString src)) (vars, w4))
      as [[e|[]] [vars' w5]]; [reflexivity |].
    now rewrite lift_run, outside_run.
  - rewrite bind_run. cbn [ret]. now rewrite lift_run, outside_run.
Qed.

Lemma harvest_image_ledger (idx : nat) (img : WebElement) (vars : harvest) (w : World) :
  exists vars' w',
    harvest_image E save_folder (HASH_FILE save_folder) idx img (vars, w)
    = (inr tt, (vars', w')) /\
    (tick w < tick w')%nat /\
    ledger_step E save_folder idx img vars w vars' w'.
Proof.
  rewrite harvest_image_run. unfold ledger_step.
  destruct (get_attribute_at E (tick w) img "src") as [e|src] eqn:Hsrc.
  { exists vars, (next w). cbn. repeat split; [lia | left; split; reflexivity]. }
  destruct (not_valid_url src) eqn:Hvalid.
  { exists vars, (next w). cbn. repeat split; [lia | left; split; reflexivity]. }
  assert (src = Some (default EmptyString src)) as Hsome
    by (destruct src; [reflexivity | discriminate Hvalid]).
  cbv zeta.
  set (w2 := match get_attribute_at E (S (tick w)) img "width" with
             | inl _ => next (next w)
             | inr _ => next (next (next w))
             end).
  assert ((tick w < tick w2)%nat /\ files w2 = files w) as [Htick2 Hfiles2]
    by (unfold w2; destruct (get_attribute_at E (S (tick w)) img "width"); cbn; split;
        first [lia | reflexivity]).
  destruct (declared_small _ _).
  { exists vars, w2. repeat split; [exact Htick2 | left; now rewrite Hfiles2]. }
  destruct (bool_decide _) eqn:Hknown.
  { exists vars, w2. repeat split; [exact Htick2 | left; now rewrite Hfiles2]. }
  apply bool_decide_eq_false in Hknown.
  rewrite download_image_run. cbv zeta. cbn [tick next].
  set (filepath := Py.path_join save_folder
                     (image_filename (time_ms_at E (tick w2)) idx
                        (extension (default EmptyString src)))).
  assert (filepath <> HASH_FILE save_folder) as Hpath by apply image_path_not_ledger.
  destruct (requests_get_at E (S (tick w2)) (default EmptyString src)) as [e|response] eqn:Hget.
  { exists vars, (next (next (next w2))). cbn.
    repeat split; [lia | left; now rewrite Hfiles2]. }
  destruct (status_code response =? 200) eqn:Hstatus.
  2:{ exists vars, (next (next (next w2))). cbn.
      repeat split; [lia | left; now rewrite Hfiles2]. }
  destruct (os_error_at E (S (S (tick w2)))) as [e|] eqn:Hopen.
  { exists vars, (next (next (next (next w2)))). cbn.
    repeat split; [lia | left; now rewrite Hfiles2]. }
  destruct (os_error_at E (S (S (S (tick w2))))) as [e|] eqn:Hwrite.
  { eexists vars, _. split; [reflexivity |]. cbn.
    split; [lia | left]. split; [reflexivity |].
    rewrite lookup_insert_ne by exact Hpath. now rewrite Hfiles2. }
  rewrite record_run. cbn [tick files].
  assert (download_succeeded E (S (tick w2)) (default EmptyString src) response) as Hok.
  { repeat split; try assumption. now apply Z.eqb_eq. }
  assert ((<[filepath := content response]> (files w2)) !! HASH_FILE save_folder
          = files w !! HASH_FILE save_folder) as Hledger
    by (rewrite lookup_insert_ne by exact Hpath; now rewrite Hfiles2).
  destruct (os_error_at E (3 + S (tick w2))) as [e|].
  { eexists _, _. split; [reflexivity |]. cbn [next tick files].
    split; [lia | right]. exists (default EmptyString src), (S (tick w2)), response.
    repeat split; try assumption; try lia.
    - now rewrite Hsome at 1.
    - cbn [pred]. fold filepath. now rewrite lookup_insert_eq.
    - left. exact Hledger. }
  destruct (os_error_at E (S (3 + S (tick w2)))) as [e|].
  { eexists _, _. split; [reflexivity |]. cbn [next tick files].
    split; [lia | right]. exists (default EmptyString src), (S (tick w2)), response.
    repeat split; try assumption; try lia.
    - now rewrite Hsome at 1.
    - cbn [pred]. fold filepath. rewrite Hledger.
      destruct (files w !! HASH_FILE save_folder);
        [| rewrite lookup_insert_ne by congruence]; now rewrite lookup_insert_eq.
    - rewrite Hledger.
      destruct (files w !! HASH_FILE save_folder) as [text|] eqn:Hold.
      + left. exact Hledger.
      + right; left. now rewrite lookup_insert_eq. }
  eexists _, _. split; [reflexivity |]. cbn [next tick files].
  split; [lia | right]. exists (default EmptyString src), (S (tick w2)), response.
  repeat split; try assumption; try lia.
  - now rewrite Hsome at 1.
  - cbn [pred]. fold filepath. rewrite lookup_insert_ne by congruence.
    now rewrite lookup_insert_eq.
  - right; right. rewrite lookup_insert_eq. now rewrite Hledger.
Qed.

End Candidate.

Section Ledger.

Variable E : Env.
Variable save_folder : string.

Lemma ledger_grew_refl (w w' : World) :
  files w' !! HASH_FILE save_folder = files w !! HASH_FILE save_folder ->
  ledger_grew E save_folder w w' [].
Proof.
  intros H. split; [| constructor]. rewrite H. cbn [map ledger_text].
  now rewrite append_empty_r.
Qed.

Lemma ledger_grew_trans (w w1 w' : World) (srcs srcs' : list string) :
  (tick w <= tick w1)%nat -> (tick w1 <= tick w')%nat ->
  ledger_grew E save_folder w w1 srcs -> ledger_grew E save_folder w1 w' srcs' ->
  ledger_grew E save_folder w w' (srcs ++ srcs').
Proof.
  intros Ht Ht' [Hfile Hsrcs] [Hfile' Hsrcs']. split.
  - rewrite Hfile', Hfile, map_app, ledger_text_app. apply append_assoc.
  - apply Forall_app. split.
    + eapply Forall_impl; [exact Hsrcs |]. intros src (t & r & Hwin & Hok).
      exists t, r. split; [lia | exact Hok].
    + eapply Forall_impl; [exact Hsrcs' |]. intros src (t & r & Hwin & Hok).
      exists t, r. split; [lia | exact Hok].
Qed.

Lemma ledger_step_grew (idx : nat) (img : WebElement) (vars vars' : harvest) (w w' : World) :
  (tick w < tick w')%nat ->
  ledger_step E save_folder idx img vars w vars' w' ->
  exists srcs, ledger_grew E save_folder w w' srcs.
Proof.
  intros Ht [[_ Hsame] | (src & t & r & _ & Ht1 & Ht2 & Hok & _ & _ & _ & Hledger)].
  - exists []. now apply ledger_grew_refl.
  - destruct Hledger as [Hsame | [Hempty | Happended]].
    + exists []. now apply ledger_grew_refl.
    + exists []. split; [| constructor]. rewrite Hempty.
      cbn [map ledger_text default from_option id]. now rewrite append_empty_r.
    + exists [src]. split.
      * rewrite Happended. cbn [map ledger_text default from_option id].
        now rewrite append_empty_r.
      * constructor; [| constructor]. exists t, r. split; [lia | exact Hok].
Qed.

Lemma harvest_images_ledger (images : list WebElement) (idx : nat) (vars : harvest) (w : World) :
  exists vars' w' srcs,
    harvest_images E save_folder (HASH_FILE save_folder) idx images (vars, w)
    = (inr tt, (vars', w')) /\
    (tick w <= tick w')%nat /\ ledger_grew E save_folder w w' srcs.
Proof.
  revert idx vars w. induction images as [|img rest IH]; intros idx vars w.
  - exists vars, w, []. split; [reflexivity |]. split; [lia | now apply ledger_grew_refl].
  - cbn [harvest_images]. rewrite bind_run.
    destruct (harvest_image_ledger E save_folder idx img vars w)
      as (vars1 & w1 & -> & Ht & Hstep).
    destruct (ledger_step_grew idx img vars vars1 w w1 Ht Hstep) as [srcs Hgrew].
    destruct (IH (S idx) vars1 w1) as (vars' & w' & srcs' & -> & Ht' & Hgrew').
    exists vars', w', (srcs ++ srcs'). split; [reflexivity |]. split; [lia |].
    apply (ledger_grew_trans w w1 w' srcs srcs'); [lia | lia | exact Hgrew | exact Hgrew'].
Qed.



End Ledger.

(** ** Image harvester: passes over a page that holds still *)

Section StillPage.

Variable E : Env.
Variable save_folder : string.

(** What the attributes of the rendered images answer while the page is
    unchanged. *)
Variable attr : WebElement -> string -> result (option string).

Local Abbreviation LEDGER := (HASH_FILE save_folder).

(** A filtered-out or already recorded candidate costs a few attribute
    reads and nothing else. *)
Lemma harvest_image_skip (idx : nat) (img : WebElement) (vars : harvest) (w : World) :
  still_from E attr (tick w) ->
  (forall src, eligible attr img = Some src -> get_image_hash src ∈ downloaded_hashes vars) ->
  exists w',
    harvest_image E save_folder LEDGER idx img (vars, w) = (inr tt, (vars, w')) /\
    (tick w < tick w')%nat /\ files w' = files w.
Proof.
  intros Hstill Hknown. rewrite harvest_image_run. unfold eligible in Hknown.
  rewrite !Hstill by lia.
  destruct (attr img "src") as [e|src].
  { exists (next w). cbn. repeat split; lia. }
  destruct (not_valid_url src).
  { exists (next w). cbn. repeat split; lia. }
  cbv zeta.
  destruct (declared_small (attr img "width") (attr img "height")).
  { destruct (attr img "width"); eexists; (split; [reflexivity |]); cbn; split;
      first [lia | reflexivity]. }
  rewrite bool_decide_eq_true_2 by (apply Hknown; reflexivity).
  destruct (attr img "width"); eexists; (split; [reflexivity |]); cbn; split;
    first [lia | reflexivity].
Qed.

(** A new eligible candidate is downloaded and recorded when the request
    succeeds and the filesystem does not fail while it is processed. *)
Lemma harvest_image_download (idx : nat) (img : WebElement) (vars : harvest) (w : World)
    (src : string) :
  let final := snd (snd (harvest_image E save_folder LEDGER idx img (vars, w))) in
  still_from E attr (tick w) ->
  eligible attr img = Some src ->
  get_image_hash src ∉ downloaded_hashes vars ->
  (forall t, (tick w <= t < tick final)%nat -> os_error_at E t = None) ->
  (forall t, (tick w <= t < tick final)%nat ->
             exists body, requests_get_at E t src
                          = inr {| status_code := 200; content := body |}) ->
  exists t body w',
    harvest_image E save_folder LEDGER idx img (vars, w)
    = (inr tt, (recorded (get_image_hash src) vars, w')) /\
    (tick w < t)%nat /\ tick w' = (6 + t)%nat /\
    requests_get_at E t src = inr {| status_code := 200; content := body |} /\
    files w'
    = <[LEDGER := default EmptyString (files w !! LEDGER) +:+ get_image_hash src +:+ LF]>
        (<[Py.path_join save_folder
             (image_filename (time_ms_at E (pred t)) idx (extension src)) := body]>
           (files w)).
Proof.
  cbv zeta. intros Hstill Hsrc Hnew. rewrite harvest_image_run.
  unfold eligible in Hsrc. rewrite !Hstill by lia.
  destruct (attr img "src") as [e|osrc]; [discriminate Hsrc |].
  destruct (not_valid_url osrc); [discriminate Hsrc |]. cbv zeta.
  destruct (declared_small (attr img "width") (attr img "height")); [discriminate Hsrc |].
  injection Hsrc as Hsrc. rewrite Hsrc.
  rewrite bool_decide_eq_false_2 by exact Hnew.
  set (w2 := match attr img "width" with
             | inl _ => next (next w)
             | inr _ => next (next (next w))
             end).
  assert ((tick w < tick w2)%nat /\ files w2 = files w) as [Htick2 Hfiles2]
    by (unfold w2; destruct (attr img "width"); cbn; split; first [lia | reflexivity]).
  rewrite download_image_run. cbv zeta. cbn [tick next].
  set (filepath := Py.path_join save_folder
                     (image_filename (time_ms_at E (tick w2)) idx (extension src))).
  assert (filepath <> LEDGER) as Hpath by apply image_path_not_ledger.
  destruct (requests_get_at E (S (tick w2)) src) as [e|response] eqn:Hget.
  { cbn [snd next tick]. intros _ Hreq.
    destruct (Hreq (S (tick w2))) as [body Hbody]; [lia | congruence]. }
  destruct (status_code response =? 200) eqn:Hstatus.
  2:{ cbn [snd next tick]. intros _ Hreq.
      destruct (Hreq (S (tick w2))) as [body Hbody]; [lia |].
      rewrite Hget in Hbody. injection Hbody as ->. discriminate Hstatus. }
  destruct (os_error_at E (S (S (tick w2)))) as [e|] eqn:Hopen.
  { cbn [snd next tick]. intros Hos _.
    rewrite Hos in Hopen by lia. discriminate Hopen. }
  destruct (os_error_at E (S (S (S (tick w2))))) as [e|] eqn:Hwrite.
  { cbn [snd next tick]. intros Hos _.
    rewrite Hos in Hwrite by lia. discriminate Hwrite. }
  rewrite record_run. cbn [tick files].
  destruct (os_error_at E (3 + S (tick w2))) as [e|] eqn:Hopen'.
  { cbn [snd next tick]. intros Hos _.
    rewrite Hos in Hopen' by lia. discriminate Hopen'. }
  destruct (os_error_at E (S (3 + S (tick w2)))) as [e|] eqn:Hwrite'.
  { cbn [snd next tick]. intros Hos _.
    rewrite Hos in Hwrite' by lia. discriminate Hwrite'. }
  cbn [snd next tick]. intros _ Hreq.
  destruct (Hreq (S (tick w2))) as [body Hbody]; [lia |].
  exists (S (tick w2)), body. eexists. split; [reflexivity |].
  cbn [tick files pred]. fold filepath.
  rewrite Hget in Hbody. injection Hbody as ->. cbn [content].
  repeat split; try lia.
  - exact Hget.
  - cbn [files next]. rewrite lookup_insert_ne by exact Hpath. now rewrite Hfiles2.
Qed.

Lemma still_from_later (t0 t1 : nat) :
  (t0 <= t1)%nat -> still_from E attr t0 -> still_from E attr t1.
Proof. intros Hle Hstill t img name Ht. apply Hstill. lia. Qed.

(** The second pass: when every eligible image is already recorded, the
    loop changes neither its variables nor the files. *)
Lemma harvest_images_nothing_new (images : list WebElement) (idx : nat)
    (vars : harvest) (w : World) :
  still_from E attr (tick w) ->
  (forall img src, img ∈ images -> eligible attr img = Some src ->
                   get_image_hash src ∈ downloaded_hashes vars) ->
  exists w',
    harvest_images E save_folder LEDGER idx images (vars, w) = (inr tt, (vars, w')) /\
    (tick w <= tick w')%nat /\ files w' = files w.
Proof.
  revert idx w. induction images as [|img rest IH]; intros idx w Hstill Hknown.
  - exists w. repeat split. lia.
  - cbn [harvest_images]. rewrite bind_run.
    destruct (harvest_image_skip idx img vars w Hstill) as (w1 & -> & Ht & Hf).
    { intros src. apply Hknown. constructor. }
    destruct (IH (S idx) w1) as (w' & -> & Ht' & Hf').
    { apply (still_from_later (tick w)); [lia | exact Hstill]. }
    { intros img' src Hin. apply Hknown. now constructor. }
    exists w'. repeat split; [lia | congruence].
Qed.

Lemma ledger_holds_append (hashes : list string) (file : option string) (h : string) :
  ledger_holds hashes file ->
  ledger_holds (hashes ++ [h]) (Some (default EmptyString file +:+ h +:+ LF)).
Proof.
  intros [-> | [-> ->]]; left; cbn [default from_option id app ledger_text].
  - rewrite ledger_text_app. cbn [ledger_text]. now rewrite append_empty_r.
  - now rewrite append_empty_r.
Qed.

(** The first pass: the set and the file stay in step, and every eligible
    image ends up recorded. *)
Lemma harvest_images_records (images : list WebElement) (idx : nat)
    (vars : harvest) (w : World) (hashes : list string) :
  let final := snd (harvest_images E save_folder LEDGER idx images (vars, w)) in
  still_from E attr (tick w) ->
  all_hex hashes ->
  downloaded_hashes vars = list_to_set hashes ->
  ledger_holds hashes (files w !! LEDGER) ->
  (forall t, (tick w <= t < tick (snd final))%nat -> os_error_at E t = None) ->
  (forall t url, (tick w <= t < tick (snd final))%nat ->
                 exists body, requests_get_at E t url
                              = inr {| status_code := 200; content := body |}) ->
  exists hashes',
    all_hex hashes' /\
    downloaded_hashes (fst final) = list_to_set hashes' /\
    ledger_holds hashes' (files (snd final) !! LEDGER) /\
    (forall h, h ∈ hashes -> h ∈ hashes') /\
    (forall img src, img ∈ images -> eligible attr img = Some src ->
                     get_image_hash src ∈ hashes').
Proof.
  cbv zeta. revert idx vars w hashes.
  induction images as [|img rest IH]; intros idx vars w hashes Hstill Hhex Hset Hfile.
  - intros _ _. exists hashes. cbn [harvest_images ret fst snd].
    repeat split; try assumption; try tauto. intros img src Hin. inversion Hin.
  - cbn [harvest_images]. rewrite bind_run.
    destruct (harvest_image_ledger E save_folder idx img vars w)
      as (vars1 & w1 & Hrun & Ht & _).
    destruct (harvest_images_ledger E save_folder rest (S idx) vars1 w1)
      as (vars' & w' & srcs & Hrest & Ht' & _).
    rewrite Hrun, Hrest. cbn [fst snd]. intros Hos Hreq.
    assert (still_from E attr (tick w1)) as Hstill1
      by (apply (still_from_later (tick w)); [lia | exact Hstill]).
    assert (forall img0 src0 (hashes' : list string),
               (forall src, eligible attr img = Some src -> get_image_hash src ∈ hashes') ->
               (forall img1 src1, img1 ∈ rest -> eligible attr img1 = Some src1 ->
                                  get_image_hash src1 ∈ hashes') ->
               img0 ∈ img :: rest -> eligible attr img0 = Some src0 ->
               get_image_hash src0 ∈ hashes') as Hall.
    { intros img0 src0 hashes' Hhead Htail Hin Hel.
      apply elem_of_cons in Hin as [-> | Hin]; [now apply Hhead | now apply (Htail img0)]. }
    destruct (eligible attr img) as [src|] eqn:Hel.
    + destruct (decide (get_image_hash src ∈ downloaded_hashes vars)) as [Hknown|Hnew].
      * (* already recorded *)
        destruct (harvest_image_skip idx img vars w Hstill) as (w1' & Hskip & _ & Hf).
        { rewrite Hel. intros src' [= <-]. exact Hknown. }
        rewrite Hskip in Hrun. injection Hrun as <- <-.
        specialize (IH (S idx) vars w1' hashes Hstill1 Hhex Hset).
        rewrite Hrest in IH. cbn [fst snd] in IH.
        destruct IH as (hashes' & Hhex' & Hset' & Hfile' & Hmono & Hrec).
        { now rewrite Hf. }
        { intros t Hwin. apply Hos. lia. }
        { intros t url Hwin. apply Hreq. lia. }
        exists hashes'. repeat split; try assumption.
        intros img0 src0. apply Hall; [| exact Hrec].
        intros src' [= <-]. apply Hmono. rewrite Hset in Hknown.
        now apply elem_of_list_to_set in Hknown.
      * (* downloaded and recorded *)
        destruct (harvest_image_download idx img vars w src) as
          (t & body & w1' & Hdown & _ & _ & _ & Hf); try assumption.
        { rewrite Hrun. cbn [snd]. intros t Hwin. apply Hos. lia. }
        { rewrite Hrun. cbn [snd]. intros t Hwin. apply Hreq. lia. }
        rewrite Hdown in Hrun. injection Hrun as <- <-.
        specialize (IH (S idx) (recorded (get_image_hash src) vars) w1'
                      (hashes ++ [get_image_hash src]) Hstill1).
        rewrite Hrest in IH. cbn [fst snd] in IH.
        destruct IH as (hashes' & Hhex' & Hset' & Hfile' & Hmono & Hrec).
        { apply Forall_app. split; [exact Hhex |].
          constructor; [apply get_image_hash_hex | constructor]. }
        { cbn [recorded downloaded_hashes]. rewrite Hset, list_to_set_app_L.
          cbn [list_to_set foldr]. rewrite (right_id_L ∅ (∪)). apply (comm_L (∪)). }
        { rewrite Hf, lookup_insert_eq. now apply ledger_holds_append. }
        { intros t' Hwin. apply Hos. lia. }
        { intros t' url Hwin. apply Hreq. lia. }
        exists hashes'. repeat split; try assumption.
        -- intros h Hh. apply Hmono. apply elem_of_app. now left.
        -- intros img0 src0. apply Hall; [| exact Hrec].
           intros src' [= <-]. apply Hmono. apply elem_of_app. right. constructor.
    + (* filtered out *)
      destruct (harvest_image_skip idx img vars w Hstill) as (w1' & Hskip & _ & Hf).
      { rewrite Hel. discriminate. }
      rewrite Hskip in Hrun. injection Hrun as <- <-.
      specialize (IH (S idx) vars w1' hashes Hstill1 Hhex Hset).
      rewrite Hrest in IH. cbn [fst snd] in IH.
      destruct IH as (hashes' & Hhex' & Hset' & Hfile' & Hmono & Hrec).
      { now rewrite Hf. }
      { intros t Hwin. apply Hos. lia. }
      { intros t url Hwin. apply Hreq. lia. }
      exists hashes'. repeat split; try assumption.
      intros img0 src0. apply Hall; [discriminate | exact Hrec].
Qed.

(** *** A whole pass *)

Lemma download_loaded_images_makedirs_fails (w : World) (e : exn) :
  os_error_at E (tick w) = Some e ->
  download_loaded_images E save_folder w = (inl e, next w).
Proof.
  intros Hmk. unfold download_loaded_images, makedirs.
  rewrite bind_run, outside_run. unfold fault. now rewrite Hmk.
Qed.

Lemma download_loaded_images_read_fails (w : World) (images : list WebElement)
    (text : string) (e : exn) :
  os_error_at E (tick w) = None ->
  find_elements_at E (S (tick w)) IMG_XPATH = inr images ->
  files w !! LEDGER = Some text ->
  os_error_at E (3 + tick w) = Some e ->
  download_loaded_images E save_folder w = (inl e, next (next (next (next w)))).
Proof.
  intros Hmk Hfind Hfile Hread. unfold download_loaded_images, makedirs, find_elements.
  rewrite bind_run, outside_run. unfold fault at 1. rewrite Hmk.
  rewrite bind_run, outside_run. cbn [tick next]. rewrite Hfind.
  rewrite bind_run. unfold path_exists at 1. cbn [tick next files]. rewrite Hfile.
  rewrite bool_decide_eq_true_2 by eauto.
  rewrite !bind_run. unfold read_text at 1. cbn [tick next files].
  cbn [Nat.add] in Hread. now rewrite Hread.
Qed.

Lemma download_loaded_images_run (w : World) (images : list WebElement)
    (vars' : harvest) (w' : World) :
  os_error_at E (tick w) = None ->
  find_elements_at E (S (tick w)) IMG_XPATH = inr images ->
  (is_Some (files w !! LEDGER) -> os_error_at E (3 + tick w) = None) ->
  harvest_images E save_folder LEDGER 0 images
    ({| downloaded_hashes := known_hashes (files w !! LEDGER); download_count := 0 |},
     loop_start save_folder w)
  = (inr tt, (vars', w')) ->
  download_loaded_images E save_folder w = (inr (download_count vars'), w').
Proof.
  intros Hmk Hfind Hread. unfold loop_start, known_hashes.
  unfold download_loaded_images, makedirs, find_elements.
  rewrite bind_run, outside_run. unfold fault at 1. rewrite Hmk.
  rewrite bind_run, outside_run. cbn [tick next]. rewrite Hfind.
  rewrite bind_run. unfold path_exists at 1. cbn [tick next files].
  destruct (files w !! LEDGER) as [text|] eqn:Hfile.
  - rewrite bool_decide_eq_true_2 by eauto.
    rewrite !bind_run. unfold read_text at 1. cbn [tick next files].
    cbn [Nat.add] in Hread. rewrite Hread by eauto. rewrite Hfile. cbn [ret].
    unfold with_locals. rewrite bind_run. unfold next. cbn [tick files Nat.add].
    intros ->. rewrite bind_run. reflexivity.
  - rewrite bool_decide_eq_false_2 by (intros [? ?]; discriminate).
    rewrite bind_run. cbn [ret].
    unfold with_locals. rewrite bind_run. unfold next. cbn [tick files Nat.add].
    intros ->. rewrite bind_run. reflexivity.
Qed.

Lemma known_hashes_ledger (hashes : list string) (file : option string) :
  all_hex hashes -> ledger_holds hashes file ->
  known_hashes file = list_to_set hashes.
Proof.
  intros Hhex [-> | [-> ->]]; cbn [known_hashes]; [| reflexivity].
  now rewrite splitlines_ledger_text.
Qed.

Lemma first_pass (w : World) (images : list WebElement) (hashes : list string) :
  let w1 := snd (download_loaded_images E save_folder w) in
  still_from E attr (tick w) ->
  find_elements_at E (S (tick w)) IMG_XPATH = inr images ->
  all_hex hashes ->
  ledger_holds hashes (files w !! LEDGER) ->
  (forall t, (tick w <= t < tick w1)%nat -> os_error_at E t = None) ->
  (forall t url, (tick w <= t < tick w1)%nat ->
                 exists body, requests_get_at E t url
                              = inr {| status_code := 200; content := body |}) ->
  exists hashes1,
    (tick w < tick w1)%nat /\ all_hex hashes1 /\
    ledger_holds hashes1 (files w1 !! LEDGER) /\
    (forall img src, img ∈ images -> eligible attr img = Some src ->
                     get_image_hash src ∈ hashes1).
Proof.
  cbv zeta. intros Hstill Hfind Hhex Hfile.
  destruct (os_error_at E (tick w)) as [e|] eqn:Hmk.
  { rewrite (download_loaded_images_makedirs_fails w e Hmk). cbn [snd next tick].
    intros Hos _. rewrite Hos in Hmk by lia. discriminate Hmk. }
  destruct (files w !! LEDGER) as [text|] eqn:Htext.
  - destruct (os_error_at E (3 + tick w)) as [e|] eqn:Hread.
    { rewrite (download_loaded_images_read_fails w images text e Hmk Hfind Htext Hread).
      cbn [snd next tick]. intros Hos _. rewrite Hos in Hread by lia. discriminate Hread. }
    destruct (harvest_images_ledger E save_folder images 0
                {| downloaded_hashes := known_hashes (files w !! LEDGER); download_count := 0 |}
                (loop_start save_folder w)) as (vars' & w' & srcs & Hrun & Ht & _).
    rewrite (download_loaded_images_run w images vars' w' Hmk Hfind);
      [| intros _; exact Hread | exact Hrun].
    cbn [snd]. intros Hos Hreq.
    assert (tick (loop_start save_folder w) = 4 + tick w)%nat as Hstart
      by (unfold loop_start; now rewrite Htext).
    destruct (harvest_images_records images 0
                {| downloaded_hashes := known_hashes (files w !! LEDGER); download_count := 0 |}
                (loop_start save_folder w) hashes)
      as (hashes1 & Hhex1 & _ & Hfile1 & _ & Hrec).
    + apply (still_from_later (tick w)); [lia | exact Hstill].
    + exact Hhex.
    + cbn [downloaded_hashes]. apply known_hashes_ledger; [exact Hhex |].
      now rewrite Htext.
    + unfold loop_start. cbn [files]. now rewrite Htext.
    + rewrite Hrun. cbn [snd]. intros t Hwin. apply Hos. lia.
    + rewrite Hrun. cbn [snd]. intros t url Hwin. apply Hreq. lia.
    + rewrite Hrun in Hfile1. cbn [snd] in Hfile1.
      exists hashes1. repeat split; try assumption. lia.
  - destruct (harvest_images_ledger E save_folder images 0
                {| downloaded_hashes := known_hashes (files w !! LEDGER); download_count := 0 |}
                (loop_start save_folder w)) as (vars' & w' & srcs & Hrun & Ht & _).
    rewrite (download_loaded_images_run w images vars' w' Hmk Hfind);
      [| rewrite Htext; intros [? ?]; discriminate | exact Hrun].
    cbn [snd]. intros Hos Hreq.
    assert (tick (loop_start save_folder w) = 3 + tick w)%nat as Hstart
      by (unfold loop_start; now rewrite Htext).
    destruct (harvest_images_records images 0
                {| downloaded_hashes := known_hashes (files w !! LEDGER); download_count := 0 |}
                (loop_start save_folder w) hashes)
      as (hashes1 & Hhex1 & _ & Hfile1 & _ & Hrec).
    + apply (still_from_later (tick w)); [lia | exact Hstill].
    + exact Hhex.
    + cbn [downloaded_hashes]. apply known_hashes_ledger; [exact Hhex |].
      now rewrite Htext.
    + unfold loop_start. cbn [files]. now rewrite Htext.
    + rewrite Hrun. cbn [snd]. intros t Hwin. apply Hos. lia.
    + rewrite Hrun. cbn [snd]. intros t url Hwin. apply Hreq. lia.
    + rewrite Hrun in Hfile1. cbn [snd] in Hfile1.
      exists hashes1. repeat split; try assumption. lia.
Qed.

Lemma second_pass (w : World) (images : list WebElement) (hashes : list string) :
  let w2 := snd (download_loaded_images E save_folder w) in
  still_from E attr (tick w) ->
  find_elements_at E (S (tick w)) IMG_XPATH = inr images ->
  all_hex hashes ->
  ledger_holds hashes (files w !! LEDGER) ->
  (forall img src, img ∈ images -> eligible attr img = Some src ->
                   get_image_hash src ∈ hashes) ->
  (forall t, (tick w <= t < tick w2)%nat -> os_error_at E t = None) ->
  download_loaded_images E save_folder w
  = (inr 0%nat, {| tick := tick w2; files := files w |}).
Proof.
  cbv zeta. intros Hstill Hfind Hhex Hfile Hrec.
  destruct (os_error_at E (tick w)) as [e|] eqn:Hmk.
  { rewrite (download_loaded_images_makedirs_fails w e Hmk). cbn [snd next tick].
    intros Hos. rewrite Hos in Hmk by lia. discriminate Hmk. }
  assert (known_hashes (files w !! LEDGER) = list_to_set hashes) as Hknown
    by now apply known_hashes_ledger.
  assert (files (loop_start save_folder w) = files w) as Hstartf by reflexivity.
  destruct (files w !! LEDGER) as [text|] eqn:Htext.
  - destruct (harvest_images_nothing_new images 0
                {| downloaded_hashes := known_hashes (files w !! LEDGER); download_count := 0 |}
                (loop_start save_folder w)) as (w' & Hrun & Ht & Hf).
    { apply (still_from_later (tick w)); [unfold loop_start; cbn [tick]; lia | exact Hstill]. }
    { intros img src Hin Hel. cbn [downloaded_hashes]. rewrite Htext, Hknown.
      apply elem_of_list_to_set. now apply (Hrec img). }
    destruct (os_error_at E (3 + tick w)) as [e|] eqn:Hread.
    { rewrite (download_loaded_images_read_fails w images text e Hmk Hfind Htext Hread).
      cbn [snd next tick]. intros Hos. rewrite Hos in Hread by lia. discriminate Hread. }
    rewrite (download_loaded_images_run w images _ w' Hmk Hfind (fun _ => Hread) Hrun).
    intros _. cbn [snd download_count]. f_equal. destruct w' as [t' f'].
    cbn [tick files] in *. now rewrite Hf, Hstartf.
  - destruct (harvest_images_nothing_new images 0
                {| downloaded_hashes := known_hashes (files w !! LEDGER); download_count := 0 |}
                (loop_start save_folder w)) as (w' & Hrun & Ht & Hf).
    { apply (still_from_later (tick w)); [unfold loop_start; cbn [tick]; lia | exact Hstill]. }
    { intros img src Hin Hel. cbn [downloaded_hashes]. rewrite Htext, Hknown.
      apply elem_of_list_to_set. now apply (Hrec img). }
    assert (is_Some (files w !! LEDGER) -> os_error_at E (3 + tick w) = None) as Hread
      by (rewrite Htext; intros [? ?]; discriminate).
    rewrite (download_loaded_images_run w images _ w' Hmk Hfind Hread Hrun).
    intros _. cbn [snd download_count]. f_equal. destruct w' as [t' f'].
    cbn [tick files] in *. now rewrite Hf, Hstartf.
Qed.

Lemma download_loaded_images_later (w : World) :
  (tick w < tick (snd (download_loaded_images E save_folder w)))%nat.
Proof.
  unfold download_loaded_images, makedirs, find_elements.
  rewrite bind_run, outside_run. unfold fault at 1.
  destruct (os_error_at E (tick w)) as [e|]; [cbn; lia |].
  rewrite bind_run, outside_run. cbn [tick next].
  destruct (find_elements_at E (S (tick w)) IMG_XPATH) as [e|images]; [cbn; lia |].
  rewrite bind_run. unfold path_exists at 1. cbn [tick next files].
  assert (forall (vars : harvest) (w0 : World),
             (tick w < tick w0)%nat ->
             (tick w < tick (snd (with_locals vars
                (harvest_images E save_folder LEDGER 0 images ;;;
                 vars <- locals ;; ret (download_count vars)) w0)))%nat) as Hloop.
  { intros vars w0 Hw0. unfold with_locals. rewrite bind_run.
    destruct (harvest_images_ledger E save_folder images 0 vars w0)
      as (vars' & w' & srcs & -> & Ht & _).
    rewrite bind_run. cbn [locals ret fst snd]. lia. }
  destruct (bool_decide (is_Some (files w !! LEDGER))).
  - rewrite !bind_run. unfold read_text at 1. cbn [tick next files].
    destruct (os_error_at E (S (S (S (tick w))))) as [e|]; [cbn; lia |].
    destruct (files w !! LEDGER) as [text|]; [| cbn; lia].
    cbn [ret]. apply Hloop. cbn. lia.
  - rewrite bind_run. cbn [ret]. apply Hloop. cbn. lia.
Qed.

(** C3, as amended. Over an unchanged set of rendered image elements, with
    a ledger file that is missing or holds one digest per line, when the
    filesystem does not fail during the two passes and every request made
    during the first pass is answered with status 200, the first pass
    leaves in the ledger file the digest of every image that passes the
    filters, and so the second pass returns count 0 and leaves every file as
    the first pass left it: it downloads nothing. *)
Theorem second_pass_downloads_nothing (w : World) (images : list WebElement)
    (hashes : list string) :
  let w1 := snd (download_loaded_images E save_folder w) in
  let w2 := snd (download_loaded_images E save_folder w1) in
  (forall t, (tick w <= t)%nat -> find_elements_at E t IMG_XPATH = inr images) ->
  still_from E attr (tick w) ->
  all_hex hashes ->
  ledger_holds hashes (files w !! LEDGER) ->
  (forall t, (tick w <= t < tick w2)%nat -> os_error_at E t = None) ->
  (forall t url, (tick w <= t < tick w1)%nat ->
                 exists body, requests_get_at E t url
                              = inr {| status_code := 200; content := body |}) ->
  fst (download_loaded_images E save_folder w1) = inr 0%nat /\ files w2 = files w1 /\
  exists hashes1,
    ledger_holds hashes1 (files w1 !! LEDGER) /\
    (forall img src, img ∈ images -> eligible attr img = Some src ->
                     get_image_hash src ∈ hashes1).
Proof.
  cbv zeta. intros Hfind Hstill Hhex Hfile Hos Hreq.
  pose proof (download_loaded_images_later w) as Hlater1.
  pose proof (download_loaded_images_later (snd (download_loaded_images E save_folder w)))
    as Hlater2.
  destruct (first_pass w images hashes) as (hashes1 & _ & Hhex1 & Hfile1 & Hrec);
    try assumption.
  { apply Hfind. lia. }
  { intros t Hwin. apply Hos. lia. }
  rewrite (second_pass (snd (download_loaded_images E save_folder w)) images hashes1);
    try assumption.
  - split; [reflexivity |]. split; [reflexivity |]. now exists hashes1.
  - apply (still_from_later (tick w)); [lia | exact Hstill].
  - apply Hfind. lia.
  - intros t Hwin. apply Hos. lia.
Qed.

(** C6, as amended. A page of three images [a], [b], [c] whose addresses
    [A], [B], [C] pass the source and dimension filters; [A]'s digest is a
    line of the ledger file, those of [B] and [C] are not and differ from
    each other; the requests for [B] and [C] are answered with status 200
    and no filesystem operation fails. Then one pass downloads [B] and [C]
    and nothing else, appends their two digests, each followed by a line
    feed, to the ledger file, and returns 2. *)
Theorem harvest_three (w : World) (a b c : WebElement) (A B C ledger bodyB bodyC : string) :
  find_elements_at E (S (tick w)) IMG_XPATH = inr [a; b; c] ->
  still_from E attr (tick w) ->
  eligible attr a = Some A -> eligible attr b = Some B -> eligible attr c = Some C ->
  files w !! LEDGER = Some ledger ->
  get_image_hash A ∈ Py.splitlines ledger ->
  get_image_hash B ∉ Py.splitlines ledger ->
  get_image_hash C ∉ Py.splitlines ledger ->
  get_image_hash B <> get_image_hash C ->
  (forall t, (tick w <= t)%nat -> os_error_at E t = None) ->
  (forall t, (tick w <= t)%nat ->
             requests_get_at E t B = inr {| status_code := 200; content := bodyB |}) ->
  (forall t, (tick w <= t)%nat ->
             requests_get_at E t C = inr {| status_code := 200; content := bodyC |}) ->
  exists w' tB tC,
    let fileB := Py.path_join save_folder (image_filename (time_ms_at E tB) 1 (extension B)) in
    let fileC := Py.path_join save_folder (image_filename (time_ms_at E tC) 2 (extension C)) in
    let ledgerB := ledger +:+ get_image_hash B +:+ LF in
    let ledgerBC := ledgerB +:+ get_image_hash C +:+ LF in
    download_loaded_images E save_folder w = (inr 2%nat, w') /\
    files w' !! LEDGER = Some (ledger +:+ get_image_hash B +:+ LF +:+ get_image_hash C +:+ LF) /\
    files w' = <[LEDGER := ledgerBC]> (<[fileC := bodyC]>
                 (<[LEDGER := ledgerB]> (<[fileB := bodyB]> (files w)))).
Proof.
  intros Hfind Hstill HA HB HC Hfile HinA HninB HninC Hneq Hos HgetB HgetC.
  set (vars0 := {| downloaded_hashes := known_hashes (files w !! LEDGER); download_count := 0 |}).
  assert ((tick w <= tick (loop_start save_folder w))%nat) as Hstart
    by (unfold loop_start; cbn [tick]; lia).
  (* [a] is skipped *)
  destruct (harvest_image_skip 0 a vars0 (loop_start save_folder w)) as (w1 & Hrun1 & Ht1 & Hf1).
  { apply (still_from_later (tick w)); [lia | exact Hstill]. }
  { intros src Hsrc. rewrite HA in Hsrc. injection Hsrc as <-.
    unfold vars0. cbn [downloaded_hashes]. rewrite Hfile. cbn [known_hashes].
    now apply elem_of_list_to_set. }
  (* [b] is downloaded *)
  destruct (harvest_image_download 1 b vars0 w1 B)
    as (tB & bB & w2 & Hrun2 & Ht2 & Htick2 & HreqB & Hf2).
  { apply (still_from_later (tick w)); [lia | exact Hstill]. }
  { exact HB. }
  { unfold vars0. cbn [downloaded_hashes]. rewrite Hfile. cbn [known_hashes].
    now rewrite elem_of_list_to_set. }
  { intros t Hwin. apply Hos. lia. }
  { intros t Hwin. exists bodyB. apply HgetB. lia. }
  rewrite HgetB in HreqB by lia. injection HreqB as <-.
  (* [c] is downloaded *)
  destruct (harvest_image_download 2 c (recorded (get_image_hash B) vars0) w2 C)
    as (tC & bC & w3 & Hrun3 & Ht3 & Htick3 & HreqC & Hf3).
  { apply (still_from_later (tick w)); [lia | exact Hstill]. }
  { exact HC. }
  { unfold vars0. cbn [recorded downloaded_hashes]. rewrite Hfile. cbn [known_hashes].
    rewrite not_elem_of_union, elem_of_singleton, elem_of_list_to_set.
    split; [congruence | exact HninC]. }
  { intros t Hwin. apply Hos. lia. }
  { intros t Hwin. exists bodyC. apply HgetC. lia. }
  rewrite HgetC in HreqC by lia. injection HreqC as <-.
  assert (files w1 = files w) as Hf1' by (rewrite Hf1; reflexivity).
  assert (files w2 !! LEDGER = Some (ledger +:+ get_image_hash B +:+ LF)) as Hledger2.
  { rewrite Hf2, lookup_insert_eq, Hf1', Hfile. reflexivity. }
  exists w3, (pred tB), (pred tC). cbv zeta. split; [| split].
  - apply (download_loaded_images_run w [a; b; c]
             (recorded (get_image_hash C) (recorded (get_image_hash B) vars0)) w3).
    + apply Hos. lia.
    + exact Hfind.
    + intros _. apply Hos. lia.
    + fold vars0. cbn [harvest_images].
      rewrite bind_run, Hrun1, bind_run, Hrun2, bind_run, Hrun3. reflexivity.
  - rewrite Hf3, lookup_insert_eq, Hledger2. cbn [default from_option id].
    now rewrite !append_assoc.
  - rewrite Hf3, Hledger2, Hf2, Hf1', Hfile. reflexivity.
Qed.

End StillPage.

(** * Worked examples *)

(** The scenario of the specification: the height stays at 1000 with the
    offset at 0, and the third iteration ends the loop with success. *)
Example scroll_constant_height :
  fst (scroll_until_date Demo.still None 4 false Demo.save_folder Demo.start) = inr true /\
  fst (scroll_until_date Demo.still None 3 false Demo.save_folder Demo.start) = inr true /\
  fst (scroll_until_date Demo.still None 2 false Demo.save_folder Demo.start) = inr false.
Proof. vm_compute. repeat split. Qed.

(** The height grows once, from 1000 to 1500: the first iteration resets the
    counter and the fourth one ends the loop. *)
Example scroll_growing_height :
  iterations Demo.growing false Demo.save_folder 4 {| tick := 9; files := ∅ |}
  = [Measured {| current_scroll_top := 0; current_scroll_height := 1000;
                 new_scroll_top := 0; new_scroll_height := 1500 |};
     Measured {| current_scroll_top := 0; current_scroll_height := 1500;
                 new_scroll_top := 0; new_scroll_height := 1500 |};
     Measured {| current_scroll_top := 0; current_scroll_height := 1500;
                 new_scroll_top := 0; new_scroll_height := 1500 |};
     Measured {| current_scroll_top := 0; current_scroll_height := 1500;
                 new_scroll_top := 0; new_scroll_height := 1500 |}] /\
  fst (scroll_until_date Demo.growing None 4 false Demo.save_folder Demo.start) = inr true /\
  fst (scroll_until_date Demo.growing None 3 false Demo.save_folder Demo.start) = inr false.
Proof. vm_compute. repeat split. Qed.

(** A pass over the three images on an empty disk. *)
Example harvest_fresh :
  fst (download_loaded_images Demo.still Demo.save_folder Demo.start) = inr 3%nat /\
  files (snd (download_loaded_images Demo.still Demo.save_folder Demo.start))
    !! "messenger_images/img_1700000000016_1.png" = Some ("bytes of " +:+ Demo.B).
Proof. vm_compute. split; reflexivity. Qed.

(** Why the ledger is asked to hold one digest per line: when its last line
    is not terminated, the first digest appended merges with it, and the
    second pass downloads again although every download succeeded. *)
Example unterminated_ledger :
  let disk := {| tick := 0;
                 files := {[ HASH_FILE Demo.save_folder := get_image_hash Demo.A ]} |} in
  let first := download_loaded_images Demo.still Demo.save_folder disk in
  fst first = inr 2%nat /\
  fst (download_loaded_images Demo.still Demo.save_folder (snd first)) = inr 2%nat.
Proof. vm_compute. split; reflexivity. Qed.

(** The dimension rule on the examples of the specification. *)
Example small_20_20 :
  fst (small_image (Demo.env (fun _ => Demo.geometry) (Demo.sized "20" "20") (fun _ => Demo.ok))
         11%nat Demo.start) = inr true.
Proof. reflexivity. Qed.

Example small_200_10 :
  fst (small_image (Demo.env (fun _ => Demo.geometry) (Demo.sized "200" "10") (fun _ => Demo.ok))
         11%nat Demo.start) = inr true.
Proof. reflexivity. Qed.

Example not_small_200_300 :
  fst (small_image (Demo.env (fun _ => Demo.geometry) (Demo.sized "200" "300") (fun _ => Demo.ok))
         11%nat Demo.start) = inr false.
Proof. reflexivity. Qed.

Example not_small_undeclared :
  fst (small_image Demo.still 11%nat Demo.start) = inr false.
Proof. reflexivity. Qed.

(** ** The theorems at work *)

Lemma get_message_container_policy_witness :
  find_elements_at Demo.still 0 CONTAINER_XPATH = inr [1%nat; 2%nat] /\
  overflows Demo.geometry 1%nat = false /\
  overflows Demo.geometry 2%nat = true /\
  fst (get_message_container Demo.still Demo.start) = inr (Some 2%nat).
Proof.
  split; [reflexivity |]. split; [reflexivity |]. split; [reflexivity |].
  destruct (get_message_container_policy Demo.still Demo.geometry [1%nat; 2%nat] Demo.start)
    as (chosen & Hrun & Hfirst & _).
  - reflexivity.
  - intros t p c _. reflexivity.
  - rewrite Hrun. f_equal. apply (Hfirst [1%nat] 2%nat []).
    + reflexivity.
    + reflexivity.
    + intros c Hc. apply list_elem_of_singleton in Hc as ->. reflexivity.
Defined.

Lemma stall_counter_update_witness :
  let s := {| current_scroll_top := 0; current_scroll_height := 1000;
              new_scroll_top := 0; new_scroll_height := 1000 |} in
  let count' := fst (snd (scroll_once Demo.still false Demo.save_folder (2%nat, Demo.start))) in
  measure Demo.still Demo.start = (inr (Some s), {| tick := 16; files := ∅ |}) /\
  (count' = 3%nat <->
   new_scroll_height s = current_scroll_height s /\ new_scroll_top s = 0) /\
  (~ (new_scroll_height s = current_scroll_height s /\ new_scroll_top s = 0) ->
   count' = 0%nat).
Proof.
  cbv zeta. split; [vm_compute; reflexivity |].
  apply (stall_counter_update Demo.still false Demo.save_folder 2 Demo.start
           {| current_scroll_top := 0; current_scroll_height := 1000;
              new_scroll_top := 0; new_scroll_height := 1000 |}
           {| tick := 16; files := ∅ |}).
  vm_compute. reflexivity.
Defined.

Lemma dimension_filter_witness :
  let E := Demo.env (fun _ => Demo.geometry) (Demo.sized "200" "10") (fun _ => Demo.ok) in
  Py.int "200" = Some 200 /\ Py.int "10" = Some 10 /\
  fst (small_image E 11%nat Demo.start) = inr true.
Proof.
  cbv zeta. split; [reflexivity |]. split; [reflexivity |].
  destruct (dimension_filter
              (Demo.env (fun _ => Demo.geometry) (Demo.sized "200" "10") (fun _ => Demo.ok))
              11%nat Demo.start (Some "200") (Some "10"))
    as (rejected & Hrun & Hint & _).
  - reflexivity.
  - reflexivity.
  - rewrite Hrun. f_equal. apply Hint.
    + intros v [= <-]. vm_compute. eauto.
    + intros v [= <-]. vm_compute. eauto.
    + exists "200", "10", 200, 10. repeat split. right. lia.
Defined.

(** C10 as stated fails: a width of 20 rejects the candidate although its
    height, ["abc"], is present and is not an integer. *)
Lemma unparseable_height_rejected :
  let E := Demo.env (fun _ => Demo.geometry) (Demo.sized "20" "abc") (fun _ => Demo.ok) in
  get_attribute_at E 1 11%nat "height" = inr (Some "abc") /\
  Py.int "abc" = None /\
  fst (small_image E 11%nat Demo.start) = inr true.
Proof. cbv zeta. repeat split. Defined.

Lemma unparseable_dimension_witness :
  let E := Demo.env (fun _ => Demo.geometry) (Demo.sized "abc" "20") (fun _ => Demo.ok) in
  let vars := {| downloaded_hashes := ∅; download_count := 0 |} in
  Py.int "abc" = None /\
  small_image E 11%nat {| tick := 1; files := ∅ |} = (inr false, {| tick := 3; files := ∅ |}) /\
  harvest_image E Demo.save_folder (HASH_FILE Demo.save_folder) 0 11%nat (vars, Demo.start)
  = try_except (hash_and_download E Demo.save_folder (HASH_FILE Demo.save_folder) 0 Demo.A)
      (fun _ => ret tt) (vars, {| tick := 3; files := ∅ |}) /\
  fst (harvest_image E Demo.save_folder (HASH_FILE Demo.save_folder) 0 11%nat
         (vars, Demo.start)) = inr tt.
Proof.
  cbv zeta. split; [reflexivity |].
  apply (proj1 (unparseable_dimension
                  (Demo.env (fun _ => Demo.geometry) (Demo.sized "abc" "20") (fun _ => Demo.ok))
                  Demo.save_folder (HASH_FILE Demo.save_folder) 0 11%nat
                  {| downloaded_hashes := ∅; download_count := 0 |} Demo.start Demo.A
                  (Some "abc") (Some "20") eq_refl eq_refl eq_refl eq_refl)).
  left. exists "abc". split; reflexivity.
Defined.



Lemma extension_choice_witness :
  extension Demo.B = "png" /\ extension Demo.C = "gif" /\ extension Demo.A = "jpg".
Proof.
  split; [| split].
  - apply (proj1 (extension_choice Demo.B)).
    exists "https://scontent.example/v/b", "?oh=1". reflexivity.
  - apply (proj1 (proj2 (extension_choice Demo.C))).
    + intros (a & b & Heq).
      assert (Py.contains ".png" (Py.lower Demo.C) = true) as Hc
        by (apply contains_spec; eauto).
      vm_compute in Hc. discriminate Hc.
    + exists "https://scontent.example/v/c", EmptyString. reflexivity.
  - apply (proj1 (proj2 (proj2 (extension_choice Demo.A)))).
    + intros (a & b & Heq).
      assert (Py.contains ".png" (Py.lower Demo.A) = true) as Hc
        by (apply contains_spec; eauto).
      vm_compute in Hc. discriminate Hc.
    + intros (a & b & Heq).
      assert (Py.contains ".gif" (Py.lower Demo.A) = true) as Hc
        by (apply contains_spec; eauto).
      vm_compute in Hc. discriminate Hc.
Defined.


(** C3 as stated fails: the page is unchanged, the downloads of the first
    pass time out, and the second pass downloads the three images. *)
Lemma second_pass_after_timeouts :
  let first := download_loaded_images Demo.flaky Demo.save_folder Demo.start in
  (forall t, find_elements_at Demo.flaky t IMG_XPATH = inr [11%nat; 12%nat; 13%nat]) /\
  still_from Demo.flaky Demo.three_images 0 /\
  fst first = inr 0%nat /\
  fst (download_loaded_images Demo.flaky Demo.save_folder (snd first)) = inr 3%nat.
Proof.
  cbv zeta. split; [intros t; reflexivity |]. split; [intros t img name _; reflexivity |].
  split; vm_compute; reflexivity.
Defined.

Lemma second_pass_downloads_nothing_witness :
  let w1 := snd (download_loaded_images Demo.still Demo.save_folder Demo.start) in
  let w2 := snd (download_loaded_images Demo.still Demo.save_folder w1) in
  fst (download_loaded_images Demo.still Demo.save_folder Demo.start) = inr 3%nat /\
  fst (download_loaded_images Demo.still Demo.save_folder w1) = inr 0%nat /\
  files w2 = files w1 /\
  exists hashes1,
    ledger_holds hashes1 (files w1 !! HASH_FILE Demo.save_folder) /\
    (forall img src, img ∈ [11%nat; 12%nat; 13%nat] ->
                     eligible Demo.three_images img = Some src ->
                     get_image_hash src ∈ hashes1).
Proof.
  cbv zeta. split; [vm_compute; reflexivity |].
  apply (second_pass_downloads_nothing Demo.still Demo.save_folder Demo.three_images
           Demo.start [11%nat; 12%nat; 13%nat] []).
  - intros t _. reflexivity.
  - intros t img name _. reflexivity.
  - constructor.
  - right. split; reflexivity.
  - intros t _. reflexivity.
  - intros t url _. eexists. reflexivity.
Defined.

(** C6 as stated fails: [A], [B], [C] are distinct and pass the filters,
    [A] is in the ledger, [B] and [C] are downloaded and saved, and the
    pass returns 2; but the ledger cannot be appended to, and the pass adds
    no line to it. *)
Lemma three_images_no_ledger_line :
  let pass := download_loaded_images Demo.read_only_ledger Demo.save_folder Demo.with_ledger in
  (Demo.A <> Demo.B /\ Demo.A <> Demo.C /\ Demo.B <> Demo.C) /\
  (eligible Demo.three_images 11%nat = Some Demo.A /\
   eligible Demo.three_images 12%nat = Some Demo.B /\
   eligible Demo.three_images 13%nat = Some Demo.C) /\
  files Demo.with_ledger !! HASH_FILE Demo.save_folder = Some (get_image_hash Demo.A +:+ LF) /\
  (files (snd pass) !! "messenger_images/img_1700000000010_1.png"
   = Some ("bytes of " +:+ Demo.B) /\
   files (snd pass) !! "messenger_images/img_1700000000018_2.gif"
   = Some ("bytes of " +:+ Demo.C)) /\
  fst pass = inr 2%nat /\
  files (snd pass) !! HASH_FILE Demo.save_folder
  = files Demo.with_ledger !! HASH_FILE Demo.save_folder.
Proof.
  cbv zeta. split; [repeat split; discriminate |].
  split; [repeat split |]. vm_compute. repeat split.
Defined.

Lemma harvest_three_witness :
  get_image_hash Demo.A ∈ Py.splitlines (get_image_hash Demo.A +:+ LF) /\
  get_image_hash Demo.B <> get_image_hash Demo.C /\
  exists w' tB tC,
    let H := HASH_FILE Demo.save_folder in
    let fileB := Py.path_join Demo.save_folder
                   (image_filename (time_ms_at Demo.still tB) 1 (extension Demo.B)) in
    let fileC := Py.path_join Demo.save_folder
                   (image_filename (time_ms_at Demo.still tC) 2 (extension Demo.C)) in
    let ledger := get_image_hash Demo.A +:+ LF in
    let ledgerB := ledger +:+ get_image_hash Demo.B +:+ LF in
    let ledgerBC := ledgerB +:+ get_image_hash Demo.C +:+ LF in
    download_loaded_images Demo.still Demo.save_folder Demo.with_ledger = (inr 2%nat, w') /\
    files w' !! H
    = Some (ledger +:+ get_image_hash Demo.B +:+ LF +:+ get_image_hash Demo.C +:+ LF) /\
    files w' = <[H := ledgerBC]> (<[fileC := "bytes of " +:+ Demo.C]>
                 (<[H := ledgerB]> (<[fileB := "bytes of " +:+ Demo.B]>
                    (files Demo.with_ledger)))).
Proof.
  split; [decide_by_vm |].
  split; [decide_by_vm |].
  apply (harvest_three Demo.still Demo.save_folder Demo.three_images Demo.with_ledger
           11%nat 12%nat 13%nat Demo.A Demo.B Demo.C (get_image_hash Demo.A +:+ LF)
           ("bytes of " +:+ Demo.B) ("bytes of " +:+ Demo.C)).
  - reflexivity.
  - intros t img name _. reflexivity.
  - reflexivity.
  - reflexivity.
  - reflexivity.
  - vm_compute. reflexivity.
  - decide_by_vm.
  - decide_by_vm.
  - decide_by_vm.
  - decide_by_vm.
  - intros t _. reflexivity.
  - intros t _. reflexivity.
  - intros t _. reflexivity.
Defined.

(** ** Every sequence of samples is observed on some page *)

Lemma turn_slot (k r : nat) :
  (r < 12)%nat -> Demo.turn (7 + 12 * k + r) = k /\ Demo.slot (7 + 12 * k + r) = r.
Proof.
  intros Hr. unfold Demo.turn, Demo.slot.
  replace (7 + 12 * k + r - 7)%nat with (r + k * 12)%nat by lia.
  rewrite Nat.div_add, Nat.Div0.mod_add by lia.
  rewrite Nat.div_small, Nat.mod_small by lia. split; reflexivity.
Qed.

Lemma scripted_property (samples : list sample) (k r : nat) (p : property) (c : WebElement) :
  (r < 12)%nat ->
  property_at (Demo.scripted samples) (7 + 12 * k + r) p c
  = inr match p, r with
        | clientHeight, _ => 0
        | scrollTop, 3%nat => current_scroll_top (nth k samples Demo.blank)
        | scrollTop, _ => new_scroll_top (nth k samples Demo.blank)
        | scrollHeight, 4%nat => current_scroll_height (nth k samples Demo.blank)
        | scrollHeight, 11%nat => new_scroll_height (nth k samples Demo.blank)
        | scrollHeight, _ => 1
        end.
Proof.
  intros Hr. cbn [Demo.scripted Demo.env property_at].
  destruct (turn_slot k r Hr) as [-> ->]. reflexivity.
Qed.

Lemma get_message_container_first (E : Env) (w : World) (c : WebElement)
    (rest : list WebElement) (scroll_height client_height : Z) :
  find_elements_at E (tick w) CONTAINER_XPATH = inr (c :: rest) ->
  property_at E (S (tick w)) scrollHeight c = inr scroll_height ->
  property_at E (S (S (tick w))) clientHeight c = inr client_height ->
  client_height < scroll_height ->
  get_message_container E w = (inr (Some c), next (next (next w))).
Proof.
  intros Hfind Hsh Hch Hover. unfold get_message_container, find_elements.
  rewrite bind_run, outside_run, Hfind. cbn [first_scrollable].
  rewrite !bind_run. unfold try_except. rewrite bind_run.
  unfold execute_script. rewrite outside_run. cbn [tick next]. rewrite Hsh.
  rewrite bind_run, outside_run. cbn [tick next]. rewrite Hch. cbn [ret].
  assert ((scroll_height >? client_height) = true) as -> by (apply Z.gtb_lt; lia).
  reflexivity.
Qed.

Lemma measure_scripted (samples : list sample) (k : nat) (disk : gmap string string) :
  measure (Demo.scripted samples) {| tick := 7 + 12 * k; files := disk |}
  = (inr (Some (nth k samples Demo.blank)), {| tick := 7 + 12 * S k; files := disk |}).
Proof.
  assert (forall r, (r < 12)%nat -> forall p c,
             property_at (Demo.scripted samples) (r + (7 + 12 * k)) p c
             = inr match p, r with
                   | clientHeight, _ => 0
                   | scrollTop, 3%nat => current_scroll_top (nth k samples Demo.blank)
                   | scrollTop, _ => new_scroll_top (nth k samples Demo.blank)
                   | scrollHeight, 4%nat => current_scroll_height (nth k samples Demo.blank)
                   | scrollHeight, 11%nat => new_scroll_height (nth k samples Demo.blank)
                   | scrollHeight, _ => 1
                   end) as Hat.
  { intros r Hr p c. rewrite (Nat.add_comm r). now apply scripted_property. }
  unfold measure. rewrite bind_run.
  rewrite (get_message_container_first (Demo.scripted samples) _ 1%nat [2%nat] 1 0);
    [| reflexivity | apply (Hat 1%nat); lia | apply (Hat 2%nat); lia | lia].
  unfold execute_script, scroll_to_top, sleep.
  rewrite bind_run, outside_run. cbn [tick next]. rewrite (Hat 3%nat) by lia.
  rewrite bind_run, outside_run. cbn [tick next]. rewrite (Hat 4%nat) by lia.
  rewrite bind_run, outside_run. cbn [tick next Demo.scripted Demo.env scroll_to_at].
  rewrite bind_run, outside_run. cbn [tick next].
  rewrite bind_run.
  rewrite (get_message_container_first (Demo.scripted samples) _ 1%nat [2%nat] 1 0);
    [| reflexivity | apply (Hat 8%nat); lia | apply (Hat 9%nat); lia | lia].
  rewrite bind_run, outside_run. cbn [tick next]. rewrite (Hat 10%nat) by lia.
  rewrite bind_run, outside_run. cbn [tick next]. rewrite (Hat 11%nat) by lia.
  destruct (nth k samples Demo.blank).
  cbn [ret current_scroll_top current_scroll_height new_scroll_top new_scroll_height].
  unfold next. cbn [tick files]. do 2 f_equal. lia.
Qed.

Lemma scroll_once_without_download (E : Env) (save_folder : string) (count : nat)
    (w : World) (s : sample) (w1 : World) :
  measure E w = (inr (Some s), w1) ->
  scroll_once E false save_folder (count, w)
  = (inr (flow_after count (Measured s)), (count_after count (Measured s), w1)).
Proof.
  intros Hm. unfold scroll_once, try_except. rewrite bind_run, lift_run, Hm.
  cbn [fst snd]. unfold react, flow_after, count_after, stalled.
  destruct (new_scroll_height s >? current_scroll_height s) eqn:Hgrow.
  - assert ((new_scroll_height s =? current_scroll_height s) = false) as ->
      by (apply Z.eqb_neq; apply Z.gtb_lt in Hgrow; lia).
    reflexivity.
  - rewrite (andb_comm (new_scroll_top s =? 0)).
    destruct ((new_scroll_height s =? current_scroll_height s) && (new_scroll_top s =? 0)).
    + rewrite bind_run. cbn [assign fst snd]. rewrite bind_run. cbn [locals fst andb].
      now destruct (3 <=? S count)%nat.
    + reflexivity.
Qed.

Lemma scroll_loop_scripted (samples : list sample) (n k count : nat)
    (disk : gmap string string) :
  (k + n <= length samples)%nat -> (count < 3)%nat ->
  exists found st',
    scroll_loop (Demo.scripted samples) false Demo.save_folder n
      (count, {| tick := 7 + 12 * k; files := disk |}) = (inr found, st') /\
    (found = true <->
     exists j, (j < n)%nat /\
       fold_left count_after (map Measured (take (S j) (drop k samples))) count = 3%nat).
Proof.
  revert k count. induction n as [|n IH]; intros k count Hlen Hcount.
  - eexists _, _. split; [reflexivity |].
    split; [discriminate | intros (j & Hj & _); lia].
  - cbn [scroll_loop]. rewrite bind_run.
    rewrite (scroll_once_without_download _ _ _ _ _ _ (measure_scripted samples k disk)).
    assert (drop k samples = nth k samples Demo.blank :: drop (S k) samples) as Hdrop.
    { clear IH. revert k Hlen. induction samples as [|s samples IHs]; intros k Hlen.
      - cbn in Hlen. lia.
      - destruct k as [|k]; [reflexivity |]. cbn [drop nth]. apply IHs. cbn in Hlen. lia. }
    rewrite Hdrop.
    destruct (flow_after_cases count (Measured (nth k samples Demo.blank)) Hcount)
      as [[-> Hthree] | [[-> Hless] | [Hbreak _]]].
    + eexists _, _. split; [reflexivity |]. split; [intros _ | reflexivity].
      exists 0%nat. split; [lia |]. rewrite take_S_cons, take_0. exact Hthree.
    + destruct (IH (S k) (count_after count (Measured (nth k samples Demo.blank))))
        as (found & st' & Hrun & Hfound); [lia | exact Hless |].
      exists found, st'. split; [exact Hrun |]. rewrite Hfound. split.
      * intros (j & Hj & Hfold). exists (S j). split; [lia |].
        rewrite take_S_cons. exact Hfold.
      * intros ([|j] & Hj & Hfold).
        -- rewrite take_S_cons, take_0 in Hfold. cbn [map fold_left] in Hfold. lia.
        -- exists j. split; [lia |]. rewrite take_S_cons in Hfold. exact Hfold.
    + cbn [flow_after] in Hbreak.
      destruct (stalled (nth k samples Demo.blank) && (3 <=? S count)%nat);
        discriminate Hbreak.
Qed.

Lemma iterations_scripted (samples : list sample) (n k : nat) (disk : gmap string string) :
  (k + n <= length samples)%nat ->
  iterations (Demo.scripted samples) false Demo.save_folder n
    {| tick := 7 + 12 * k; files := disk |}
  = map Measured (take n (drop k samples)).
Proof.
  revert k. induction n as [|n IH]; intros k Hlen; [reflexivity |].
  cbn [iterations]. unfold observe, iteration_end. rewrite measure_scripted.
  cbn [fst andb]. rewrite (IH (S k)) by lia.
  assert (drop k samples = nth k samples Demo.blank :: drop (S k) samples) as ->.
  { clear IH. revert k Hlen. induction samples as [|s samples IHs]; intros k Hlen.
    - cbn in Hlen. lia.
    - destruct k as [|k]; [reflexivity |]. cbn [drop nth]. apply IHs. cbn in Hlen. lia. }
  reflexivity.
Qed.

(** For every sequence of samples and every budget it affords, there is a
    page on which the iterations observe these samples in order, and on it
    [scroll_until_date] returns [True] exactly when the stall counter run
    over the samples reaches 3 within the budget. *)
Theorem scroll_until_date_on_samples (samples : list sample) (max_scrolls : nat) :
  (max_scrolls <= length samples)%nat ->
  exists found w',
    scroll_until_date (Demo.scripted samples) None max_scrolls false Demo.save_folder
      Demo.start = (inr found, w') /\
    (found = true <->
     exists k, (k < max_scrolls)%nat /\
               stall_count (map Measured (take (S k) samples)) = 3%nat).
Proof.
  intros Hlen.
  destruct (scroll_loop_scripted samples max_scrolls 0 0 ∅) as (found & st' & Hrun & Hfound);
    [lia | lia |].
  exists found, (snd st'). split; [| exact Hfound].
  unfold scroll_until_date, sleep. rewrite bind_run, outside_run.
  rewrite bind_run.
  rewrite (get_message_container_first (Demo.scripted samples) _ 1%nat [2%nat] 1 0);
    [| reflexivity | reflexivity | reflexivity | lia].
  unfold execute_script.
  rewrite bind_run, outside_run. cbn [Demo.scripted Demo.env property_at].
  rewrite bind_run, outside_run. rewrite bind_run, outside_run.
  unfold with_locals, next, Demo.start. cbn [tick files].
  cbn [Nat.mul Nat.add] in Hrun. rewrite Hrun. reflexivity.
Qed.

(** C2. On any page and for every budget, once the container has been
    found and its geometry read, the call returns; it returns [True]
    exactly when the stall counter, run over what the successive
    iterations observe, reaches 3 at one of the [max_scrolls] iterations
    (no earlier one having lost the container), and [False] when the budget
    runs out first. What the iterations observe is read off the page, not off
    the loop. When every iteration takes its sample, success is exactly the
    counter reaching 3 within the budget. And every sequence of samples is
    shown by some page, on which the call returns [True] exactly when the
    counter run over the samples reaches 3 within the budget. *)
Theorem scroll_until_date_outcome (E : Env) (download_images : bool) (save_folder : string)
    (target_date : option string) (max_scrolls : nat) :
  (forall w container w1 scroll_top w0,
      (sleep ;;; get_message_container E) w = (inr (Some container), w1) ->
      (scroll_height <- execute_script E scrollHeight (Some container) ;;
       client_height <- execute_script E clientHeight (Some container) ;;
       execute_script E scrollTop (Some container)) w1 = (inr scroll_top, w0) ->
      let observed := iterations E download_images save_folder max_scrolls w0 in
      exists found w',
        scroll_until_date E target_date max_scrolls download_images save_folder w
        = (inr found, w') /\
        (found = true <->
         exists k, (k < max_scrolls)%nat /\ stall_count (take (S k) observed) = 3%nat /\
                   ContainerLost ∉ take k observed) /\
        ((forall k, (k < max_scrolls)%nat -> (stall_count (take (S k) observed) < 3)%nat) ->
         found = false) /\
        (Forall (fun o => exists s, o = Measured s) observed ->
         (found = true <->
          exists k, (k < max_scrolls)%nat /\ stall_count (take (S k) observed) = 3%nat))) /\
  (forall samples,
      (max_scrolls <= length samples)%nat ->
      iterations (Demo.scripted samples) false Demo.save_folder max_scrolls
        {| tick := 7; files := ∅ |}
      = map Measured (take max_scrolls samples) /\
      exists found w',
        scroll_until_date (Demo.scripted samples) None max_scrolls false Demo.save_folder
          Demo.start = (inr found, w') /\
        (found = true <->
         exists k, (k < max_scrolls)%nat /\
                   stall_count (map Measured (take (S k) samples)) = 3%nat)).
Proof.
  split.
  - intros w container w1 scroll_top w0. apply scroll_until_date_iterations.
  - intros samples Hlen. split.
    + apply (iterations_scripted samples max_scrolls 0 ∅). lia.
    + now apply scroll_until_date_on_samples.
Qed.

Lemma scroll_until_date_outcome_witness :
  let observed := iterations Demo.still false Demo.save_folder 4 {| tick := 9; files := ∅ |} in
  (sleep ;;; get_message_container Demo.still) Demo.start
  = (inr (Some 2%nat), {| tick := 6; files := ∅ |}) /\
  (exists found w',
      scroll_until_date Demo.still None 4 false Demo.save_folder Demo.start
      = (inr found, w') /\
      (found = true <->
       exists k, (k < 4)%nat /\ stall_count (take (S k) observed) = 3%nat /\
                 ContainerLost ∉ take k observed) /\
      ((forall k, (k < 4)%nat -> (stall_count (take (S k) observed) < 3)%nat) ->
       found = false) /\
      (Forall (fun o => exists s, o = Measured s) observed ->
       (found = true <->
        exists k, (k < 4)%nat /\ stall_count (take (S k) observed) = 3%nat))).
Proof.
  cbv zeta. split; [vm_compute; reflexivity |].
  apply (proj1 (scroll_until_date_outcome Demo.still false Demo.save_folder None 4)
           Demo.start 2%nat {| tick := 6; files := ∅ |} 0 {| tick := 9; files := ∅ |}).
  - vm_compute. reflexivity.
  - vm_compute. reflexivity.
Defined.

(** * Further properties of the script *)

(** ** Computations that write no file *)

Create HintDb keeps discriminated.

Section KeepsFiles.

Context {S : Type} `{HasFiles S}.

Lemma keeps_files_ret {A : Type} (a : A) : keeps_files (ret (S := S) a).
Proof. intros s. reflexivity. Qed.

Lemma keeps_files_raise {A : Type} (e : exn) : keeps_files (raise (S := S) (A := A) e).
Proof. intros s. reflexivity. Qed.

Lemma keeps_files_bind {A B : Type} (m : M S A) (k : A -> M S B) :
  keeps_files m -> (forall a, keeps_files (k a)) -> keeps_files (bind m k).
Proof.
  intros Hm Hk s. rewrite bind_run. specialize (Hm s).
  destruct (m s) as [[e|a] s']; [exact Hm |].
  rewrite <- Hm. apply Hk.
Qed.

Lemma keeps_files_try_except {A : Type} (m : M S A) (handler : exn -> M S A) :
  keeps_files m -> (forall e, keeps_files (handler e)) -> keeps_files (try_except m handler).
Proof.
  intros Hm Hh s. unfold try_except. specialize (Hm s).
  destruct (m s) as [[e|a] s']; [| exact Hm].
  rewrite <- Hm. apply Hh.
Qed.

End KeepsFiles.

Lemma keeps_files_outside {A : Type} (answer : nat -> result A) : keeps_files (outside answer).
Proof. intros w. reflexivity. Qed.

Lemma keeps_files_lift {L A : Type} (m : M World A) :
  keeps_files m -> keeps_files (lift (L := L) m).
Proof. intros Hm [l w]. rewrite lift_run. exact (Hm w). Qed.

Lemma keeps_files_assign {L : Type} (f : L -> L) : keeps_files (assign f).
Proof. intros [l w]. reflexivity. Qed.

Lemma keeps_files_locals {L : Type} : keeps_files (locals (L := L)).
Proof. intros [l w]. reflexivity. Qed.

Lemma keeps_files_with_locals {L A : Type} (l : L) (m : M (L * World) A) :
  keeps_files m -> keeps_files (with_locals l m).
Proof.
  intros Hm w. unfold with_locals. specialize (Hm (l, w)).
  destruct (m (l, w)) as [r s']. exact Hm.
Qed.

#[local] Hint Resolve keeps_files_ret keeps_files_raise keeps_files_outside
  keeps_files_lift keeps_files_assign keeps_files_locals keeps_files_with_locals : keeps.

(** One step of the proof that a block keeps the files: split it at its
    [bind]s and handlers, and look at each case of its tests. *)
Ltac keeps_step :=
  match goal with
  | |- keeps_files (bind _ _) => apply keeps_files_bind
  | |- keeps_files (try_except _ _) => apply keeps_files_try_except
  | |- forall _, _ => intro
  | |- keeps_files (if ?b then _ else _) => destruct b
  | |- keeps_files (match ?x with _ => _ end) => destruct x
  | |- keeps_files _ => solve [auto with keeps]
  end.

Ltac keeps := repeat keeps_step.

Section PageOnly.

Variable E : Env.

Lemma keeps_files_execute_script (p : property) (element : option WebElement) :
  keeps_files (execute_script E p element).
Proof. destruct element; apply keeps_files_outside. Qed.

Lemma keeps_files_first_scrollable (containers : list WebElement) :
  keeps_files (first_scrollable E containers).
Proof.
  pose proof keeps_files_execute_script.
  induction containers as [|c rest IH]; cbn [first_scrollable]; keeps.
Qed.

Lemma keeps_files_get_message_container : keeps_files (get_message_container E).
Proof.
  pose proof keeps_files_first_scrollable.
  unfold get_message_container, find_elements. keeps.
Qed.

Lemma keeps_files_measure : keeps_files (measure E).
Proof.
  pose proof keeps_files_get_message_container. pose proof keeps_files_execute_script.
  unfold measure, scroll_to_top, sleep. keeps.
Qed.

Lemma keeps_files_scroll_loop (save_folder : string) (max_scrolls : nat) :
  keeps_files (scroll_loop E false save_folder max_scrolls).
Proof.
  pose proof keeps_files_measure.
  induction max_scrolls as [|n IH]; cbn [scroll_loop]; [keeps |].
  unfold scroll_once, react. keeps.
Qed.

End PageOnly.

(** ** Region selection on any page *)

Section RegionSelectionAnyPage.

Variable E : Env.

(** The loop over the matches on any page, even one that changes between
    two reads: it never raises, reads at most two properties per match, and
    a match it returns was seen to overflow. *)
Lemma first_scrollable_run (containers : list WebElement) (w : World) :
  exists found w',
    first_scrollable E containers w = (inr found, w') /\
    (tick w <= tick w' <= tick w + 2 * length containers)%nat /\
    forall c, found = Some c ->
      c ∈ containers /\ seen_overflowing E (tick w) (tick w') c.
Proof.
  revert w. induction containers as [|c rest IH]; intros w.
  - exists None, w. split; [reflexivity |]. split; [cbn; lia | discriminate].
  - cbn [first_scrollable]. rewrite bind_run. unfold try_except. rewrite bind_run.
    unfold execute_script at 1. rewrite outside_run.
    assert (forall w1, (tick w < tick w1 <= S (S (tick w)))%nat ->
              exists found w',
                first_scrollable E rest w1 = (inr found, w') /\
                (tick w <= tick w' <= tick w + 2 * length (c :: rest))%nat /\
                forall c', found = Some c' ->
                  c' ∈ c :: rest /\ seen_overflowing E (tick w) (tick w') c') as Hrest.
    { intros w1 Hw1. destruct (IH w1) as (found & w' & Hrun & Ht & Hfound).
      exists found, w'. split; [exact Hrun |]. split; [cbn [length]; lia |].
      intros c' Hc'. destruct (Hfound c' Hc') as [Hin (t & sh & ch & Ht0 & Ht1 & Hseen)].
      split; [now constructor |]. exists t, sh, ch. split; [lia |]. split; [lia | exact Hseen]. }
    destruct (property_at E (tick w) scrollHeight c) as [e|scroll_height] eqn:Hsh.
    + cbn [ret]. apply Hrest. cbn. lia.
    + rewrite bind_run. unfold execute_script. rewrite outside_run. cbn [tick next].
      destruct (property_at E (S (tick w)) clientHeight c) as [e|client_height] eqn:Hch;
        cbn [ret]; [apply Hrest; cbn; lia |].
      destruct (scroll_height >? client_height) eqn:Hover; [| apply Hrest; cbn; lia].
      exists (Some c), (next (next w)). split; [reflexivity |].
      split; [cbn [tick next length]; lia |].
      intros c' [= <-]. split; [constructor |].
      exists (tick w), scroll_height, client_height. cbn [tick next].
      repeat split; try assumption; lia.
Qed.

Lemma get_message_container_run (w : World) :
  match find_elements_at E (tick w) CONTAINER_XPATH with
  | inl e => get_message_container E w = (inl e, next w)
  | inr containers =>
      exists chosen w',
        get_message_container E w = (inr chosen, w') /\
        (tick w < tick w' <= tick w + 1 + 2 * length containers)%nat /\
        (chosen = head containers \/
         exists c, chosen = Some c /\ c ∈ containers /\ seen_overflowing E (tick w) (tick w') c)
  end.
Proof.
  unfold get_message_container, find_elements. rewrite bind_run, outside_run.
  destruct (find_elements_at E (tick w) CONTAINER_XPATH) as [e|containers]; [reflexivity |].
  destruct (first_scrollable_run containers (next w)) as (found & w' & Hrun & Ht & Hfound).
  rewrite bind_run, Hrun. cbn [tick next] in Ht.
  destruct found as [c|]; cbn [ret].
  - exists (Some c), w'. split; [reflexivity |]. split; [lia | right].
    destruct (Hfound c eq_refl) as [Hin (t & sh & ch & Ht0 & Ht1 & Hseen)].
    exists c. split; [reflexivity |]. split; [exact Hin |].
    exists t, sh, ch. cbn [tick next] in Ht0. split; [lia |]. split; [lia | exact Hseen].
  - exists (head containers), w'. split; [reflexivity |]. split; [lia | now left].
Qed.

(** X1. [get_message_container] raises exactly when the element query
    raises, and then raises the same exception: a property read that fails
    is passed over. It never writes a file. *)
Theorem get_message_container_raises_only_on_lookup (w : World) :
  (forall e, fst (get_message_container E w) = inl e <->
             find_elements_at E (tick w) CONTAINER_XPATH = inl e) /\
  files (snd (get_message_container E w)) = files w.
Proof.
  split; [| apply keeps_files_get_message_container].
  intros e. pose proof (get_message_container_run w) as Hrun.
  destruct (find_elements_at E (tick w) CONTAINER_XPATH) as [e'|containers].
  - rewrite Hrun. cbn [fst]. split; intros [= ->]; reflexivity.
  - destruct Hrun as (chosen & w' & -> & _). cbn [fst]. split; discriminate.
Qed.

(** X2. On any page, even one that changes during the call: when the
    element query answers [containers], [get_message_container] returns
    one of them, and [None] only when there is none; the match it returns
    is the first one, or one that two successive reads made during the call
    showed to overflow. The call makes at most one query and two reads per
    match. *)
Theorem get_message_container_returns_match (containers : list WebElement) (w : World) :
  find_elements_at E (tick w) CONTAINER_XPATH = inr containers ->
  exists chosen w',
    get_message_container E w = (inr chosen, w') /\
    (chosen = None <-> containers = []) /\
    (forall c, chosen = Some c ->
       c ∈ containers /\
       (head containers = Some c \/ seen_overflowing E (tick w) (tick w') c)) /\
    (tick w < tick w' <= tick w + 1 + 2 * length containers)%nat.
Proof.
  intros Hfind. pose proof (get_message_container_run w) as Hrun. rewrite Hfind in Hrun.
  destruct Hrun as (chosen & w' & Hrun & Ht & Hchosen).
  exists chosen, w'. split; [exact Hrun |]. split; [| split; [| exact Ht]].
  - destruct Hchosen as [-> | (c & -> & Hin & _)].
    + destruct containers; cbn [head]; split; intros; congruence.
    + split; [discriminate | intros ->; inversion Hin].
  - intros c ->. destruct Hchosen as [Hhead | (c' & [= <-] & Hin & Hseen)].
    + split; [| now left]. destruct containers as [|c0 rest]; [discriminate Hhead |].
      injection Hhead as ->. constructor.
    + split; [exact Hin | now right].
Qed.

End RegionSelectionAnyPage.

(** ** File names *)

Lemma split_at_separator (c : ascii) (a a' b b' : string) :
  free_of c a = true -> free_of c a' = true ->
  a +:+ String c b = a' +:+ String c b' -> a = a' /\ b = b'.
Proof.
  revert a'. induction a as [|x a IH]; intros [|x' a']; simpl; intros Ha Ha' Heq.
  - injection Heq as <-. split; reflexivity.
  - injection Heq as <- _. rewrite Ascii.eqb_refl in Ha'. discriminate Ha'.
  - injection Heq as -> _. rewrite Ascii.eqb_refl in Ha. discriminate Ha.
  - injection Heq as <- Heq.
    apply andb_true_iff in Ha as [_ Ha]. apply andb_true_iff in Ha' as [_ Ha'].
    destruct (IH a' Ha Ha' Heq) as [-> ->]. split; reflexivity.
Qed.

Lemma string_of_uint_plain (d : Decimal.uint) :
  free_of "_" (NilEmpty.string_of_uint d) = true /\
  free_of "." (NilEmpty.string_of_uint d) = true.
Proof. induction d; simpl; tauto. Qed.

(** [str(n)] is made of digits and, for a negative number, a sign. *)
Lemma str_plain (n : Z) : free_of "_" (Py.str n) = true /\ free_of "." (Py.str n) = true.
Proof.
  unfold Py.str, NilZero.string_of_int, NilZero.string_of_uint.
  destruct (Z.to_int n) as [d|d]; destruct d; simpl; try tauto;
    apply string_of_uint_plain.
Qed.

Lemma str_inj (n n' : Z) : Py.str n = Py.str n' -> n = n'.
Proof.
  assert (forall z, Z.to_int z <> Decimal.Pos Decimal.Nil /\
                    Z.to_int z <> Decimal.Neg Decimal.Nil) as Hnil.
  { intros [|p|p]; simpl; split; try discriminate; intros [= H];
      now apply DecimalPos.Unsigned.to_uint_nonnil in H. }
  unfold Py.str. intros H. apply (f_equal NilZero.int_of_string) in H.
  rewrite !NilZero.isi in H by apply Hnil.
  injection H as H. now apply DecimalZ.to_int_inj.
Qed.

Lemma image_filename_inj (ts ts' : Z) (idx idx' : nat) (ext ext' : string) :
  image_filename ts idx ext = image_filename ts' idx' ext' ->
  ts = ts' /\ idx = idx' /\ ext = ext'.
Proof.
  unfold image_filename. intros H. apply append_inj_l in H.
  apply split_at_separator in H as [Hts H]; try apply str_plain.
  apply split_at_separator in H as [Hidx H]; try apply str_plain.
  apply str_inj in Hts. apply str_inj in Hidx. split; [exact Hts |].
  split; [lia | exact H].
Qed.

Lemma image_file_inj (save_folder : string) (ts ts' : Z) (idx idx' : nat) (ext ext' : string) :
  Py.path_join save_folder (image_filename ts idx ext)
  = Py.path_join save_folder (image_filename ts' idx' ext') ->
  ts = ts' /\ idx = idx' /\ ext = ext'.
Proof.
  destruct (path_join_relative save_folder) as [p Hp].
  rewrite !Hp by (intros b'; discriminate).
  intros H. apply append_inj_l in H. now apply image_filename_inj.
Qed.

(** X3. The path an image is saved under determines the timestamp, the
    enumeration index and the extension it was built from: two candidates
    of one pass, whose indices differ, are never saved to the same file. *)
Theorem image_files_distinct (save_folder : string) (ts ts' : Z) (idx idx' : nat)
    (ext ext' : string) :
  Py.path_join save_folder (image_filename ts idx ext)
  = Py.path_join save_folder (image_filename ts' idx' ext') ->
  ts = ts' /\ idx = idx' /\ ext = ext'.
Proof. apply image_file_inj. Qed.

(** ** The digest *)

Lemma hex_length (bs : list Z) : String.length (MD5.hex bs) = (2 * length bs)%nat.
Proof. induction bs as [|b bs IH]; simpl; [reflexivity | rewrite IH; lia]. Qed.

Lemma le_bytes_length (n : nat) (x : Z) : length (MD5.le_bytes n x) = n.
Proof. unfold MD5.le_bytes. now rewrite length_map, length_seq. Qed.

(** X4. [get_image_hash] answers 32 lowercase hexadecimal characters for
    every address, so that a digest and a line feed make one line of the
    ledger, read back as that digest. *)
Theorem get_image_hash_shape (url : string) :
  String.length (get_image_hash url) = 32%nat /\
  hex_string (get_image_hash url) = true /\
  Py.splitlines (get_image_hash url +:+ LF) = [get_image_hash url].
Proof.
  split; [| split].
  - unfold get_image_hash, MD5.hexdigest, MD5.digest.
    rewrite hex_length, !length_app, !le_bytes_length. reflexivity.
  - apply get_image_hash_hex.
  - rewrite <- (append_empty_r (get_image_hash url +:+ LF)), append_assoc.
    unfold Py.splitlines. rewrite splitlines_from_hex by apply get_image_hash_hex.
    reflexivity.
Qed.

Section DownloadOne.

Variable E : Env.

(** X5. [download_image] never raises. It answers [True] exactly when the
    request answered 200 and the file was opened and written, and the file
    then holds the body received. No other file is ever touched, and a
    request that raises or answers another status, be it another 2xx,
    touches no file at all. *)
Theorem download_image_outcome (url save_folder filename : string) (w : World) :
  let filepath := Py.path_join save_folder filename in
  exists ok w',
    download_image E url save_folder filename w = (inr ok, w') /\
    (ok = true <-> exists response, download_succeeded E (tick w) url response) /\
    (forall response,
        ok = true -> requests_get_at E (tick w) url = inr response ->
        files w' !! filepath = Some (content response)) /\
    (forall path, path <> filepath -> files w' !! path = files w !! path) /\
    ((forall response,
         requests_get_at E (tick w) url = inr response -> status_code response <> 200) ->
     ok = false /\ w' = next w).
Proof.
  cbv zeta. rewrite download_image_run. cbv zeta. unfold download_succeeded.
  destruct (requests_get_at E (tick w) url) as [e|response] eqn:Hget.
  { exists false, (next w). split; [reflexivity |].
    split; [split; [discriminate | intros (r & Hr & _); discriminate Hr] |].
    split; [discriminate |]. split; [reflexivity |]. intros _. now split. }
  destruct (Z.eqb_spec (status_code response) 200) as [Hstatus|Hstatus].
  2:{ exists false, (next w). split; [reflexivity |].
      split; [split; [discriminate | intros (r & [= <-] & Hr & _); contradiction] |].
      split; [discriminate |]. split; [reflexivity |]. intros _. now split. }
  destruct (os_error_at E (S (tick w))) as [e|] eqn:Hopen.
  { exists false, (next (next w)). split; [reflexivity |].
    split; [split; [discriminate | intros (r & _ & _ & Hr & _); discriminate Hr] |].
    split; [discriminate |]. split; [reflexivity |].
    intros Hno. now destruct (Hno response eq_refl). }
  destruct (os_error_at E (S (S (tick w)))) as [e|] eqn:Hwrite.
  - eexists false, _. split; [reflexivity |]. cbn [files].
    split; [split; [discriminate | intros (r & _ & _ & _ & Hr); discriminate Hr] |].
    split; [discriminate |].
    split; [intros path Hpath; now rewrite lookup_insert_ne |].
    intros Hno. now destruct (Hno response eq_refl).
  - eexists true, _. split; [reflexivity |]. cbn [files].
    split; [split; [intros _; exists response; repeat split; assumption | reflexivity] |].
    split; [intros r _ [= <-]; now rewrite lookup_insert_eq |].
    split; [intros path Hpath; now rewrite lookup_insert_ne |].
    intros Hno. now destruct (Hno response eq_refl).
Qed.

(** X6. A stale image element. When reading [src] raises, the candidate is
    skipped and nothing changes; when reading [width] or [height] raises,
    the dimension rule swallows the exception and does not reject the
    candidate. *)
Theorem stale_image_element (img : WebElement) (w : World) (e : exn) :
  (get_attribute_at E (tick w) img "src" = inl e ->
   forall save_folder hash_file idx vars,
     harvest_image E save_folder hash_file idx img (vars, w) = (inr tt, (vars, next w))) /\
  (get_attribute_at E (tick w) img "width" = inl e ->
   small_image E img w = (inr false, next w)) /\
  (forall width,
      get_attribute_at E (tick w) img "width" = inr width ->
      get_attribute_at E (S (tick w)) img "height" = inl e ->
      small_image E img w = (inr false, next (next w))).
Proof.
  split; [| split].
  - intros Hsrc save_folder hash_file idx vars. rewrite harvest_image_run. now rewrite Hsrc.
  - intros Hwidth. rewrite small_image_run. cbv zeta. now rewrite Hwidth.
  - intros width Hwidth Hheight. rewrite small_image_run. cbv zeta.
    now rewrite Hwidth, Hheight.
Qed.

End DownloadOne.

(** ** A pass as a whole *)

Section PassFrame.

Variable E : Env.
Variable save_folder : string.

Local Abbreviation LEDGER := (HASH_FILE save_folder).

Lemma harvest_image_frame (idx : nat) (img : WebElement) (vars : harvest) (w : World)
    (path : string) :
  let w' := snd (snd (harvest_image E save_folder LEDGER idx img (vars, w))) in
  (is_Some (files w !! path) -> is_Some (files w' !! path)) /\
  (foreign save_folder idx path -> files w' !! path = files w !! path).
Proof.
  cbv zeta. rewrite harvest_image_run.
  destruct (get_attribute_at E (tick w) img "src") as [e|src]; [now split |].
  destruct (not_valid_url src); [now split |]. cbv zeta.
  set (w2 := match get_attribute_at E (S (tick w)) img "width" with
             | inl _ => next (next w)
             | inr _ => next (next (next w))
             end).
  assert (files w2 = files w) as Hfiles2
    by (unfold w2; now destruct (get_attribute_at E (S (tick w)) img "width")).
  destruct (declared_small _ _); [cbn [snd]; rewrite Hfiles2; now split |].
  destruct (bool_decide _); [cbn [snd]; rewrite Hfiles2; now split |].
  rewrite download_image_run. cbv zeta. cbn [tick next].
  set (filepath := Py.path_join save_folder
                     (image_filename (time_ms_at E (tick w2)) idx
                        (extension (default EmptyString src)))).
  assert (forall data (store : gmap string string),
             ((is_Some (files w !! path) -> is_Some (store !! path)) /\
              (foreign save_folder idx path -> store !! path = files w !! path)) ->
             (is_Some (files w !! path) -> is_Some (<[filepath := data]> store !! path)) /\
             (foreign save_folder idx path -> <[filepath := data]> store !! path = files w !! path))
    as Himage.
  { intros data store0 [Hkeep Hsame]. split.
    - intros Hsome. apply lookup_insert_is_Some'. right. now apply Hkeep.
    - intros Hforeign. rewrite lookup_insert_ne; [now apply Hsame |].
      intros <-. destruct Hforeign as [_ Hforeign].
      now apply (Hforeign (time_ms_at E (tick w2)) idx (default EmptyString src) (le_n idx)). }
  assert (forall data (store : gmap string string),
             ((is_Some (files w !! path) -> is_Some (store !! path)) /\
              (foreign save_folder idx path -> store !! path = files w !! path)) ->
             (is_Some (files w !! path) -> is_Some (<[LEDGER := data]> store !! path)) /\
             (foreign save_folder idx path -> <[LEDGER := data]> store !! path = files w !! path))
    as Hledger.
  { intros data store0 [Hkeep Hsame]. split.
    - intros Hsome. apply lookup_insert_is_Some'. right. now apply Hkeep.
    - intros Hforeign. rewrite lookup_insert_ne; [now apply Hsame |].
      intros <-. now destruct Hforeign as [Hforeign _]. }
  assert ((is_Some (files w !! path) -> is_Some (files w2 !! path)) /\
          (foreign save_folder idx path -> files w2 !! path = files w !! path)) as Hstart
    by (rewrite Hfiles2; now split).
  destruct (requests_get_at E (S (tick w2)) (default EmptyString src)) as [e|response];
    [exact Hstart |].
  destruct (status_code response =? 200); [| exact Hstart].
  destruct (os_error_at E (S (S (tick w2)))) as [e|]; [exact Hstart |].
  destruct (os_error_at E (S (S (S (tick w2))))) as [e|]; [cbn [snd files]; now apply Himage |].
  rewrite record_run. cbn [tick files].
  destruct (os_error_at E (3 + S (tick w2))) as [e|]; [cbn [snd files]; now apply Himage |].
  destruct (os_error_at E (S (3 + S (tick w2)))) as [e|]; cbn [snd files next].
  - destruct (_ !! LEDGER); [now apply Himage | now apply Hledger, Himage].
  - now apply Hledger, Himage.
Qed.

Lemma harvest_images_frame (images : list WebElement) (idx : nat) (vars : harvest) (w : World)
    (path : string) :
  let w' := snd (snd (harvest_images E save_folder LEDGER idx images (vars, w))) in
  (is_Some (files w !! path) -> is_Some (files w' !! path)) /\
  (foreign save_folder idx path -> files w' !! path = files w !! path).
Proof.
  cbv zeta. revert idx vars w. induction images as [|img rest IH]; intros idx vars w.
  - now split.
  - cbn [harvest_images]. rewrite bind_run.
    pose proof (harvest_image_frame idx img vars w path) as Hhead. cbv zeta in Hhead.
    destruct (harvest_image_ledger E save_folder idx img vars w) as (vars1 & w1 & Hrun & _).
    rewrite Hrun in Hhead |- *. cbn [snd] in Hhead.
    destruct Hhead as [Hkeep Hsame], (IH (S idx) vars1 w1) as [Hkeep' Hsame'].
    split; [tauto |]. intros Hforeign. rewrite Hsame'; [now apply Hsame |].
    destruct Hforeign as [Hl Hi]. split; [exact Hl |].
    intros timestamp i src Hle. apply Hi. lia.
Qed.

End PassFrame.

Section PassCount.

Variable E : Env.
Variable save_folder : string.

Local Abbreviation LEDGER := (HASH_FILE save_folder).



(** What a pass does before its loop, and how its result is read off the
    loop's. *)
Lemma download_loaded_images_cases (w : World) :
  match os_error_at E (tick w) with
  | Some e => download_loaded_images E save_folder w = (inl e, next w)
  | None =>
      match find_elements_at E (S (tick w)) IMG_XPATH with
      | inl e => download_loaded_images E save_folder w = (inl e, next (next w))
      | inr images =>
          match files w !! LEDGER, os_error_at E (3 + tick w) with
          | Some _, Some e =>
              download_loaded_images E save_folder w = (inl e, next (next (next (next w))))
          | _, _ =>
              exists vars' w',
                harvest_images E save_folder LEDGER 0 images
                  ({| downloaded_hashes := known_hashes (files w !! LEDGER);
                      download_count := 0 |}, loop_start save_folder w)
                = (inr tt, (vars', w')) /\
                download_loaded_images E save_folder w = (inr (download_count vars'), w')
          end
      end
  end.
Proof.
  destruct (os_error_at E (tick w)) as [e|] eqn:Hmk;
    [now apply download_loaded_images_makedirs_fails |].
  destruct (find_elements_at E (S (tick w)) IMG_XPATH) as [e|images] eqn:Hfind.
  { unfold download_loaded_images, makedirs, find_elements.
    rewrite bind_run, outside_run. unfold fault at 1. rewrite Hmk.
    rewrite bind_run, outside_run. cbn [tick next]. now rewrite Hfind. }
  destruct (harvest_images_ledger E save_folder images 0
              {| downloaded_hashes := known_hashes (files w !! LEDGER); download_count := 0 |}
              (loop_start save_folder w)) as (vars' & w' & srcs & Hrun & _).
  destruct (files w !! LEDGER) as [text|] eqn:Hfile.
  - destruct (os_error_at E (3 + tick w)) as [e|] eqn:Hread.
    + now apply (download_loaded_images_read_fails E save_folder w images text).
    + exists vars', w'. split; [exact Hrun |].
      apply (download_loaded_images_run E save_folder w images); try assumption.
      * intros _. exact Hread.
      * now rewrite Hfile.
  - assert (exists vars' w',
               harvest_images E save_folder LEDGER 0 images
                 ({| downloaded_hashes := known_hashes None; download_count := 0 |},
                  loop_start save_folder w) = (inr tt, (vars', w')) /\
               download_loaded_images E save_folder w = (inr (download_count vars'), w')) as H.
    { exists vars', w'. split; [exact Hrun |].
      apply (download_loaded_images_run E save_folder w images); try assumption.
      * rewrite Hfile. intros [? ?]. discriminate.
      * now rewrite Hfile. }
    destruct (os_error_at E (3 + tick w)); exact H.
Qed.

(** X7. A pass raises exactly when creating the folder, querying the
    images or reading the ledger file raises, and then it raises that
    exception and has written nothing; whatever happens to a candidate
    inside the loop is swallowed there. *)
Theorem download_loaded_images_raises (w : World) (e : exn) :
  (fst (download_loaded_images E save_folder w) = inl e <->
   os_error_at E (tick w) = Some e \/
   (os_error_at E (tick w) = None /\
    find_elements_at E (S (tick w)) IMG_XPATH = inl e) \/
   (os_error_at E (tick w) = None /\
    is_Some (files w !! LEDGER) /\
    (exists images, find_elements_at E (S (tick w)) IMG_XPATH = inr images) /\
    os_error_at E (3 + tick w) = Some e)) /\
  (fst (download_loaded_images E save_folder w) = inl e ->
   files (snd (download_loaded_images E save_folder w)) = files w).
Proof.
  pose proof (download_loaded_images_cases w) as Hcases.
  destruct (os_error_at E (tick w)) as [e0|].
  { rewrite Hcases. cbn [fst snd]. split; [| reflexivity]. split.
    - intros [= ->]. now left.
    - intros [[= ->] | [[[=] _] | [[=] _]]]. reflexivity. }
  destruct (find_elements_at E (S (tick w)) IMG_XPATH) as [e0|images].
  { rewrite Hcases. cbn [fst snd]. split; [| reflexivity]. split.
    - intros [= ->]. right; left. now split.
    - intros [[=] | [[_ [= ->]] | (_ & _ & [images [=]] & _)]]. reflexivity. }
  destruct (files w !! LEDGER) as [text|].
  - destruct (os_error_at E (3 + tick w)) as [e0|].
    + rewrite Hcases. cbn [fst snd]. split; [| reflexivity]. split.
      * intros [= ->]. right; right. repeat split; eauto.
      * intros [[=] | [[_ [=]] | (_ & _ & _ & [= ->])]]. reflexivity.
    + destruct Hcases as (vars' & w' & _ & ->). cbn [fst]. split; [| discriminate]. split.
      * discriminate.
      * intros [[=] | [[_ [=]] | (_ & _ & _ & [=])]].
  - assert (exists vars' w',
               download_loaded_images E save_folder w = (inr (download_count vars'), w'))
      as (vars' & w' & ->)
      by (destruct (os_error_at E (3 + tick w)); destruct Hcases as (v & w0 & _ & H); eauto).
    cbn [fst]. split; [| discriminate]. split.
    + discriminate.
    + intros [[=] | [[_ [=]] | (_ & [? [=]] & _)]].
Qed.

End PassCount.



Section WholePass.

Variable E : Env.
Variable save_folder : string.

Local Abbreviation LEDGER := (HASH_FILE save_folder).


(** X9. A pass writes inside its folder only: a file that is neither the
    ledger nor named as an image of the folder is left as it was, and no
    file is removed, however the pass ends. *)
Theorem download_loaded_images_frame (w : World) (path : string) :
  let w' := snd (download_loaded_images E save_folder w) in
  (is_Some (files w !! path) -> is_Some (files w' !! path)) /\
  (path <> LEDGER ->
   (forall timestamp idx src,
       path <> Py.path_join save_folder (image_filename timestamp idx (extension src))) ->
   files w' !! path = files w !! path).
Proof.
  cbv zeta. pose proof (download_loaded_images_cases E save_folder w) as Hcases.
  assert (forall images vars' w',
             harvest_images E save_folder LEDGER 0 images
               ({| downloaded_hashes := known_hashes (files w !! LEDGER); download_count := 0 |},
                loop_start save_folder w) = (inr tt, (vars', w')) ->
             (is_Some (files w !! path) -> is_Some (files w' !! path)) /\
             (path <> LEDGER ->
              (forall timestamp idx src,
                  path <> Py.path_join save_folder
                            (image_filename timestamp idx (extension src))) ->
              files w' !! path = files w !! path)) as Hloop.
  { intros images vars' w' Hrun.
    pose proof (harvest_images_frame E save_folder images 0
                  {| downloaded_hashes := known_hashes (files w !! LEDGER);
                     download_count := 0 |} (loop_start save_folder w) path) as Hframe.
    cbv zeta in Hframe. rewrite Hrun in Hframe. cbn [snd loop_start files] in Hframe.
    destruct Hframe as [Hkeep Hsame]. split; [exact Hkeep |].
    intros Hledger Himage. apply Hsame. split; [exact Hledger |].
    intros timestamp i src _. apply Himage. }
  destruct (os_error_at E (tick w)) as [e|]; [rewrite Hcases; now split |].
  destruct (find_elements_at E (S (tick w)) IMG_XPATH) as [e|images];
    [rewrite Hcases; now split |].
  destruct (files w !! LEDGER) as [text|] eqn:Hfile.
  - destruct (os_error_at E (3 + tick w)) as [e|]; [rewrite Hcases; now split |].
    destruct Hcases as (vars' & w' & Hrun & ->). now apply (Hloop images vars').
  - assert (exists vars' w',
               harvest_images E save_folder LEDGER 0 images
                 ({| downloaded_hashes := known_hashes None; download_count := 0 |},
                  loop_start save_folder w) = (inr tt, (vars', w')) /\
               download_loaded_images E save_folder w = (inr (download_count vars'), w'))
      as (vars' & w' & Hrun & ->)
      by (destruct (os_error_at E (3 + tick w)); exact Hcases).
    now apply (Hloop images vars').
Qed.


(** X11. A page without images: the pass returns 0 and changes no file; in
    particular it does not create the ledger file. *)
Theorem download_loaded_images_no_images (w : World) :
  os_error_at E (tick w) = None ->
  find_elements_at E (S (tick w)) IMG_XPATH = inr [] ->
  (is_Some (files w !! LEDGER) -> os_error_at E (3 + tick w) = None) ->
  fst (download_loaded_images E save_folder w) = inr 0%nat /\
  files (snd (download_loaded_images E save_folder w)) = files w.
Proof.
  intros Hmk Hfind Hread.
  rewrite (download_loaded_images_run E save_folder w []
             {| downloaded_hashes := known_hashes (files w !! LEDGER); download_count := 0 |}
             (loop_start save_folder w) Hmk Hfind Hread eq_refl).
  split; reflexivity.
Qed.

End WholePass.

(** ** The scroll controller on any page *)

Section ScrollControllerAnyPage.

Variable E : Env.
Variable download_images : bool.
Variable save_folder : string.

(** The loop never raises, and it answers [True] only after the counter,
    which an iteration raises by one at most, has reached 3. *)
Lemma scroll_loop_returns (n count : nat) (w : World) :
  exists found st',
    scroll_loop E download_images save_folder n (count, w) = (inr found, st') /\
    (found = true -> (3 <= count + n)%nat).
Proof.
  revert count w. induction n as [|n IH]; intros count w.
  - exists false, (count, w). split; [reflexivity | discriminate].
  - cbn [scroll_loop]. rewrite bind_run.
    destruct (scroll_once_spec E download_images save_folder count w) as [w' ->].
    destruct (observe E w) as [s| |e]; cbn [flow_after count_after].
    + destruct (stalled s); cbn [andb].
      * destruct (Nat.leb_spec 3 (S count)).
        -- eexists true, _. split; [reflexivity | lia].
        -- destruct (IH (S count) w') as (found & st' & -> & Hfound).
           exists found, st'. split; [reflexivity |].
           intros Htrue. specialize (Hfound Htrue). lia.
      * destruct (IH 0%nat w') as (found & st' & -> & Hfound).
        exists found, st'. split; [reflexivity |].
           intros Htrue. specialize (Hfound Htrue). lia.
    + eexists false, _. split; [reflexivity | discriminate].
    + destruct (IH count w') as (found & st' & -> & Hfound).
      exists found, st'. split; [reflexivity |].
           intros Htrue. specialize (Hfound Htrue). lia.
Qed.

(** The call, split at what it does before the loop. *)
Lemma scroll_until_date_cases (target_date : option string) (max_scrolls : nat) (w : World) :
  match (sleep ;;; get_message_container E) w with
  | (inl e, w1) =>
      scroll_until_date E target_date max_scrolls download_images save_folder w = (inl e, w1)
  | (inr None, w1) =>
      scroll_until_date E target_date max_scrolls download_images save_folder w
      = (inr false, w1)
  | (inr (Some container), w1) =>
      match (scroll_height <- execute_script E scrollHeight (Some container) ;;
             client_height <- execute_script E clientHeight (Some container) ;;
             execute_script E scrollTop (Some container)) w1 with
      | (inl e, w0) =>
          scroll_until_date E target_date max_scrolls download_images save_folder w
          = (inl e, w0)
      | (inr _, w0) =>
          exists found st',
            scroll_loop E download_images save_folder max_scrolls (0%nat, w0)
            = (inr found, st') /\
            scroll_until_date E target_date max_scrolls download_images save_folder w
            = (inr found, snd st')
      end
  end.
Proof.
  unfold scroll_until_date. rewrite !(bind_run sleep). unfold sleep. rewrite !outside_run.
  rewrite (bind_run (get_message_container E)).
  destruct (get_message_container E (next w)) as [[e|[container|]] w1]; try reflexivity.
  rewrite !(bind_run (execute_script E scrollHeight (Some container))).
  destruct (execute_script E scrollHeight (Some container) w1) as [[e|sh] w2]; [reflexivity |].
  rewrite !(bind_run (execute_script E clientHeight (Some container))).
  destruct (execute_script E clientHeight (Some container) w2) as [[e|ch] w3]; [reflexivity |].
  destruct (execute_script E scrollTop (Some container) w3) as [[e|st] w0] eqn:Htop.
  - rewrite bind_run, Htop. reflexivity.
  - destruct (scroll_loop_returns max_scrolls 0 w0) as (found & st' & Hrun & _).
    exists found, st'. split; [exact Hrun |].
    rewrite bind_run, Htop. unfold with_locals. now rewrite Hrun.
Qed.

(** X12. Without a node matching the container fingerprint the call
    answers [False] at once: it has waited, queried the page once, and
    neither scrolled nor harvested. *)
Theorem scroll_until_date_no_container (target_date : option string) (max_scrolls : nat)
    (w : World) :
  find_elements_at E (S (tick w)) CONTAINER_XPATH = inr [] ->
  scroll_until_date E target_date max_scrolls download_images save_folder w
  = (inr false, next (next w)).
Proof.
  intros Hfind. pose proof (scroll_until_date_cases target_date max_scrolls w) as Hcases.
  rewrite bind_run in Hcases. unfold sleep in Hcases. rewrite outside_run in Hcases.
  unfold get_message_container, find_elements in Hcases.
  rewrite bind_run, outside_run in Hcases. cbn [tick next] in Hcases.
  rewrite Hfind in Hcases. exact Hcases.
Qed.

(** X13. The call raises only before its loop: exactly when locating the
    container, or one of the three reads of its geometry that follow,
    raises. Nothing raised inside the loop, by the page or by a harvest
    pass, leaves the call. *)
Theorem scroll_until_date_raises_only_before_loop (target_date : option string)
    (max_scrolls : nat) (w : World) (e : exn) :
  fst (scroll_until_date E target_date max_scrolls download_images save_folder w) = inl e <->
  fst ((sleep ;;; get_message_container E) w) = inl e \/
  exists container w1,
    (sleep ;;; get_message_container E) w = (inr (Some container), w1) /\
    fst ((scroll_height <- execute_script E scrollHeight (Some container) ;;
          client_height <- execute_script E clientHeight (Some container) ;;
          execute_script E scrollTop (Some container)) w1) = inl e.
Proof.
  pose proof (scroll_until_date_cases target_date max_scrolls w) as Hcases.
  destruct ((sleep ;;; get_message_container E) w) as [[e0|[container|]] w1].
  - rewrite Hcases. cbn [fst]. split; [intros [= ->]; now left |].
    intros [[= ->] | (c & w1' & [=] & _)]. reflexivity.
  - destruct ((scroll_height <- execute_script E scrollHeight (Some container) ;;
               client_height <- execute_script E clientHeight (Some container) ;;
               execute_script E scrollTop (Some container)) w1) as [[e0|st] w0] eqn:Hreads.
    + rewrite Hcases. cbn [fst]. split.
      * intros [= ->]. right. exists container, w1. split; [reflexivity |].
        now rewrite Hreads.
      * intros [[=] | (c & w1' & [= <- <-] & H)]. rewrite Hreads in H.
        cbn [fst] in H. now injection H as ->.
    + destruct Hcases as (found & st' & _ & ->). cbn [fst]. split; [discriminate |].
      intros [[=] | (c & w1' & [= <- <-] & H)]. rewrite Hreads in H. discriminate H.
  - rewrite Hcases. cbn [fst]. split; [discriminate |].
    intros [[=] | (c & w1' & [=] & _)].
Qed.

(** X14. With [download_images=False] the scroll controller writes no file:
    whatever the page does and however the call ends, the files are those
    it started with. *)
Theorem scroll_until_date_keeps_files (target_date : option string) (max_scrolls : nat)
    (w : World) :
  files (snd (scroll_until_date E target_date max_scrolls false save_folder w)) = files w.
Proof.
  revert w. change (keeps_files (scroll_until_date E target_date max_scrolls false save_folder)).
  pose proof keeps_files_get_message_container. pose proof keeps_files_execute_script.
  pose proof keeps_files_scroll_loop.
  unfold scroll_until_date, sleep. keeps.
Qed.

(** X15. Reporting the top takes three stalls, hence three iterations: with
    a budget below 3 the call never answers [True], whatever the page
    shows. *)
Theorem scroll_needs_three_iterations (target_date : option string) (max_scrolls : nat)
    (w : World) :
  (max_scrolls < 3)%nat ->
  fst (scroll_until_date E target_date max_scrolls download_images save_folder w) <> inr true.
Proof.
  intros Hbudget. pose proof (scroll_until_date_cases target_date max_scrolls w) as Hcases.
  destruct ((sleep ;;; get_message_container E) w) as [[e0|[container|]] w1];
    [rewrite Hcases; discriminate | | rewrite Hcases; discriminate].
  destruct ((scroll_height <- execute_script E scrollHeight (Some container) ;;
             client_height <- execute_script E clientHeight (Some container) ;;
             execute_script E scrollTop (Some container)) w1) as [[e0|st] w0];
    [rewrite Hcases; discriminate |].
  destruct Hcases as (found & st' & Hrun & ->). cbn [fst]. intros [= ->].
  destruct (scroll_loop_returns max_scrolls 0 w0) as (found & st'' & Hrun' & Hfound).
  rewrite Hrun in Hrun'. injection Hrun' as <- _. specialize (Hfound eq_refl). lia.
Qed.

(** X16. Within an iteration that took both measurements, a harvest pass
    runs exactly when harvesting is enabled and the height grew. The
    iteration then resets the counter and goes on to the next one, even
    when the pass raised. *)
Theorem harvest_on_growth (count : nat) (w : World) (s : sample) (w1 : World) :
  measure E w = (inr (Some s), w1) ->
  snd (snd (scroll_once E download_images save_folder (count, w)))
  = (if download_images && (new_scroll_height s >? current_scroll_height s)
     then snd (download_loaded_images E save_folder w1)
     else w1) /\
  (current_scroll_height s < new_scroll_height s ->
   fst (scroll_once E download_images save_folder (count, w)) = inr Next /\
   fst (snd (scroll_once E download_images save_folder (count, w))) = 0%nat).
Proof.
  intros Hm. unfold scroll_once, try_except. rewrite bind_run, lift_run, Hm.
  cbn [fst snd]. unfold react.
  destruct (new_scroll_height s >? current_scroll_height s) eqn:Hgrow.
  - rewrite andb_true_r, bind_run. cbn [assign fst snd].
    destruct download_images.
    + rewrite !bind_run, lift_run. cbn [fst snd].
      destruct (download_loaded_images E save_folder w1) as [[e|n] w2]; cbn [fst snd ret].
      * split; [now destruct e | intros _; now destruct e].
      * split; [reflexivity | intros _; split; reflexivity].
    + split; [reflexivity | intros _; split; reflexivity].
  - rewrite andb_false_r. split.
    + destruct ((new_scroll_top s =? 0) && (new_scroll_height s =? current_scroll_height s)).
      * rewrite bind_run. cbn [assign fst snd]. rewrite bind_run. cbn [locals fst snd].
        now destruct (3 <=? S count)%nat.
      * reflexivity.
    + intros Hlt. lia.
Qed.

(** X17. An iteration in which a driver call raises before the comparison
    is skipped: the loop goes on to the next iteration and the stall
    counter stays as it was. An iteration that does not find the container
    ends the loop: the call answers [False] whatever budget is left. *)
Theorem failed_iteration (count : nat) (w : World) :
  (forall e, fst (measure E w) = inl e ->
     scroll_once E download_images save_folder (count, w)
     = (inr Next, (count, snd (measure E w)))) /\
  (fst (measure E w) = inr None ->
   forall remaining,
     scroll_loop E download_images save_folder (S remaining) (count, w)
     = (inr false, (count, snd (measure E w)))).
Proof.
  split.
  - intros e He. unfold scroll_once, try_except. rewrite bind_run, lift_run, He.
    cbn [fst snd]. now destruct e.
  - intros Hlost remaining. cbn [scroll_loop]. rewrite bind_run.
    unfold scroll_once, try_except. rewrite bind_run, lift_run, Hlost. reflexivity.
Qed.

End ScrollControllerAnyPage.

(** ** The entry point *)

Section EntryPointProperties.

Variable B : Browser.

Lemma driver_call_run (c : call) (answer : nat -> option exn) (log : list call) (w : World) :
  driver_call c answer (log, w)
  = (match answer (tick w) with Some e => inl e | None => inr tt end, (log ++ [c], next w)).
Proof.
  unfold driver_call. rewrite bind_run. cbn [assign fst snd].
  rewrite lift_run, outside_run. reflexivity.
Qed.

Lemma setup_driver_run (log : list call) (w : World) :
  setup_driver B (log, w)
  = (match chrome_at B (tick w) CHROMEDRIVER_PATH LAUNCH_OPTIONS with
     | Some e => inl e
     | None => inr tt
     end, (log ++ [Launch CHROMEDRIVER_PATH LAUNCH_OPTIONS], next w)).
Proof. unfold setup_driver. cbv zeta. now rewrite driver_call_run. Qed.

(** The [try] block with its handler never raises. *)
Lemma main_block_run (log : list call) (w : World) :
  try_except
    (driver_call (Get CONVERSATION) (fun t => get_at B t CONVERSATION) ;;;
     lift sleep ;;;
     let target_date := "Sep 24 at 7:16 PM" in
     found <- lift (scroll_until_date (page B) (Some target_date) 100 true
                      "messenger_images") ;;
     (if found
      then lift (download_loaded_images (page B) "messenger_images") ;;; ret tt
      else ret tt) ;;;
     lift sleep)
    (fun _ => lift sleep) (log, w)
  = (inr tt, (log ++ [Get CONVERSATION], main_pause B w)).
Proof.
  unfold try_except, main_pause, main_scroll, sleep. rewrite bind_run, driver_call_run.
  destruct (get_at B (tick w) CONVERSATION) as [e|]; cbv beta iota.
  { now rewrite lift_run, outside_run. }
  rewrite bind_run, lift_run, outside_run. cbn [fst snd].
  cbv zeta. rewrite bind_run, lift_run.
  destruct (scroll_until_date (page B) (Some "Sep 24 at 7:16 PM") 100 true
              "messenger_images" (next (next w))) as [[e|[|]] w1]; cbn [fst snd].
  - now rewrite lift_run, outside_run.
  - rewrite !bind_run, lift_run.
    destruct (download_loaded_images (page B) "messenger_images" w1) as [[e|n] w2];
      cbn [fst snd ret]; now rewrite lift_run, outside_run.
  - rewrite bind_run. cbn [ret]. now rewrite lift_run, outside_run.
Qed.

Lemma main_run (log : list call) (w : World) :
  main B (log, w)
  = match chrome_at B (tick w) CHROMEDRIVER_PATH LAUNCH_OPTIONS with
    | Some e => (inl e, (log ++ [Launch CHROMEDRIVER_PATH LAUNCH_OPTIONS], next w))
    | None =>
        (match quit_at B (tick (main_pause B (next w))) with
         | Some e => inl e
         | None => inr tt
         end,
         (log ++ [Launch CHROMEDRIVER_PATH LAUNCH_OPTIONS; Get CONVERSATION; Quit],
          next (main_pause B (next w))))
    end.
Proof.
  unfold main. rewrite bind_run, setup_driver_run.
  destruct (chrome_at B (tick w) CHROMEDRIVER_PATH LAUNCH_OPTIONS) as [e|]; [reflexivity |].
  unfold try_finally. rewrite main_block_run, driver_call_run.
  rewrite <- !app_assoc. cbn [app].
  now destruct (quit_at B (tick (main_pause B (next w)))).
Qed.

(** X18. Once the browser is launched, [main] quits it, once and as its
    last call on the driver, whatever the page, the network and the disk
    do; [main] then raises only what [driver.quit()] raises. When the launch
    raises, [main] raises that exception and makes no other call. *)
Theorem main_quits_the_browser (log : list call) (w : World) :
  match chrome_at B (tick w) CHROMEDRIVER_PATH LAUNCH_OPTIONS with
  | Some e =>
      main B (log, w) = (inl e, (log ++ [Launch CHROMEDRIVER_PATH LAUNCH_OPTIONS], next w))
  | None =>
      exists w',
        snd (main B (log, w))
        = (log ++ [Launch CHROMEDRIVER_PATH LAUNCH_OPTIONS; Get CONVERSATION; Quit], next w') /\
        fst (main B (log, w))
        = match quit_at B (tick w') with Some e => inl e | None => inr tt end
  end.
Proof.
  rewrite main_run.
  destruct (chrome_at B (tick w) CHROMEDRIVER_PATH LAUNCH_OPTIONS) as [e|]; [reflexivity |].
  exists (main_pause B (next w)). split; reflexivity.
Qed.

(** X19. The final harvest of [main] runs exactly when the scroll answered
    [True]: the files [main] leaves are then those of a pass made after
    the scroll; when the scroll answered [False] or raised, they are those
    the scroll left; and when the launch or the navigation raised, they
    are those [main] started with. *)
Theorem main_final_harvest (log : list call) (w : World) :
  files (snd (snd (main B (log, w))))
  = match chrome_at B (tick w) CHROMEDRIVER_PATH LAUNCH_OPTIONS,
          get_at B (S (tick w)) CONVERSATION with
    | None, None =>
        let scrolled :=
          scroll_until_date (page B) (Some "Sep 24 at 7:16 PM") 100 true "messenger_images"
            (next (next (next w))) in
        match fst scrolled with
        | inr true =>
            files (snd (download_loaded_images (page B) "messenger_images" (snd scrolled)))
        | _ => files (snd scrolled)
        end
    | _, _ => files w
    end.
Proof.
  rewrite main_run.
  destruct (chrome_at B (tick w) CHROMEDRIVER_PATH LAUNCH_OPTIONS) as [e|]; [reflexivity |].
  cbn [snd files next]. unfold main_pause, main_scroll. cbn [tick next].
  destruct (get_at B (S (tick w)) CONVERSATION) as [e|]; [reflexivity |]. cbv zeta.
  destruct (scroll_until_date (page B) (Some "Sep 24 at 7:16 PM") 100 true
              "messenger_images" (next (next (next w)))) as [[e|[|]] w1]; reflexivity.
Qed.

End EntryPointProperties.

(** ** The further properties at work *)

(** The container vanishes during the first pause: that iteration is
    skipped, the next one does not find the container, and the call
    answers [False] with budget left. *)
Example container_vanishes :
  iterations Demo.vanishing false Demo.save_folder 2 {| tick := 9; files := ∅ |}
  = [Raised (Exception "JavascriptException"); ContainerLost] /\
  fst (scroll_until_date Demo.vanishing None 5 false Demo.save_folder Demo.start) = inr false.
Proof. vm_compute. split; reflexivity. Qed.

(** A whole session on the page that holds still: the scroll reports the
    top, the final pass saves the three images, the browser is quit. *)
Example main_on_still_page :
  let final := main Demo.browser ([], Demo.start) in
  fst final = inr tt /\
  fst (snd final) = [Launch CHROMEDRIVER_PATH LAUNCH_OPTIONS; Get CONVERSATION; Quit] /\
  map fst (map_to_list (files (snd (snd final))))
  = ["messenger_images/img_1700000000076_1.png"; "messenger_images/img_1700000000066_0.jpg";
     "messenger_images/img_1700000000086_2.gif"; "messenger_images/downloaded_hashes.txt"].
Proof. vm_compute. repeat split. Qed.

Lemma get_message_container_returns_match_witness :
  find_elements_at Demo.still 0 CONTAINER_XPATH = inr [1%nat; 2%nat] /\
  exists chosen w',
    get_message_container Demo.still Demo.start = (inr chosen, w') /\
    (forall c, chosen = Some c ->
       c ∈ [1%nat; 2%nat] /\
       (head [1%nat; 2%nat] = Some c \/ seen_overflowing Demo.still 0 (tick w') c)) /\
    (0 < tick w' <= 5)%nat.
Proof.
  split; [reflexivity |].
  destruct (get_message_container_returns_match Demo.still [1%nat; 2%nat] Demo.start eq_refl)
    as (chosen & w' & Hrun & _ & Hin & Ht).
  exists chosen, w'. split; [exact Hrun |]. split; [exact Hin | exact Ht].
Defined.

Lemma image_files_distinct_witness :
  let first := Py.path_join Demo.save_folder (image_filename 1700000000016 1 "png") in
  let second := Py.path_join Demo.save_folder (image_filename 1700000000016 2 "png") in
  first = "messenger_images/img_1700000000016_1.png" /\
  (1700000000016 = 1700000000016 /\ 1%nat = 1%nat /\ "png" = "png") /\
  first <> second.
Proof.
  cbv zeta. split; [reflexivity |]. split.
  - exact (image_files_distinct Demo.save_folder 1700000000016 1700000000016 1 1 "png" "png"
             eq_refl).
  - intros H.
    destruct (image_files_distinct Demo.save_folder 1700000000016 1700000000016 1 2
                "png" "png" H) as (_ & Hidx & _).
    discriminate Hidx.
Defined.



Lemma download_loaded_images_no_images_witness :
  fst (download_loaded_images Demo.empty_page Demo.save_folder Demo.with_ledger) = inr 0%nat /\
  files (snd (download_loaded_images Demo.empty_page Demo.save_folder Demo.with_ledger))
  = files Demo.with_ledger.
Proof.
  apply (download_loaded_images_no_images Demo.empty_page Demo.save_folder Demo.with_ledger).
  - reflexivity.
  - reflexivity.
  - intros _. reflexivity.
Defined.

Lemma scroll_until_date_no_container_witness :
  scroll_until_date Demo.empty_page None 100 true Demo.save_folder Demo.start
  = (inr false, {| tick := 2; files := ∅ |}).
Proof.
  apply (scroll_until_date_no_container Demo.empty_page true Demo.save_folder None 100
           Demo.start).
  reflexivity.
Defined.

Lemma scroll_needs_three_iterations_witness :
  fst (scroll_until_date Demo.still None 2 true Demo.save_folder Demo.start) <> inr true.
Proof.
  apply (scroll_needs_three_iterations Demo.still true Demo.save_folder None 2 Demo.start).
  lia.
Defined.

Lemma harvest_on_growth_witness :
  let w := {| tick := 9; files := ∅ |} in
  let w1 := {| tick := 25; files := ∅ |} in
  let s := {| current_scroll_top := 0; current_scroll_height := 1000;
              new_scroll_top := 0; new_scroll_height := 1500 |} in
  measure Demo.growing w = (inr (Some s), w1) /\
  snd (snd (scroll_once Demo.growing true Demo.save_folder (2%nat, w)))
  = snd (download_loaded_images Demo.growing Demo.save_folder w1) /\
  fst (scroll_once Demo.growing true Demo.save_folder (2%nat, w)) = inr Next /\
  fst (snd (scroll_once Demo.growing true Demo.save_folder (2%nat, w))) = 0%nat.
Proof.
  cbv zeta.
  assert (measure Demo.growing {| tick := 9; files := ∅ |}
          = (inr (Some {| current_scroll_top := 0; current_scroll_height := 1000;
                          new_scroll_top := 0; new_scroll_height := 1500 |}),
             {| tick := 25; files := ∅ |})) as Hm by (vm_compute; reflexivity).
  split; [exact Hm |].
  destruct (harvest_on_growth Demo.growing true Demo.save_folder 2 _ _ _ Hm) as [Hworld Hnext].
  split; [exact Hworld |]. apply Hnext. cbn. lia.
Defined.

Lemma stale_image_element_witness :
  let E := Demo.env (fun _ => Demo.geometry) Demo.stale_width (fun _ => Demo.ok) in
  get_attribute_at E 0 11%nat "width" = inl StaleElementReferenceException /\
  small_image E 11%nat Demo.start = (inr false, {| tick := 1; files := ∅ |}).
Proof.
  cbv zeta. split; [reflexivity |].
  apply (proj1 (proj2 (stale_image_element
                         (Demo.env (fun _ => Demo.geometry) Demo.stale_width (fun _ => Demo.ok))
                         11%nat Demo.start StaleElementReferenceException))).
  reflexivity.
Defined.
